(** * A shallow embedding of LSOC NeutronCommunicator (version control,
      settings, certificates) and the properties of its specification. *)

From Stdlib Require Import String Ascii List ZArith Bool Lia.
From Stdlib Require Import Strings.Byte.
From Stdlib Require Import Sorting.Sorted.
Import ListNotations.
Open Scope string_scope.
Open Scope list_scope.

(* ================================================================= *)
(** ** Shared vocabulary: crate constants, results, the outside world *)

(** [APP_NAME] of [main.rs]. *)
Definition APP_NAME : string := "NeutronCommunicator".
(** [BASE_DIRECTORY] of [main.rs]. *)
Definition BASE_DIRECTORY : string := "/etc/NeutronCommunicator/".

(** Rust's [Result<T, E>]. *)
Inductive result (T E : Type) : Type :=
| Ok : T -> result T E
| Err : E -> result T E.
Arguments Ok {T E} _.
Arguments Err {T E} _.

Definition is_ok {T E} (r : result T E) : bool :=
  match r with Ok _ => true | Err _ => false end.

(** [std::process::Output]; only [stderr] is ever inspected by the code. *)
Record Output := mkOutput { out_status_ok : bool; out_stdout : string; out_stderr : string }.

Set Warnings "-register-all".

(** [serde_json::Value]; numbers are kept as integers (the code only stores
    [i64] values in JSON), an object as its list of entries. *)
Inductive json :=
| JNull
| JBool (b : bool)
| JNum (z : Z)
| JStr (s : string)
| JArr (l : list json)
| JObj (l : list (string * json)).

(** [v[key]] (the [Index<&str>] impl): the entry of an object, [Null] when
    absent or when [v] is not an object. *)
Definition jindex (v : json) (key : string) : json :=
  match v with
  | JObj l => match find (fun kv => String.eqb (fst kv) key) l with
              | Some (_, x) => x
              | None => JNull
              end
  | _ => JNull
  end.

(** [v.as_str().unwrap_or_default()]. *)
Definition as_str_or_default (v : json) : string :=
  match v with JStr s => s | _ => "" end.

(** [BTreeMap<String, V>]: entries in increasing key order ([String]'s [Ord]
    is byte-wise lexicographic, as [String.compare]). *)
Module BTree.
Definition t (V : Type) := list (string * V).

Definition empty {V} : t V := [].

(** [insert(k, v)]. *)
Fixpoint insert {V} (k : string) (v : V) (m : t V) : t V :=
  match m with
  | [] => [(k, v)]
  | (k', v') :: m' =>
      match String.compare k k' with
      | Lt => (k, v) :: m
      | Eq => (k, v) :: m'
      | Gt => (k', v') :: insert k v m'
      end
  end.

(** [get(k)]. *)
Fixpoint get {V} (k : string) (m : t V) : option V :=
  match m with
  | [] => None
  | (k', v') :: m' => if String.eqb k k' then Some v' else get k m'
  end.

(** [values()] in iteration order. *)
Definition values {V} (m : t V) : list V := map snd m.
End BTree.

(** Observable side effects, recorded in the order the code performs them. *)
Inductive Event :=
| EvRun (prog : string) (args : list string)   (* [Command::new(prog).args(args).output()] *)
| EvRemove (path : string)                      (* [fs::remove_file(path)] *)
| EvCopy (src dst : string)                     (* [fs::copy(src, dst)] *)
| EvCopyDir (src dst : string)                  (* [fs_extra::dir::copy] *)
| EvOpen (path : string)                        (* [File::open(path)] *)
| EvPublish (kind : string) (payload : string)  (* [client.publish] of a command *)
| EvTempFile (contents : string)                (* [NamedTempFile::new], [write], [keep] *)
| EvWriteJson (path : string) (doc : json).     (* [File::create] + [write_all] of a JSON document *)

(** The operating system the agent runs against: each primitive reads the
    world [W] and returns the library call's outcome and the next world. *)
Record Sys (W : Type) := {
  sys_output : string -> list string -> W -> option Output * W;
      (* [None]: the process could not be spawned ([Err] of [output()]) *)
  sys_remove : string -> W -> bool * W;
  sys_copy : string -> string -> W -> bool * W;
  sys_copy_dir : string -> string -> W -> bool * W;
  sys_read : string -> W -> option string * W;
      (* [File::open] followed by [read_to_string]; [None] on either error *)
  sys_tempfile : string -> W -> option string * W;
      (* a kept temporary file holding the text; its path, [None] on error *)
  sys_write_json : string -> json -> W -> bool * W;
      (* [File::create(path)] and [write_all] of the serialized document *)
}.
Arguments sys_output {W} _ _ _ _.
Arguments sys_remove {W} _ _ _.
Arguments sys_copy {W} _ _ _ _.
Arguments sys_copy_dir {W} _ _ _ _.
Arguments sys_read {W} _ _ _.
Arguments sys_tempfile {W} _ _ _.
Arguments sys_write_json {W} _ _ _ _.

(** A state-and-trace monad over the world. *)
Definition IO (W A : Type) : Type := W -> A * W * list Event.

Definition io_ret {W A} (a : A) : IO W A := fun w => (a, w, []).
Definition io_bind {W A B} (m : IO W A) (k : A -> IO W B) : IO W B :=
  fun w => let '(a, w1, t1) := m w in
           let '(b, w2, t2) := k a w1 in (b, w2, t1 ++ t2).

Notation "x <- m ;; k" := (io_bind m (fun x => k))
  (at level 61, m at next level, right associativity).
Notation "m ;;; k" := (io_bind m (fun _ => k))
  (at level 61, right associativity).

Section Primitives.
Context {W : Type} (sys : Sys W).

Definition cmd_output (prog : string) (args : list string) : IO W (option Output) :=
  fun w => let '(r, w') := sys_output sys prog args w in (r, w', [EvRun prog args]).
Definition remove_file (p : string) : IO W bool :=
  fun w => let '(r, w') := sys_remove sys p w in (r, w', [EvRemove p]).
Definition fs_copy (s d : string) : IO W bool :=
  fun w => let '(r, w') := sys_copy sys s d w in (r, w', [EvCopy s d]).
Definition fs_copy_dir (s d : string) : IO W bool :=
  fun w => let '(r, w') := sys_copy_dir sys s d w in (r, w', [EvCopyDir s d]).
Definition read_file (p : string) : IO W (option string) :=
  fun w => let '(r, w') := sys_read sys p w in (r, w', [EvOpen p]).
Definition temp_file (contents : string) : IO W (option string) :=
  fun w => let '(r, w') := sys_tempfile sys contents w in (r, w', [EvTempFile contents]).
Definition write_json (p : string) (doc : json) : IO W bool :=
  fun w => let '(r, w') := sys_write_json sys p doc w in (r, w', [EvWriteJson p doc]).
Definition publish (kind payload : string) : IO W unit :=
  fun w => (tt, w, [EvPublish kind payload]).

End Primitives.

(* ================================================================= *)
(** ** [version_control/security.rs]: [set_file_permissions] *)

Module Security.
Section S.
Context {W : Type} (sys : Sys W).

(** [set_file_permissions(file_loc, permission_user, permission_group,
    file_permissions)]: [chmod], then [chown user:group]; any spawn error or
    non-empty [stderr] returns [Err(())] at once. *)
Definition set_file_permissions (file_loc permission_user permission_group
    file_permissions : string) : IO W (result unit unit) :=
  r1 <- cmd_output sys "chmod" [file_permissions; file_loc] ;;
  match r1 with
  | None => io_ret (Err tt)
  | Some res =>
      if negb (String.eqb (out_stderr res) "") then io_ret (Err tt) else
      r2 <- cmd_output sys "chown"
              [(permission_user ++ ":" ++ permission_group)%string; file_loc] ;;
      match r2 with
      | None => io_ret (Err tt)
      | Some res2 =>
          if negb (String.eqb (out_stderr res2) "") then io_ret (Err tt)
          else io_ret (Ok tt)
      end
  end.

End S.
End Security.

(** A command counts as successful in [security.rs] when it was spawned and
    wrote nothing on [stderr]. *)
Definition spawned_clean (o : option Output) : bool :=
  match o with Some res => String.eqb (out_stderr res) "" | None => false end.

(* ================================================================= *)
(** ** String helpers (Rust [str] methods used by the code) *)

(** [s.contains(c)] for a character [c]. *)
Fixpoint str_contains (c : ascii) (s : string) : bool :=
  match s with
  | EmptyString => false
  | String a s' => Ascii.eqb a c || str_contains c s'
  end.

(** [s.split(c).take(1).collect::<String>()]: the text before the first [c]
    (all of [s] when [c] does not occur). *)
Fixpoint split_take1 (c : ascii) (s : string) : string :=
  match s with
  | EmptyString => EmptyString
  | String a s' => if Ascii.eqb a c then EmptyString else String a (split_take1 c s')
  end.

(** Decimal digits of a [Decimal.uint]. *)
Fixpoint uint_to_string (u : Decimal.uint) : string :=
  match u with
  | Decimal.Nil => ""
  | Decimal.D0 u => String "0" (uint_to_string u)
  | Decimal.D1 u => String "1" (uint_to_string u)
  | Decimal.D2 u => String "2" (uint_to_string u)
  | Decimal.D3 u => String "3" (uint_to_string u)
  | Decimal.D4 u => String "4" (uint_to_string u)
  | Decimal.D5 u => String "5" (uint_to_string u)
  | Decimal.D6 u => String "6" (uint_to_string u)
  | Decimal.D7 u => String "7" (uint_to_string u)
  | Decimal.D8 u => String "8" (uint_to_string u)
  | Decimal.D9 u => String "9" (uint_to_string u)
  end.

(** [i64::to_string]. *)
Definition i64_to_string (z : Z) : string :=
  match Z.to_int z with
  | Decimal.Pos u => uint_to_string u
  | Decimal.Neg u => String "-" (uint_to_string u)
  end.

(* ================================================================= *)
(** ** [settings/structs.rs] *)

Module CertificatePaths.
Record t := mk { key : string; cert : string }.
End CertificatePaths.

Module CACertificate.
Record t := mk {
  encrypted : bool;
  duration : Z;                              (* i64 *)
  extensions : string;
  subj : string;
  main_paths : CertificatePaths.t;
  auxiliary_paths : list CertificatePaths.t;
  date_issued : option string;
  passphrase : string }.
End CACertificate.

Module MainCertificate.
Record t := mk {
  encrypted : bool;
  duration : Z;                              (* i64 *)
  key_len : Z;                               (* i64 *)
  subj : string;
  main_paths : CertificatePaths.t;
  auxiliary_paths : list CertificatePaths.t;
  service_ips : list string;
  date_issued : option string;
  passphrase : string }.
End MainCertificate.

Module CertificateSettings.
Record t := mk {
  component_name : string;
  algorithm : string;
  cert_authority : option CACertificate.t;
  main_certificate : MainCertificate.t }.
End CertificateSettings.

Module UpdateComponent.
Record t := mk {
  name : string;
  version_file_path : string;
  permission_user : string;
  permission_group : string;
  file_permissions : string;
  container_name : option string;
  service_name : option string;
  restart_command : string }.
End UpdateComponent.

Module NeutronMqttClient.
Record t := mk { username : string; password : string }.
End NeutronMqttClient.

Module ComponentMqttClient.
Record t := mk { ip : string; port : string; username : string; password : string; cafile : string }.
End ComponentMqttClient.

Module Settings.
Record t := mk {
  neutron_account_username : string;
  neutron_mqtt_client : NeutronMqttClient.t;
  component_mqtt_client : ComponentMqttClient.t;
  application_name : string;
  update_branch : string;
  update_components : list UpdateComponent.t;
  certificates : list CertificateSettings.t }.
End Settings.

(* ================================================================= *)
(** ** [encryption_certificates/mod.rs]: CSR generation and signing *)

Module Certs.
Section S.
Context {W : Type} (sys : Sys W).

(** [std::io::Error], by its message. *)
Definition Error := string.

(** The temporary CSR path of both signing functions: [None] is the early
    [return Err(...)] taken when the key path has no dot. *)
Definition csr_temp_path (key_path : string) : option string :=
  if str_contains "." key_path
  then Some (split_take1 "." key_path ++ ".csr")%string
  else None.

Definition passin (enc : bool) (pass : string) : list string :=
  if enc then ["-passin"; ("pass:" ++ pass)%string] else [].

(** [gen_csr_sign_with_key]. *)
Definition gen_csr_sign_with_key (component_name signing_key : string)
    (signing_key_encrypted : bool) (subj passphrase : string)
    (cert_duration : Z) (crt_path : string) : IO W (result unit Error) :=
  match csr_temp_path signing_key with
  | None => io_ret (Err ("Signing key path does not end with a file extension. Path: "
                         ++ signing_key)%string)
  | Some csr_temp_path =>
      let csr := ["req"; "-out"; csr_temp_path; "-key"; signing_key; "-new";
                  "-subj"; subj] ++ passin signing_key_encrypted passphrase in
      let sign_csr := ["x509"; "-req"; "-days"; i64_to_string cert_duration;
                       "-in"; csr_temp_path; "-signkey"; signing_key;
                       "-out"; crt_path] ++ passin signing_key_encrypted passphrase in
      r1 <- cmd_output sys "openssl" csr ;;
      match r1 with
      | None => io_ret (Err "openssl req")
      | Some _ =>
          r2 <- cmd_output sys "openssl" sign_csr ;;
          match r2 with
          | None => io_ret (Err "openssl x509")
          | Some _ => remove_file sys csr_temp_path ;;; io_ret (Ok tt)
          end
      end
  end.

(** [gen_csr_sign_with_ca]. *)
Definition gen_csr_sign_with_ca (cert : CertificateSettings.t)
    (main_key_passphrase : string) : IO W (result unit Error) :=
  let mc := CertificateSettings.main_certificate cert in
  let key_path := CertificatePaths.key (MainCertificate.main_paths mc) in
  match csr_temp_path key_path with
  | None => io_ret (Err "Main certificate key path does not end with a file extension.")
  | Some csr_temp_path =>
      let cmd_csr := ["req"; "-out"; csr_temp_path; "-key"; key_path; "-new";
                      "-subj"; MainCertificate.subj mc]
                     ++ passin (MainCertificate.encrypted mc) main_key_passphrase in
      match CertificateSettings.cert_authority cert with
      | None => io_ret (Err "Could not find CA certificate settings.")
      | Some ca =>
          let sign0 := ["x509"; "-req"; "-in"; csr_temp_path;
                        "-CA"; CertificatePaths.cert (CACertificate.main_paths ca);
                        "-CAkey"; CertificatePaths.key (CACertificate.main_paths ca);
                        "-CAcreateserial";
                        "-out"; CertificatePaths.cert (MainCertificate.main_paths mc)] in
          let tail := ["-days"; i64_to_string (MainCertificate.duration mc)]
                      ++ passin (CACertificate.encrypted ca) (CACertificate.passphrase ca) in
          let run_both (sign_args : list string) : IO W (result unit Error) :=
            r1 <- cmd_output sys "openssl" cmd_csr ;;
            match r1 with
            | None => io_ret (Err "openssl req")
            | Some _ =>
                r2 <- cmd_output sys "openssl" sign_args ;;
                match r2 with
                | None => io_ret (Err "openssl x509")
                | Some _ => remove_file sys csr_temp_path ;;; io_ret (Ok tt)
                end
            end in
          match MainCertificate.service_ips mc with
          | [] => run_both (sign0 ++ tail)
          | ips =>
              let sans := (String "010" "[SAN]" ++ String "010" "subjectAltName="
                           ++ String.concat "," ips)%string in
              p <- temp_file sys sans ;;
              match p with
              | None => io_ret (Err "Could not write the temporary SANS file.")
              | Some path => run_both (sign0 ++ ["-extfile"; path; "-extensions"; "SAN"] ++ tail)
              end
          end
      end
  end.

End S.
End Certs.

(* ================================================================= *)
(** ** [version_control/mod.rs]: component versions and unpacking *)

(** [char::is_whitespace] on ASCII. *)
Definition is_ws (a : ascii) : bool :=
  let n := nat_of_ascii a in
  (Nat.eqb n 32 || ((9 <=? n) && (n <=? 13)))%nat.

Fixpoint trim_start (s : string) : string :=
  match s with
  | String a s' => if is_ws a then trim_start s' else s
  | EmptyString => EmptyString
  end.

Fixpoint str_rev (s : string) (acc : string) : string :=
  match s with
  | String a s' => str_rev s' (String a acc)
  | EmptyString => acc
  end.

(** [str::trim] on the ASCII whitespace it strips (tab to carriage return,
    space); the non-ASCII White_Space characters [str::trim] also strips
    (U+0085, U+00A0, U+2028, ...) are left in place. *)
Definition trim (s : string) : string :=
  str_rev (trim_start (str_rev (trim_start s) EmptyString)) EmptyString.

Module VersionControl.
Section S.
Context {W : Type} (sys : Sys W).
(** [APP_VERSION] is [env!("CARGO_PKG_VERSION")], fixed at build time. *)
Variable APP_VERSION : string.

(** The [for component in components] loop of [init_component_versions]. *)
Fixpoint load_versions (components : list UpdateComponent.t)
    (versions : BTree.t string) : IO W (BTree.t string) :=
  match components with
  | [] => io_ret versions
  | component :: rest =>
      if String.eqb (UpdateComponent.name component) APP_NAME
      then load_versions rest versions
      else
        r <- read_file sys (UpdateComponent.version_file_path component) ;;
        match r with
        | Some version =>
            load_versions rest
              (BTree.insert (UpdateComponent.name component) (trim version) versions)
        | None => load_versions rest versions
        end
  end.

(** [init_component_versions(components)]. *)
Definition init_component_versions (components : list UpdateComponent.t)
    : IO W (BTree.t string) :=
  load_versions components (BTree.insert APP_NAME APP_VERSION BTree.empty).

(** The inner loop of [unpack_updates] over the archives of one component. *)
Fixpoint unpack_component (updates : list string) : IO W (list string) :=
  match updates with
  | [] => io_ret []
  | update :: rest =>
      let extracted_folder_name := (update ++ "-extracted")%string in
      r <- cmd_output sys "unzip" [update; "-d"; extracted_folder_name] ;;
      let proceed :=
        remove_file sys update ;;;
        tl <- unpack_component rest ;;
        io_ret ((extracted_folder_name ++ "/")%string :: tl) in
      match r with
      | Some res =>
          if negb (String.eqb (out_stderr res) "")
          then unpack_component rest      (* [continue] *)
          else proceed
      | None => proceed                   (* [Err(e) => error!(...)] *)
      end
  end.

(** [unpack_updates(verified_updates)]. *)
Fixpoint unpack_updates_from (verified_updates : BTree.t (list string))
    (inflated_updates : BTree.t (list string)) : IO W (BTree.t (list string)) :=
  match verified_updates with
  | [] => io_ret inflated_updates
  | (component, updates) :: rest =>
      unzipped_updates <- unpack_component updates ;;
      unpack_updates_from rest (BTree.insert component unzipped_updates inflated_updates)
  end.

Definition unpack_updates (verified_updates : BTree.t (list string))
    : IO W (BTree.t (list string)) :=
  unpack_updates_from verified_updates BTree.empty.

End S.
End VersionControl.

(* ================================================================= *)
(** ** Concrete worlds used to evaluate the code on explicit inputs *)

(** A host without [unzip] (or any other program): every spawn fails, every
    file operation succeeds, nothing can be read. *)
Definition no_programs_sys : Sys unit := {|
  sys_output := fun _ _ w => (None, w);
  sys_remove := fun _ w => (true, w);
  sys_copy := fun _ _ w => (true, w);
  sys_copy_dir := fun _ _ w => (true, w);
  sys_read := fun _ w => (None, w);
  sys_tempfile := fun _ w => (Some "/tmp/sans", w);
  sys_write_json := fun _ _ w => (true, w) |}.

(* ================================================================= *)
(** ** serde (de)serialization of the settings structs, at the level of
       [serde_json::Value] *)

(** Option-monad bind, for the derived [Deserialize] impls. *)
Notation "x <-? m ;; k" := (match m with Some x => k | None => None end)
  (at level 61, m at next level, right associativity).

Definition I64_MIN : Z := -9223372036854775808.
Definition I64_MAX : Z := 9223372036854775807.

Module Serde.

(** Looking a field up in a JSON object. *)
Definition field (l : list (string * json)) (k : string) : option json :=
  match find (fun kv => String.eqb (fst kv) k) l with
  | Some (_, v) => Some v
  | None => None
  end.

Definition de_string (v : json) : option string :=
  match v with JStr s => Some s | _ => None end.
Definition de_bool (v : json) : option bool :=
  match v with JBool b => Some b | _ => None end.
(** [i64]: an integer in range. *)
Definition de_i64 (v : json) : option Z :=
  match v with
  | JNum z => if (Z.leb I64_MIN z && Z.leb z I64_MAX)%bool then Some z else None
  | _ => None
  end.
Fixpoint de_list {A} (de : json -> option A) (l : list json) : option (list A) :=
  match l with
  | [] => Some []
  | x :: l' => a <-? de x ;; r <-? de_list de l' ;; Some (a :: r)
  end.
Definition de_vec {A} (de : json -> option A) (v : json) : option (list A) :=
  match v with JArr l => de_list de l | _ => None end.

(** A required field of a struct. *)
Definition req {A} (de : json -> option A) (l : list (string * json)) (k : string) : option A :=
  v <-? field l k ;; de v.
(** An [Option<T>] field: absent or [null] is [None]. *)
Definition opt {A} (de : json -> option A) (l : list (string * json)) (k : string)
    : option (option A) :=
  match field l k with
  | None | Some JNull => Some None
  | Some v => a <-? de v ;; Some (Some a)
  end.

Definition ser_opt {A} (ser : A -> json) (o : option A) : json :=
  match o with Some a => ser a | None => JNull end.

Definition ser_paths (p : CertificatePaths.t) : json :=
  JObj [("key", JStr (CertificatePaths.key p)); ("cert", JStr (CertificatePaths.cert p))].
Definition de_paths (v : json) : option CertificatePaths.t :=
  match v with
  | JObj l => k <-? req de_string l "key" ;; c <-? req de_string l "cert" ;;
              Some (CertificatePaths.mk k c)
  | _ => None
  end.

Definition ser_ca (c : CACertificate.t) : json :=
  JObj [("encrypted", JBool (CACertificate.encrypted c));
        ("duration", JNum (CACertificate.duration c));
        ("extensions", JStr (CACertificate.extensions c));
        ("subj", JStr (CACertificate.subj c));
        ("main_paths", ser_paths (CACertificate.main_paths c));
        ("auxiliary_paths", JArr (map ser_paths (CACertificate.auxiliary_paths c)));
        ("date_issued", ser_opt JStr (CACertificate.date_issued c));
        ("passphrase", JStr (CACertificate.passphrase c))].
Definition de_ca (v : json) : option CACertificate.t :=
  match v with
  | JObj l =>
      e <-? req de_bool l "encrypted" ;; d <-? req de_i64 l "duration" ;;
      x <-? req de_string l "extensions" ;; s <-? req de_string l "subj" ;;
      mp <-? req de_paths l "main_paths" ;; ap <-? req (de_vec de_paths) l "auxiliary_paths" ;;
      di <-? opt de_string l "date_issued" ;; p <-? req de_string l "passphrase" ;;
      Some (CACertificate.mk e d x s mp ap di p)
  | _ => None
  end.

Definition ser_main (c : MainCertificate.t) : json :=
  JObj [("encrypted", JBool (MainCertificate.encrypted c));
        ("duration", JNum (MainCertificate.duration c));
        ("key_len", JNum (MainCertificate.key_len c));
        ("subj", JStr (MainCertificate.subj c));
        ("main_paths", ser_paths (MainCertificate.main_paths c));
        ("auxiliary_paths", JArr (map ser_paths (MainCertificate.auxiliary_paths c)));
        ("service_ips", JArr (map JStr (MainCertificate.service_ips c)));
        ("date_issued", ser_opt JStr (MainCertificate.date_issued c));
        ("passphrase", JStr (MainCertificate.passphrase c))].
Definition de_main (v : json) : option MainCertificate.t :=
  match v with
  | JObj l =>
      e <-? req de_bool l "encrypted" ;; d <-? req de_i64 l "duration" ;;
      kl <-? req de_i64 l "key_len" ;; s <-? req de_string l "subj" ;;
      mp <-? req de_paths l "main_paths" ;; ap <-? req (de_vec de_paths) l "auxiliary_paths" ;;
      ips <-? req (de_vec de_string) l "service_ips" ;;
      di <-? opt de_string l "date_issued" ;; p <-? req de_string l "passphrase" ;;
      Some (MainCertificate.mk e d kl s mp ap ips di p)
  | _ => None
  end.

Definition ser_cert (c : CertificateSettings.t) : json :=
  JObj [("component_name", JStr (CertificateSettings.component_name c));
        ("algorithm", JStr (CertificateSettings.algorithm c));
        ("cert_authority", ser_opt ser_ca (CertificateSettings.cert_authority c));
        ("main_certificate", ser_main (CertificateSettings.main_certificate c))].
Definition de_cert (v : json) : option CertificateSettings.t :=
  match v with
  | JObj l =>
      n <-? req de_string l "component_name" ;; a <-? req de_string l "algorithm" ;;
      ca <-? opt de_ca l "cert_authority" ;; m <-? req de_main l "main_certificate" ;;
      Some (CertificateSettings.mk n a ca m)
  | _ => None
  end.

Definition ser_component (c : UpdateComponent.t) : json :=
  JObj [("name", JStr (UpdateComponent.name c));
        ("version_file_path", JStr (UpdateComponent.version_file_path c));
        ("permission_user", JStr (UpdateComponent.permission_user c));
        ("permission_group", JStr (UpdateComponent.permission_group c));
        ("file_permissions", JStr (UpdateComponent.file_permissions c));
        ("container_name", ser_opt JStr (UpdateComponent.container_name c));
        ("service_name", ser_opt JStr (UpdateComponent.service_name c));
        ("restart_command", JStr (UpdateComponent.restart_command c))].
Definition de_component (v : json) : option UpdateComponent.t :=
  match v with
  | JObj l =>
      n <-? req de_string l "name" ;; vf <-? req de_string l "version_file_path" ;;
      pu <-? req de_string l "permission_user" ;; pg <-? req de_string l "permission_group" ;;
      fp <-? req de_string l "file_permissions" ;; cn <-? opt de_string l "container_name" ;;
      sn <-? opt de_string l "service_name" ;; rc <-? req de_string l "restart_command" ;;
      Some (UpdateComponent.mk n vf pu pg fp cn sn rc)
  | _ => None
  end.

Definition ser_neutron (c : NeutronMqttClient.t) : json :=
  JObj [("username", JStr (NeutronMqttClient.username c));
        ("password", JStr (NeutronMqttClient.password c))].
Definition de_neutron (v : json) : option NeutronMqttClient.t :=
  match v with
  | JObj l => u <-? req de_string l "username" ;; p <-? req de_string l "password" ;;
              Some (NeutronMqttClient.mk u p)
  | _ => None
  end.

Definition ser_cmqtt (c : ComponentMqttClient.t) : json :=
  JObj [("ip", JStr (ComponentMqttClient.ip c)); ("port", JStr (ComponentMqttClient.port c));
        ("username", JStr (ComponentMqttClient.username c));
        ("password", JStr (ComponentMqttClient.password c));
        ("cafile", JStr (ComponentMqttClient.cafile c))].
Definition de_cmqtt (v : json) : option ComponentMqttClient.t :=
  match v with
  | JObj l => i <-? req de_string l "ip" ;; po <-? req de_string l "port" ;;
              u <-? req de_string l "username" ;; p <-? req de_string l "password" ;;
              c <-? req de_string l "cafile" ;; Some (ComponentMqttClient.mk i po u p c)
  | _ => None
  end.

Definition ser_settings (s : Settings.t) : json :=
  JObj [("neutron_account_username", JStr (Settings.neutron_account_username s));
        ("neutron_mqtt_client", ser_neutron (Settings.neutron_mqtt_client s));
        ("component_mqtt_client", ser_cmqtt (Settings.component_mqtt_client s));
        ("application_name", JStr (Settings.application_name s));
        ("update_branch", JStr (Settings.update_branch s));
        ("update_components", JArr (map ser_component (Settings.update_components s)));
        ("certificates", JArr (map ser_cert (Settings.certificates s)))].
Definition de_settings (v : json) : option Settings.t :=
  match v with
  | JObj l =>
      nu <-? req de_string l "neutron_account_username" ;;
      nm <-? req de_neutron l "neutron_mqtt_client" ;;
      cm <-? req de_cmqtt l "component_mqtt_client" ;;
      an <-? req de_string l "application_name" ;;
      ub <-? req de_string l "update_branch" ;;
      uc <-? req (de_vec de_component) l "update_components" ;;
      cs <-? req (de_vec de_cert) l "certificates" ;;
      Some (Settings.mk nu nm cm an ub uc cs)
  | _ => None
  end.

End Serde.

(* ================================================================= *)
(** ** [settings/mod.rs]: the settings file *)

Module SettingsFile.
Section S.
Context {W : Type} (sys : Sys W).

Definition SETTINGS_FILE : string := "settings.json".
(** [get_settings_location()]. *)
Definition get_settings_location : string := (BASE_DIRECTORY ++ SETTINGS_FILE)%string.

(** The entry [load_settings] pushes for the agent itself. *)
Definition agent_component : UpdateComponent.t :=
  UpdateComponent.mk APP_NAME "" "root" "root" "700" None
    (Some "neutroncommunicator.service") "".

Definition with_update_components (s : Settings.t) (l : list UpdateComponent.t) : Settings.t :=
  Settings.mk (Settings.neutron_account_username s) (Settings.neutron_mqtt_client s)
    (Settings.component_mqtt_client s) (Settings.application_name s)
    (Settings.update_branch s) l (Settings.certificates s).

(** [iter().position(|x| x.name == APP_NAME)]. *)
Fixpoint position_agent (l : list UpdateComponent.t) : option nat :=
  match l with
  | [] => None
  | c :: l' => if String.eqb (UpdateComponent.name c) APP_NAME then Some 0%nat
               else option_map S (position_agent l')
  end.

(** [Vec::remove(index)] (the index always comes from [position], so it is
    in bounds). *)
Fixpoint vec_remove {A} (i : nat) (l : list A) : list A :=
  match i, l with
  | _, [] => []
  | 0%nat, _ :: l' => l'
  | S i', x :: l' => x :: vec_remove i' l'
  end.

(** The settings [save_to_file] serializes: the agent's entry removed. *)
Definition strip_agent (s : Settings.t) : Settings.t :=
  match position_agent (Settings.update_components s) with
  | Some index => with_update_components s (vec_remove index (Settings.update_components s))
  | None => s
  end.

(** The JSON document [save_to_file(settings)] writes
    ([serde_json::to_string_pretty], read back as a value by [from_str]). *)
Definition settings_document (s : Settings.t) : json := Serde.ser_settings (strip_agent s).

(** [save_to_file(settings)]. *)
Definition save_to_file (s : Settings.t) : IO W (result unit string) :=
  ok <- write_json sys get_settings_location (settings_document s) ;;
  io_ret (if ok then Ok tt else Err "could not create or write the settings file").

(** [load_settings()], given what reading the settings file produced: [None]
    when it could not be opened or read, otherwise the JSON document. *)
Definition load_settings (contents : option json) : result Settings.t string :=
  match contents with
  | None => Err "could not read the settings file"
  | Some doc =>
      match Serde.de_settings doc with
      | Some settings =>
          Ok (with_update_components settings
                (Settings.update_components settings ++ [agent_component]))
      | None => Err "Failed to convert JSON file to settings type."
      end
  end.

End S.
End SettingsFile.

(** [i64] fields of the settings hold values of their Rust type. *)
Definition i64_ok (z : Z) : bool := (Z.leb I64_MIN z && Z.leb z I64_MAX)%bool.

Definition cert_i64_ok (c : CertificateSettings.t) : bool :=
  (match CertificateSettings.cert_authority c with
   | Some ca => i64_ok (CACertificate.duration ca)
   | None => true
   end &&
   i64_ok (MainCertificate.duration (CertificateSettings.main_certificate c)) &&
   i64_ok (MainCertificate.key_len (CertificateSettings.main_certificate c)))%bool.

Definition settings_i64_ok (s : Settings.t) : bool :=
  forallb cert_i64_ok (Settings.certificates s).

(** Number of update components carrying the agent's name. *)
Definition count_agents (l : list UpdateComponent.t) : nat :=
  length (filter (fun c => String.eqb (UpdateComponent.name c) APP_NAME) l).

(** The [update_components] array of a settings document. *)
Definition doc_components (doc : json) : list json :=
  match jindex doc "update_components" with JArr l => l | _ => [] end.

(** Settings holding the agent's entry twice (the second one as [load_settings]
    pushes it, the first one as written in the settings file). *)
Definition settings_two_agents : Settings.t :=
  Settings.mk "neco" (NeutronMqttClient.mk "u" "p")
    (ComponentMqttClient.mk "127.0.0.1" "8883" "u" "p" "ca.crt") "LSOC" "stable"
    [SettingsFile.agent_component; SettingsFile.agent_component] [].

(** A component and a CA-signed certificate in the shape of the commented-out
    defaults of [Settings::default()]. *)
Definition blackbox_component : UpdateComponent.t :=
  UpdateComponent.mk "BlackBox" "/etc/BlackBox/blackbox.version" "root" "root" "700"
    None (Some "blackbox.service") "sudo systemctl restart blackbox.service".

Definition mosquitto_cert : CertificateSettings.t :=
  CertificateSettings.mk "Mosquitto" "rsa:4096"
    (Some (CACertificate.mk true 3650 "v3_ca" "/CN=LSOC-CA"
             (CertificatePaths.mk "/etc/mosquitto/ca.key" "/etc/mosquitto/ca.crt")
             [] (Some "2020-01-01 00:00:00") "secret"))
    (MainCertificate.mk false 365 2048 "/CN=mosquitto"
       (CertificatePaths.mk "/etc/mosquitto/server.key" "/etc/mosquitto/server.crt")
       [] ["10.0.0.1"] (Some "2020-01-01 00:00:00") "").

(** Settings as [load_settings] returns them: the agent's entry last. *)
Definition settings_loaded_example : Settings.t :=
  Settings.mk "neco" (NeutronMqttClient.mk "u" "p")
    (ComponentMqttClient.mk "127.0.0.1" "8883" "u" "p" "ca.crt") "LSOC" "stable"
    [blackbox_component; SettingsFile.agent_component] [mosquitto_cert].

(* ================================================================= *)
(** ** [settings/encryption_certificates.rs]: [append_cert_aux_paths] *)

(** How a call ends: returning a value, or a panic (here: slice index out of
    bounds). *)
Inductive outcome (A : Type) :=
| Done (a : A)
| Panic.
Arguments Done {A} _.
Arguments Panic {A}.

Module CertSettings.
Section S.
Context {W : Type} (sys : Sys W).

(** The auxiliary-path loop shared by [generate_ca] and [generate_certificate]:
    copy the main key and certificate to every auxiliary path (skipping empty
    paths); the first failed copy returns an error. *)
Fixpoint populate_aux (main : CertificatePaths.t) (aux : list CertificatePaths.t)
    : IO W (result unit string) :=
  match aux with
  | [] => io_ret (Ok tt)
  | path :: rest =>
      let copy_if (src dst : string) (k : IO W (result unit string)) :=
        if (negb (String.eqb src "") && negb (String.eqb dst ""))%bool
        then ok <- fs_copy sys src dst ;;
             if ok then k else io_ret (Err "Failed to copy to auxiliary path.")
        else k in
      copy_if (CertificatePaths.key main) (CertificatePaths.key path)
        (copy_if (CertificatePaths.cert main) (CertificatePaths.cert path)
           (populate_aux main rest))
  end.

(** [generate_ca(component_name, ca_config, true)]: generation skipped, only
    the copies to the auxiliary paths; [Ok("")] on success. *)
Definition generate_ca_populate (ca : CACertificate.t) : IO W (result string string) :=
  r <- populate_aux (CACertificate.main_paths ca) (CACertificate.auxiliary_paths ca) ;;
  io_ret (match r with Ok _ => Ok "" | Err e => Err e end).

(** [generate_certificate(certificate, true)]. *)
Definition generate_certificate_populate (cert : CertificateSettings.t)
    : IO W (result string string) :=
  let mc := CertificateSettings.main_certificate cert in
  r <- populate_aux (MainCertificate.main_paths mc) (MainCertificate.auxiliary_paths mc) ;;
  io_ret (match r with Ok _ => Ok "" | Err e => Err e end).

Definition with_ca (c : CertificateSettings.t) (ca : CACertificate.t) : CertificateSettings.t :=
  CertificateSettings.mk (CertificateSettings.component_name c)
    (CertificateSettings.algorithm c) (Some ca) (CertificateSettings.main_certificate c).

Definition push_ca_aux (ca : CACertificate.t) (p : CertificatePaths.t) : CACertificate.t :=
  CACertificate.mk (CACertificate.encrypted ca) (CACertificate.duration ca)
    (CACertificate.extensions ca) (CACertificate.subj ca) (CACertificate.main_paths ca)
    (CACertificate.auxiliary_paths ca ++ [p]) (CACertificate.date_issued ca)
    (CACertificate.passphrase ca).

Definition push_main_aux (c : CertificateSettings.t) (p : CertificatePaths.t)
    : CertificateSettings.t :=
  let m := CertificateSettings.main_certificate c in
  CertificateSettings.mk (CertificateSettings.component_name c)
    (CertificateSettings.algorithm c) (CertificateSettings.cert_authority c)
    (MainCertificate.mk (MainCertificate.encrypted m) (MainCertificate.duration m)
       (MainCertificate.key_len m) (MainCertificate.subj m) (MainCertificate.main_paths m)
       (MainCertificate.auxiliary_paths m ++ [p]) (MainCertificate.service_ips m)
       (MainCertificate.date_issued m) (MainCertificate.passphrase m)).

(** [CertificatePaths { key: aux_paths[0].to_owned(), cert: aux_paths[1].to_owned() }]:
    [aux_paths[0]] is evaluated first; an index out of bounds panics. *)
Definition aux_entry (aux_paths : list string) : option CertificatePaths.t :=
  match nth_error aux_paths 0, nth_error aux_paths 1 with
  | Some k, Some c => Some (CertificatePaths.mk k c)
  | _, _ => None
  end.

(** The [for cert in &mut settings.certificates] loop: [inl] is an early
    [return], [inr] the updated vector and [failed_counter]. *)
Fixpoint aux_loop (component_name cert_type : string) (aux_paths : list string)
    (certs : list CertificateSettings.t) (failed_counter : nat)
    : IO W (outcome (result unit string + list CertificateSettings.t * nat)) :=
  match certs with
  | [] => io_ret (Done (inr ([], failed_counter)))
  | cert :: rest =>
      let continue_with (cert' : CertificateSettings.t) :=
        r <- aux_loop component_name cert_type aux_paths rest failed_counter ;;
        io_ret (match r with
                | Done (inr (rest', n)) => Done (inr (cert' :: rest', n))
                | other => other
                end) in
      if String.eqb (CertificateSettings.component_name cert) component_name then
        if String.eqb cert_type "ca" then
          match CertificateSettings.cert_authority cert with
          | Some ca =>
              match aux_entry aux_paths with
              | None => io_ret Panic
              | Some p =>
                  let ca' := push_ca_aux ca p in
                  g <- generate_ca_populate ca' ;;
                  match g with
                  | Err e => io_ret (Done (inl (Err e)))
                  | Ok _ => continue_with (with_ca cert ca')
                  end
              end
          | None => io_ret (Done (inl (Err "Could not find a CA certificate for that component")))
          end
        else
          match aux_entry aux_paths with
          | None => io_ret Panic
          | Some p =>
              let cert' := push_main_aux cert p in
              g <- generate_certificate_populate cert' ;;
              match g with
              | Err e => io_ret (Done (inl (Err e)))
              | Ok _ => continue_with cert'
              end
          end
      else
        r <- aux_loop component_name cert_type aux_paths rest (S failed_counter) ;;
        io_ret (match r with
                | Done (inr (rest', n)) => Done (inr (cert :: rest', n))
                | other => other
                end)
  end.

Definition with_certificates (s : Settings.t) (l : list CertificateSettings.t) : Settings.t :=
  Settings.mk (Settings.neutron_account_username s) (Settings.neutron_mqtt_client s)
    (Settings.component_mqtt_client s) (Settings.application_name s)
    (Settings.update_branch s) (Settings.update_components s) l.

(** [append_cert_aux_paths(settings, component_name, cert_type, aux_paths)]. *)
Definition append_cert_aux_paths (settings : Settings.t)
    (component_name cert_type : string) (aux_paths : list string)
    : IO W (outcome (result unit string)) :=
  r <- aux_loop component_name cert_type aux_paths (Settings.certificates settings) 0 ;;
  match r with
  | Panic => io_ret Panic
  | Done (inl e) => io_ret (Done e)
  | Done (inr (certs, failed_counter)) =>
      if Nat.eqb failed_counter (length certs)
      then io_ret (Done (Err "Could not find a certificate with that component name."))
      else s <- SettingsFile.save_to_file sys (with_certificates settings certs) ;;
           io_ret (Done s)
  end.

End S.
End CertSettings.

(** A self-signed certificate (no CA) for the same component. *)
Definition selfsigned_cert : CertificateSettings.t :=
  CertificateSettings.mk "Mosquitto" "rsa:4096" None
    (MainCertificate.mk false 365 2048 "/CN=mosquitto"
       (CertificatePaths.mk "/etc/mosquitto/server.key" "/etc/mosquitto/server.crt")
       [] [] (Some "2020-01-01 00:00:00") "").

Definition settings_selfsigned : Settings.t :=
  Settings.mk "neco" (NeutronMqttClient.mk "u" "p")
    (ComponentMqttClient.mk "127.0.0.1" "8883" "u" "p" "ca.crt") "LSOC" "stable"
    [blackbox_component] [selfsigned_cert].

(** The first command spawned in a trace, if any. *)
Fixpoint first_run (t : list Event) : option Event :=
  match t with
  | [] => None
  | (EvRun _ _ as e) :: _ => Some e
  | _ :: t' => first_run t'
  end.

(* ================================================================= *)
(** ** [version_control/recipe_processor.rs]: [cook] *)

(** The process-wide state [cook] touches besides the file system: the
    [UPDATE_COMPONENTS] and [COMPONENT_VERSIONS] mutexes ([None]: the lock
    is poisoned), the [RESTART_NECO] flag, the dev directory, and
    [find_leftover_updates] (which may itself cook a leftover cookbook). *)
Record CookSys (W : Type) := {
  cook_os : Sys W;
  dev_dir_exists : string -> W -> bool;
  create_dir : string -> W -> bool * W;
  lock_update_components : W -> option (list UpdateComponent.t);
  lock_component_versions : W -> option (BTree.t string);
  store_component_versions : BTree.t string -> W -> W;
  store_restart_neco : W -> W;
  find_leftover_updates : list UpdateComponent.t -> IO W unit;
}.
Arguments cook_os {W} _.
Arguments dev_dir_exists {W} _ _ _.
Arguments create_dir {W} _ _ _.
Arguments lock_update_components {W} _ _.
Arguments lock_component_versions {W} _ _.
Arguments store_component_versions {W} _ _ _.
Arguments store_restart_neco {W} _ _.
Arguments find_leftover_updates {W} _ _ _.

Module RecipeProcessor.
Section S.
Context {W : Type} (cs : CookSys W).
(** [cfg!(debug_assertions)]. *)
Variable debug_assertions : bool.

Definition DEV_DIR : string := "/home/system/.neco_test_dir/".

(** [recipe[key].as_str().unwrap_or_default()]. *)
Definition field (v : json) (key : string) : string := as_str_or_default (jindex v key).

(** [digest_copy]: permissions of the source set to root, copy, then the
    cookbook's permissions on the destination; any failure is [Err(())]. *)
Definition digest_copy (absolute_update_path file_path destination permission_user
    permission_group file_permissions : string) : IO W (result unit unit) :=
  let file_loc := (absolute_update_path ++ file_path)%string in
  let cp_destination := (destination ++ file_path)%string in
  r1 <- Security.set_file_permissions (cook_os cs) file_loc "root" "root" file_permissions ;;
  match r1 with
  | Err _ => io_ret (Err tt)
  | Ok _ =>
      c <- fs_copy (cook_os cs) file_loc cp_destination ;;
      if negb c then io_ret (Err tt) else
      r2 <- Security.set_file_permissions (cook_os cs) cp_destination permission_user
              permission_group file_permissions ;;
      match r2 with
      | Err _ => io_ret (Err tt)
      | Ok _ => io_ret (Ok tt)
      end
  end.

(** [digest_copy_dir]; [true] for [Ok]. *)
Definition digest_copy_dir (dir_loc dir_destination : string) : IO W bool :=
  fs_copy_dir (cook_os cs) dir_loc dir_destination.

(** [digest_run]: [sh -c command]; the outcome is only logged. *)
Definition digest_run (command : string) : IO W unit :=
  cmd_output (cook_os cs) "sh" ["-c"; command] ;;; io_ret tt.

(** [digest_script]: runs [absolute_update_path ++ script_path]; the outcome
    is only logged. *)
Definition digest_script (absolute_update_path script_path : string) : IO W unit :=
  cmd_output (cook_os cs) (absolute_update_path ++ script_path)%string [] ;;; io_ret tt.

(** One iteration of the inner loop of [cook]; the result is [true] when the
    iteration sets [erroneous]. *)
Definition digest_recipe (recipe : json) : IO W bool :=
  let ty := field recipe "type" in
  if String.eqb ty "copy" then
    r <- digest_copy (field recipe "absolute_update_path") (field recipe "file_path")
           (if debug_assertions then DEV_DIR else field recipe "destination")
           (field recipe "permission_user") (field recipe "permission_group")
           (field recipe "file_permissions") ;;
    io_ret (negb (is_ok r))
  else if String.eqb ty "copy_dir" then
    if negb debug_assertions then
      ok <- digest_copy_dir (field recipe "folder_path") (field recipe "destination") ;;
      io_ret (negb ok)
    else io_ret false
  else if String.eqb ty "run_command" then
    (if negb debug_assertions then digest_run (field recipe "command") else io_ret tt) ;;;
    io_ret false
  else if String.eqb ty "run_script" then
    (if negb debug_assertions
     then digest_script (field recipe "absolute_update_path") (field recipe "file_path")
     else io_ret tt) ;;;
    io_ret false
  else io_ret false.

(** [for recipe in comp_recipes { ... }], threading [erroneous]. *)
Fixpoint digest_recipes (recipes : list json) (erroneous : bool) : IO W bool :=
  match recipes with
  | [] => io_ret erroneous
  | r :: rs => e <- digest_recipe r ;; digest_recipes rs (erroneous || e)
  end.

(** [ver.insert(name, version).is_none()] under [COMPONENT_VERSIONS.lock()]:
    [false] when the name had no version yet; a poisoned lock is skipped. *)
Definition commit_version (name version : string) : IO W bool :=
  fun w =>
    match lock_component_versions cs w with
    | None => (true, w, [])
    | Some ver =>
        let w' := store_component_versions cs (BTree.insert name version ver) w in
        match BTree.get name ver with
        | None => (false, w', [])
        | Some _ => (true, w', [])
        end
    end.

(** [restart_set_component_version]. *)
Definition restart_set_component_version (restart : bool)
    (component_name restart_command version : string) : IO W bool :=
  if String.eqb component_name APP_NAME then
    if restart then
      (fun w => (tt, store_restart_neco cs w, [])) ;;; commit_version APP_NAME version
    else
      (locked <- (fun w =>
         match lock_update_components cs w with
         | Some data => (find_leftover_updates cs data ;;; io_ret true) w
         | None => (false, w, [])
         end) ;;
       if locked then commit_version APP_NAME version else io_ret false)
  else
    (if restart then digest_run restart_command else io_ret tt) ;;;
    commit_version component_name version.

(** [serde_json::from_value::<Vec<Value>>(v).unwrap_or_default()]. *)
Definition json_vec_or_default (v : json) : list json :=
  match v with JArr l => l | _ => [] end.

(** [serde_json::from_value::<bool>(v).unwrap_or_default()]. *)
Definition json_bool_or_default (v : json) : bool :=
  match v with JBool b => b | _ => false end.

(** The body of the outer loop of [cook] for one component: its final
    [erroneous] flag. *)
Definition cook_component (component : json) : IO W bool :=
  erroneous <- digest_recipes (json_vec_or_default (jindex component "updates")) false ;;
  ok <- restart_set_component_version (json_bool_or_default (jindex component "restart"))
          (field component "component") (field component "restart_command")
          (field component "final_version") ;;
  io_ret (erroneous || negb ok).

(** [for component in cookbook { ...; is_succesfull = !erroneous; }]. *)
Fixpoint cook_loop (cookbook : list json) (is_succesfull : bool) : IO W bool :=
  match cookbook with
  | [] => io_ret is_succesfull
  | c :: cb => erroneous <- cook_component c ;; cook_loop cb (negb erroneous)
  end.

(** [cook(cookbook)]. *)
Definition cook (cookbook : list json) : IO W bool :=
  (fun w =>
     if debug_assertions && negb (dev_dir_exists cs DEV_DIR w)
     then let '(_, w') := create_dir cs DEV_DIR w in (tt, w', [])
     else (tt, w, [])) ;;;
  cook_loop cookbook true.

End S.
End RecipeProcessor.

(** A host where every command runs but [sh] reports an unknown command on
    stderr; [COMPONENT_VERSIONS] already knows [WebInterface]. *)
Definition failing_sh_cook_sys : CookSys unit := {|
  cook_os := {|
    sys_output := fun prog _ w =>
      if String.eqb prog "sh"
      then (Some (mkOutput false "" "sh: 1: frobnicate: not found"), w)
      else (Some (mkOutput true "" ""), w);
    sys_remove := fun _ w => (true, w);
    sys_copy := fun _ _ w => (true, w);
    sys_copy_dir := fun _ _ w => (true, w);
    sys_read := fun _ w => (None, w);
    sys_tempfile := fun _ w => (None, w);
    sys_write_json := fun _ _ w => (true, w) |};
  dev_dir_exists := fun _ _ => true;
  create_dir := fun _ w => (true, w);
  lock_update_components := fun _ => Some [];
  lock_component_versions := fun _ => Some [("WebInterface", "1.0.0")];
  store_component_versions := fun _ w => w;
  store_restart_neco := fun w => w;
  find_leftover_updates := fun _ => io_ret tt |}.

(** A cookbook with one component whose only instruction is a command. *)
Definition run_command_cookbook : list json :=
  [JObj [("component", JStr "WebInterface"); ("final_version", JStr "1.1.0");
         ("restart", JBool false); ("restart_command", JStr "");
         ("updates", JArr [JObj [("type", JStr "run_command");
                                 ("command", JStr "frobnicate")]])]].

(* ================================================================= *)
(** ** [version_control/structs.rs] and [request_update_manifest] *)

Module Update.
Record t := mk {
  chainlink : bool;
  checksum : string;
  version : string;
  changelog : string;
  file_size : option string }.
End Update.

(** [UpdateManifest]: its only field is [#[serde(flatten)]]. *)
Module UpdateManifest.
Record t := mk { list : BTree.t (Datatypes.list Update.t) }.
End UpdateManifest.

Module ManifestSerde.
Import Serde.

Definition de_update (v : json) : option Update.t :=
  match v with
  | JObj l =>
      c <-? req de_bool l "chainlink" ;; cs <-? req de_string l "checksum" ;;
      ve <-? req de_string l "version" ;; ch <-? req de_string l "changelog" ;;
      fs <-? opt de_string l "file_size" ;;
      Some (Update.mk c cs ve ch fs)
  | _ => None
  end.

(** The flattened map collects every entry of the object, in order, into a
    [BTreeMap]. *)
Fixpoint de_manifest_entries (l : list (string * json)) (m : BTree.t (list Update.t))
    : option (BTree.t (list Update.t)) :=
  match l with
  | [] => Some m
  | (k, v) :: l' => us <-? de_vec de_update v ;; de_manifest_entries l' (BTree.insert k us m)
  end.

(** [serde_json::from_value::<UpdateManifest>(v).ok()]. *)
Definition de_update_manifest (v : json) : option UpdateManifest.t :=
  match v with
  | JObj l => m <-? de_manifest_entries l BTree.empty ;; Some (UpdateManifest.mk m)
  | _ => None
  end.
End ManifestSerde.

(** ["\r\n\r\n"]. *)
Definition CRLF2 : string :=
  String "013"%char (String "010"%char (String "013"%char (String "010"%char EmptyString))).

(** The changelog text of [request_update_manifest]: the updates of every
    component ([values().cloned().flatten()]), each changelog followed by
    ["\r\n\r\n"], in reverse order ([rev().collect()]). *)
Definition changelogs_of (m : UpdateManifest.t) : string :=
  let upds := concat (BTree.values (UpdateManifest.list m)) in
  String.concat "" (rev (map (fun u => (Update.changelog u ++ CRLF2)%string) upds)).

(** The process-wide state [request_update_manifest] touches: the [SETTINGS],
    [COMPONENT_VERSIONS] and [UPDATE_MANIFEST] mutexes ([None]/[false]: the
    lock is poisoned) and the HTTP client. *)
Record ManifestSys (W : Type) := {
  lock_settings : W -> option Settings.t;
  lock_versions : W -> option (BTree.t string);
  lock_manifest : W -> bool;
  store_manifest : option UpdateManifest.t -> W -> W;
  http_get : string -> W -> option (option json) * W
      (* [None]: [reqwest::get] failed; [Some None]: [req.text()] failed;
         [Some (Some v)]: the body, as [serde_json::from_str(..).unwrap_or_default()] *)
}.
Arguments lock_settings {W} _ _.
Arguments lock_versions {W} _ _.
Arguments lock_manifest {W} _ _.
Arguments store_manifest {W} _ _ _.
Arguments http_get {W} _ _ _.

Module Manifest.
Section S.
Context {W : Type} (ms : ManifestSys W).
(** [NEUTRON_SERVER_PROTOCOL], chosen by a cargo feature. *)
Variable NEUTRON_SERVER_PROTOCOL : string.

Definition NEUTRON_SERVER_IP : string := "127.0.0.1".
Definition NEUTRON_SERVER_PORT : string := ":8002".

(** [component_mqtt::send_state] and [send_changelogs]. *)
Definition send_state (state : string) : IO W unit := publish "State" state.
Definition send_changelogs (changelogs : string) : IO W unit := publish "Changelogs" changelogs.

Definition manifest_url (settings : Settings.t) (components versions : list string) : string :=
  NEUTRON_SERVER_PROTOCOL ++ NEUTRON_SERVER_IP ++ NEUTRON_SERVER_PORT ++
  "/api/versioncontrol?neutronuser=" ++ Settings.neutron_account_username settings ++
  "&username=" ++ NeutronMqttClient.username (Settings.neutron_mqtt_client settings) ++
  "&password=" ++ NeutronMqttClient.password (Settings.neutron_mqtt_client settings) ++
  "&application=" ++ Settings.application_name settings ++
  "&branch=" ++ Settings.update_branch settings ++
  "&components=" ++ String.concat "," components ++
  "&versions=" ++ String.concat "," versions.

Definition is_empty_object (v : json) : bool :=
  match v with JObj [] => true | _ => false end.
Definition is_null (v : json) : bool :=
  match v with JNull => true | _ => false end.

(** The [Ok(mut req)] arm once the body is read; [Some o] when the function
    returns from inside it, [None] when it reaches the final slot clearing. *)
Definition handle_response (response : json) : IO W (option (outcome unit)) :=
  match jindex response "result" with
  | JBool true =>
      let m := jindex (jindex response "msg") "manifest" in
      if negb (is_empty_object m) && negb (is_null m) then
        fun w =>
          if lock_manifest ms w then
            let slot := ManifestSerde.de_update_manifest m in
            (send_state "Found updates." ;;;
             match slot with
             | None => io_ret (Some Panic)   (* [manifest.clone().unwrap()] *)
             | Some man => send_changelogs (changelogs_of man) ;;; io_ret (Some (Done tt))
             end) (store_manifest ms slot w)
          else (None, w, [])
      else send_state "No updates were found." ;;; io_ret None
  | _ =>
      if is_null (jindex response "msg")
      then send_state "Update manifest response empty." ;;; io_ret None
      else io_ret None
  end.

(** [if let Ok(mut manifest) = UPDATE_MANIFEST.lock() { *manifest = None; }];
    [true] when the slot was cleared. *)
Definition clear_slot : IO W bool :=
  fun w => if lock_manifest ms w then (true, store_manifest ms None w, []) else (false, w, []).

(** [request_update_manifest(mqtt_client)]. *)
Definition request_update_manifest : IO W (outcome unit) :=
  send_state "Looking for updates..." ;;;
  s <- (fun w => (lock_settings ms w, w, [])) ;;
  match s with
  | None => io_ret (Done tt)
  | Some settings =>
      v <- (fun w => (lock_versions ms w, w, [])) ;;
      match v with
      | None => io_ret (Done tt)
      | Some comp_ver =>
          let components := map fst comp_ver in
          let versions := map snd comp_ver in
          early <- (match components, versions with
                    | [], _ | _, [] => clear_slot
                    | _, _ => io_ret false
                    end) ;;
          if early then io_ret (Done tt) else
          r <- (fun w => let '(r, w') := http_get ms (manifest_url settings components versions) w
                         in (r, w', [])) ;;
          res <- match r with
                 | None => send_state "Could not reach Neutron server." ;;; io_ret None
                 | Some None => io_ret None
                 | Some (Some response) => handle_response response
                 end ;;
          match res with
          | Some o => io_ret o
          | None => clear_slot ;;; io_ret (Done tt)
          end
      end
  end.

End S.
End Manifest.

(** A world that is just the manifest slot; the server answers with [body]. *)
Definition slot_manifest_sys (body : json) : ManifestSys (option UpdateManifest.t) := {|
  lock_settings := fun _ => Some settings_loaded_example;
  lock_versions := fun _ => Some [("Blackbox", "1.0.0"); (APP_NAME, "0.1.0")];
  lock_manifest := fun _ => true;
  store_manifest := fun m _ => m;
  http_get := fun _ w => (Some (Some body), w) |}.

Definition unreachable_manifest_sys : ManifestSys (option UpdateManifest.t) := {|
  lock_settings := fun _ => Some settings_loaded_example;
  lock_versions := fun _ => Some [("Blackbox", "1.0.0"); (APP_NAME, "0.1.0")];
  lock_manifest := fun _ => true;
  store_manifest := fun m _ => m;
  http_get := fun _ w => (None, w) |}.

Definition update_json (version changelog : string) : json :=
  JObj [("chainlink", JBool false); ("checksum", JStr "00"); ("version", JStr version);
        ("changelog", JStr changelog); ("file_size", JNull)].

(** A server answer listing two updates of [Blackbox]. *)
Definition manifest_response : json :=
  JObj [("result", JBool true);
        ("msg", JObj [("manifest", JObj [("Blackbox", JArr [update_json "1.1.0" "a";
                                                           update_json "1.2.0" "b"])])])].

(** A server answer whose manifest is a non-empty object that is not an
    [UpdateManifest] (a version string instead of a list of updates). *)
Definition malformed_manifest_response : json :=
  JObj [("result", JBool true);
        ("msg", JObj [("manifest", JObj [("Blackbox", JStr "1.1.0")])])].

(* ================================================================= *)
(** ** [encryption_certificates/mod.rs]: one pass of the certificate watchdog *)

(** [chrono::NaiveDateTime] as whole seconds since 1970-01-01 00:00:00 (the
    watchdog only handles dates without a fraction of a second), and the
    proleptic Gregorian calendar that names them. *)
Section Calendar.
Local Open Scope Z_scope.

Definition days_from_civil (y m d : Z) : Z :=
  let y := if Z.leb m 2 then y - 1 else y in
  let era := y / 400 in
  let yoe := y - era * 400 in
  let mp := (m + 9) mod 12 in
  let doy := (153 * mp + 2) / 5 + d - 1 in
  let doe := yoe * 365 + yoe / 4 - yoe / 100 + doy in
  era * 146097 + doe - 719468.

(** Year, month and day of a day number. *)
Definition civil_from_days (z : Z) : Z * Z * Z :=
  let z := z + 719468 in
  let era := z / 146097 in
  let doe := z - era * 146097 in
  let yoe := (doe - doe / 1460 + doe / 36524 - doe / 146096) / 365 in
  let doy := doe - (365 * yoe + yoe / 4 - yoe / 100) in
  let mp := (5 * doy + 2) / 153 in
  let d := doy - (153 * mp + 2) / 5 + 1 in
  let m := if Z.ltb mp 10 then mp + 3 else mp - 9 in
  (if Z.leb m 2 then yoe + era * 400 + 1 else yoe + era * 400, m, d).

Definition is_leap (y : Z) : bool :=
  (Z.eqb (y mod 4) 0 && negb (Z.eqb (y mod 100) 0)) || Z.eqb (y mod 400) 0.

Definition days_in_month (y m : Z) : Z :=
  if Z.eqb m 2 then (if is_leap y then 29 else 28)
  else if existsb (Z.eqb m) [4; 6; 9; 11] then 30 else 31.

(** The value of a run of decimal digits. *)
Fixpoint digits_value (s : string) (acc : Z) : option Z :=
  match s with
  | EmptyString => Some acc
  | String c s' =>
      let n := Z.of_nat (nat_of_ascii c) - 48 in
      if (Z.leb 0 n && Z.leb n 9)%bool then digits_value s' (acc * 10 + n) else None
  end.

Definition field_at (s : string) (start len : nat) : option Z :=
  digits_value (substring start len s) 0.

(** [NaiveDateTime::parse_from_str(s, "%Y-%m-%d %H:%M:%S")] on text of the
    zero-padded shape [YYYY-MM-DD HH:MM:SS] (the shape [to_string] writes). *)
Definition parse_ymd_hms (s : string) : option Z :=
  if negb (Nat.eqb (String.length s) 19) then None else
  if negb (String.eqb (substring 4 1 s) "-" && String.eqb (substring 7 1 s) "-" &&
           String.eqb (substring 10 1 s) " " && String.eqb (substring 13 1 s) ":" &&
           String.eqb (substring 16 1 s) ":")%bool then None else
  y <-? field_at s 0 4 ;; mo <-? field_at s 5 2 ;; d <-? field_at s 8 2 ;;
  h <-? field_at s 11 2 ;; mi <-? field_at s 14 2 ;; se <-? field_at s 17 2 ;;
  if (Z.leb 1 mo && Z.leb mo 12 && Z.leb 1 d && Z.leb d (days_in_month y mo) &&
      Z.ltb h 24 && Z.ltb mi 60 && Z.ltb se 60)%bool
  then Some (days_from_civil y mo d * 86400 + h * 3600 + mi * 60 + se)
  else None.

(** Zero-padding to [n] characters. *)
Fixpoint pad_zeros (n : nat) (s : string) : string :=
  match n with
  | O => s
  | S n' => if Nat.leb (S n') (String.length s) then s else pad_zeros n' ("0" ++ s)%string
  end.

Definition pad (n : nat) (z : Z) : string := pad_zeros n (i64_to_string z).

(** [NaiveDateTime::to_string()] for a date without a fraction of a second. *)
Definition format_ymd_hms (t : Z) : string :=
  let days := t / 86400 in
  let secs := t mod 86400 in
  let '(y, m, d) := civil_from_days days in
  let year := if (Z.leb 0 y && Z.leb y 9999)%bool then pad 4 y
              else ((if Z.ltb y 0 then "-" else "+") ++ pad 4 (Z.abs y))%string in
  (year ++ "-" ++ pad 2 m ++ "-" ++ pad 2 d ++ " " ++ pad 2 (secs / 3600) ++ ":" ++
   pad 2 ((secs mod 3600) / 60) ++ ":" ++ pad 2 (secs mod 60))%string.

End Calendar.

(** [i64] arithmetic wraps (release build). *)
Definition wrap_i64 (z : Z) : Z := ((z - I64_MIN) mod 2 ^ 64 + I64_MIN)%Z.

(** The clock and the file system seen by the watchdog. *)
Record WatchdogSys (W : Type) := {
  wd_os : Sys W;
  utc_now : W -> Z;                       (* [chrono::Utc::now()], in nanoseconds *)
  get_date_issued : string -> W -> option Z
      (* [get_date_issued(path)]: the modification time in whole seconds *)
}.
Arguments wd_os {W} _.
Arguments utc_now {W} _ _.
Arguments get_date_issued {W} _ _ _.

Module Watchdog.
Section S.
Local Open Scope Z_scope.
Context {W : Type} (ws : WatchdogSys W).
(** [NaiveDateTime::parse_from_str(_, "%Y-%m-%d %H:%M:%S")] and
    [NaiveDateTime::to_string]. *)
Variable parse_from_str : string -> option Z.
Variable date_to_string : Z -> string.

Definition NANOS_PER_SEC : Z := 1000000000.

(** [now.signed_duration_since(parsed).num_days()]: [num_seconds] and
    [num_days] both truncate toward zero. *)
Definition num_days (now_ns parsed : Z) : Z :=
  Z.quot (Z.quot (now_ns - parsed * NANOS_PER_SEC) NANOS_PER_SEC) 86400.

(** [difference_in_days] of a [date_issued] field; [Panic] for the
    [unwrap]s of a missing or unparsable date. *)
Definition difference_in_days (date_issued : option string) : IO W (outcome Z) :=
  match date_issued with
  | None => io_ret Panic
  | Some di =>
      match parse_from_str di with
      | None => io_ret Panic
      | Some parsed => fun w => (Done (num_days (utc_now ws w) parsed), w, [])
      end
  end.

Definition read_date_issued (path : string) : IO W (option Z) :=
  fun w => (get_date_issued ws path w, w, []).

Definition set_ca_date (cert : CertificateSettings.t) (d : option string) : CertificateSettings.t :=
  match CertificateSettings.cert_authority cert with
  | None => cert
  | Some ca =>
      CertificateSettings.mk (CertificateSettings.component_name cert)
        (CertificateSettings.algorithm cert)
        (Some (CACertificate.mk (CACertificate.encrypted ca) (CACertificate.duration ca)
                 (CACertificate.extensions ca) (CACertificate.subj ca)
                 (CACertificate.main_paths ca) (CACertificate.auxiliary_paths ca) d
                 (CACertificate.passphrase ca)))
        (CertificateSettings.main_certificate cert)
  end.

Definition set_main_date (cert : CertificateSettings.t) (d : option string) : CertificateSettings.t :=
  let mc := CertificateSettings.main_certificate cert in
  CertificateSettings.mk (CertificateSettings.component_name cert)
    (CertificateSettings.algorithm cert) (CertificateSettings.cert_authority cert)
    (MainCertificate.mk (MainCertificate.encrypted mc) (MainCertificate.duration mc)
       (MainCertificate.key_len mc) (MainCertificate.subj mc) (MainCertificate.main_paths mc)
       (MainCertificate.auxiliary_paths mc) (MainCertificate.service_ips mc) d
       (MainCertificate.passphrase mc)).

(** The [// CA] block of the loop body. *)
Definition watch_ca (cert : CertificateSettings.t) : IO W (outcome CertificateSettings.t) :=
  match CertificateSettings.cert_authority cert with
  | None => io_ret (Done cert)
  | Some ca =>
      d <- difference_in_days (CACertificate.date_issued ca) ;;
      match d with
      | Panic => io_ret Panic
      | Done difference =>
          if Z.geb difference (wrap_i64 (CACertificate.duration ca - 10)) then
            r <- Certs.gen_csr_sign_with_key (wd_os ws) (CertificateSettings.component_name cert)
                   (CertificatePaths.key (CACertificate.main_paths ca))
                   (CACertificate.encrypted ca) (CACertificate.subj ca)
                   (CACertificate.passphrase ca) (CACertificate.duration ca)
                   (CertificatePaths.cert (CACertificate.main_paths ca)) ;;
            match r with
            | Err _ => io_ret (Done cert)
            | Ok _ =>
                date <- read_date_issued (CertificatePaths.cert (CACertificate.main_paths ca)) ;;
                match date with
                | Some date => io_ret (Done (set_ca_date cert (Some (date_to_string date))))
                | None => io_ret (Done cert)
                end
            end
          else io_ret (Done cert)
      end
  end.

(** The [// Main certificate] block of the loop body. *)
Definition watch_main (cert : CertificateSettings.t) : IO W (outcome CertificateSettings.t) :=
  let mc := CertificateSettings.main_certificate cert in
  d <- difference_in_days (MainCertificate.date_issued mc) ;;
  match d with
  | Panic => io_ret Panic
  | Done difference =>
      if Z.geb difference (wrap_i64 (MainCertificate.duration mc - 10)) then
        (r <- match CertificateSettings.cert_authority cert with
             | Some _ => Certs.gen_csr_sign_with_ca (wd_os ws) cert (MainCertificate.passphrase mc)
             | None =>
                 Certs.gen_csr_sign_with_key (wd_os ws) (CertificateSettings.component_name cert)
                   (CertificatePaths.key (MainCertificate.main_paths mc))
                   (MainCertificate.encrypted mc) (MainCertificate.subj mc)
                   (MainCertificate.passphrase mc) (MainCertificate.duration mc)
                   (CertificatePaths.cert (MainCertificate.main_paths mc))
             end ;;
        if is_ok r then
          date <- read_date_issued (CertificatePaths.cert (MainCertificate.main_paths mc)) ;;
          match date with
          | Some date => io_ret (Done (set_main_date cert (Some (date_to_string date))))
          | None => io_ret (Done cert)
          end
        else io_ret (Done cert))
      else io_ret (Done cert)
  end.

(** One pass of [for cert in &mut certificates { ... }]. *)
Fixpoint watchdog_pass (certificates : list CertificateSettings.t)
    : IO W (outcome (list CertificateSettings.t)) :=
  match certificates with
  | [] => io_ret (Done [])
  | cert :: rest =>
      c1 <- watch_ca cert ;;
      match c1 with
      | Panic => io_ret Panic
      | Done c1 =>
          c2 <- watch_main c1 ;;
          match c2 with
          | Panic => io_ret Panic
          | Done c2 =>
              r <- watchdog_pass rest ;;
              match r with
              | Panic => io_ret Panic
              | Done l => io_ret (Done (c2 :: l))
              end
          end
      end
  end.

End S.
End Watchdog.

(** A clock at the epoch and a host where every command runs. *)
Definition epoch_watchdog_sys : WatchdogSys unit := {|
  wd_os := {|
    sys_output := fun _ _ w => (Some (mkOutput true "" ""), w);
    sys_remove := fun _ w => (true, w);
    sys_copy := fun _ _ w => (true, w);
    sys_copy_dir := fun _ _ w => (true, w);
    sys_read := fun _ w => (None, w);
    sys_tempfile := fun _ w => (Some "/tmp/sans", w);
    sys_write_json := fun _ _ w => (true, w) |};
  utc_now := fun _ => 0%Z;
  get_date_issued := fun _ _ => Some 0%Z |}.

(** A self-signed certificate valid for 10 days, issued one second after the
    epoch. *)
Definition ten_day_cert : CertificateSettings.t :=
  CertificateSettings.mk "Mosquitto" "rsa:4096" None
    (MainCertificate.mk false 10 2048 "/CN=mosquitto"
       (CertificatePaths.mk "/etc/mosquitto/server.key" "/etc/mosquitto/server.crt")
       [] [] (Some "1970-01-01 00:00:01") "").

(* ================================================================= *)
(** ** SHA-256 ([ring::digest::SHA256]) and [data_encoding::HEXLOWER] *)

Module SHA256.
Local Open Scope Z_scope.

Definition mask32 : Z := 2 ^ 32 - 1.
Definition add32 (a b : Z) : Z := (a + b) mod 2 ^ 32.
Definition rotr (x : Z) (n : Z) : Z :=
  Z.lor (Z.shiftr x n) (Z.land (Z.shiftl x (32 - n)) mask32).
Definition ch (x y z : Z) : Z := Z.lxor (Z.land x y) (Z.land (Z.lxor x mask32) z).
Definition maj (x y z : Z) : Z := Z.lxor (Z.lxor (Z.land x y) (Z.land x z)) (Z.land y z).
Definition bsig0 (x : Z) : Z := Z.lxor (Z.lxor (rotr x 2) (rotr x 13)) (rotr x 22).
Definition bsig1 (x : Z) : Z := Z.lxor (Z.lxor (rotr x 6) (rotr x 11)) (rotr x 25).
Definition ssig0 (x : Z) : Z := Z.lxor (Z.lxor (rotr x 7) (rotr x 18)) (Z.shiftr x 3).
Definition ssig1 (x : Z) : Z := Z.lxor (Z.lxor (rotr x 17) (rotr x 19)) (Z.shiftr x 10).

(** Words written as space-separated lowercase hex digits, as FIPS 180-4
    lists its constants. *)
Definition hex_digit_value (c : ascii) : Z :=
  let n := Z.of_nat (nat_of_ascii c) in if Z.leb n 57 then n - 48 else n - 87.
Fixpoint hex_words_from (s : string) (acc : Z) (pending : bool) : list Z :=
  match s with
  | EmptyString => if pending then [acc] else []
  | String c s' =>
      if Ascii.eqb c " "%char
      then (if pending then acc :: hex_words_from s' 0 false else hex_words_from s' 0 false)
      else hex_words_from s' (acc * 16 + hex_digit_value c) true
  end.
Definition hex_words (s : string) : list Z := hex_words_from s 0 false.

(** The round constants [K] and the initial hash value [H(0)]. *)
Definition K : list Z :=
  hex_words
    ("428a2f98 71374491 b5c0fbcf e9b5dba5 3956c25b 59f111f1 923f82a4 ab1c5ed5 " ++
     "d807aa98 12835b01 243185be 550c7dc3 72be5d74 80deb1fe 9bdc06a7 c19bf174 " ++
     "e49b69c1 efbe4786 0fc19dc6 240ca1cc 2de92c6f 4a7484aa 5cb0a9dc 76f988da " ++
     "983e5152 a831c66d b00327c8 bf597fc7 c6e00bf3 d5a79147 06ca6351 14292967 " ++
     "27b70a85 2e1b2138 4d2c6dfc 53380d13 650a7354 766a0abb 81c2c92e 92722c85 " ++
     "a2bfe8a1 a81a664b c24b8b70 c76c51a3 d192e819 d6990624 f40e3585 106aa070 " ++
     "19a4c116 1e376c08 2748774c 34b0bcb5 391c0cb3 4ed8aa4a 5b9cca4f 682e6ff3 " ++
     "748f82ee 78a5636f 84c87814 8cc70208 90befffa a4506ceb bef9a3f7 c67178f2")%string.

Definition H0 : list Z :=
  hex_words "6a09e667 bb67ae85 3c6ef372 a54ff53a 510e527f 9b05688c 1f83d9ab 5be0cd19".

(** Big-endian bytes of [n], [k] of them. *)
Definition be_bytes (k : nat) (n : Z) : list Z :=
  map (fun i => (n / 2 ^ (8 * Z.of_nat (k - 1 - i))) mod 256) (seq 0 k).

(** The padded message: [0x80], zeros, and the bit length on 64 bits. *)
Definition pad (msg : list Z) : list Z :=
  let l := Z.of_nat (length msg) in
  msg ++ [128] ++ repeat 0 (Z.to_nat ((55 - l) mod 64)) ++ be_bytes 8 (8 * l).

Fixpoint chunks {A} (fuel n : nat) (l : list A) : list (list A) :=
  match fuel with
  | O => []
  | S f => match l with [] => [] | _ => firstn n l :: chunks f n (skipn n l) end
  end.

Definition word_of (b : list Z) : Z := fold_left (fun acc x => acc * 256 + x) b 0.

(** The 64-word message schedule, built newest first. *)
Fixpoint extend (n : nat) (r : list Z) : list Z :=
  match n with
  | O => r
  | S n' =>
      let w := add32 (add32 (ssig1 (nth 1 r 0)) (nth 6 r 0))
                     (add32 (ssig0 (nth 14 r 0)) (nth 15 r 0)) in
      extend n' (w :: r)
  end.
Definition schedule (block : list Z) : list Z := rev (extend 48 (rev block)).

(** One round on the working variables [a..h]. *)
Definition round (st : list Z) (kw : Z * Z) : list Z :=
  match st with
  | [a; b; c; d; e; f; g; h] =>
      let t1 := add32 (add32 (add32 h (bsig1 e)) (add32 (ch e f g) (fst kw))) (snd kw) in
      let t2 := add32 (bsig0 a) (maj a b c) in
      [add32 t1 t2; a; b; c; add32 d t1; e; f; g]
  | _ => st
  end.

Definition compress (hs : list Z) (block : list Z) : list Z :=
  let st := fold_left round (combine K (schedule block)) hs in
  map (fun p => add32 (fst p) (snd p)) (combine hs st).

Definition digest (msg : list Z) : list Z :=
  let p := pad msg in
  let blocks := map (fun b => map word_of (chunks (length b) 4 b)) (chunks (length p) 64 p) in
  flat_map (be_bytes 4) (fold_left compress blocks H0).

Definition hex_digit (n : Z) : ascii :=
  ascii_of_nat (Z.to_nat (if Z.ltb n 10 then 48 + n else 87 + n)).

(** [HEXLOWER.encode]. *)
Fixpoint hexlower (bs : list Z) : string :=
  match bs with
  | [] => EmptyString
  | b :: bs' => String (hex_digit (b / 16)) (String (hex_digit (b mod 16)) (hexlower bs'))
  end.

End SHA256.

(** [HEXLOWER.encode(sha256_digest(bytes))] of a file's contents. *)
Definition sha256_hexlower (bytes : list byte) : string :=
  SHA256.hexlower (SHA256.digest (map (fun b => Z.of_N (Byte.to_N b)) bytes)).

(* ================================================================= *)
(** ** [version_control::dload_and_verify_updates] and [security::compare_hash] *)

(** The file system the download stage works on: regular files with their
    bytes, and directories, each directory written with a trailing ['/']. *)
(** The file system as the update download sees it: regular files and
    directories (ending in ['/']) under their path. Paths are compared as
    strings: ['.'], ['..'] and repeated ['/'] are not resolved, and there are
    no symbolic links. This agrees with the operating system on the paths
    the download builds when every component name and version is a single
    plain segment (see [Download.plain_segment]). *)
Module FileSystem.
Record t := mk { files : list (string * list byte); dirs : list string }.

Fixpoint lookup (p : string) (l : list (string * list byte)) : option (list byte) :=
  match l with
  | [] => None
  | (q, b) :: l' => if String.eqb q p then Some b else lookup p l'
  end.

(** The directory part of a path, with its trailing ['/'] ([""] if none). *)
Fixpoint parent (s : string) : string :=
  match s with
  | EmptyString => EmptyString
  | String c s' =>
      let r := parent s' in
      match r with
      | EmptyString => if Ascii.eqb c "/"%char then String c EmptyString else EmptyString
      | _ => String c r
      end
  end.

Definition is_dir (p : string) (fs : t) : bool := existsb (String.eqb p) (dirs fs).

(** Replace the contents of the regular file [p]. *)
Definition write (p : string) (b : list byte) (fs : t) : t :=
  mk ((p, b) :: filter (fun e => negb (String.eqb (fst e) p)) (files fs)) (dirs fs).

(** [fs::remove_dir_all(d)]: everything below [d] goes; [Err] when [d] is
    not a directory. *)
Definition remove_dir_all (d : string) (fs : t) : bool * t :=
  (is_dir d fs,
   mk (filter (fun e => negb (String.prefix d (fst e))) (files fs))
      (filter (fun x => negb (String.prefix d x)) (dirs fs))).

(** [fs::create_dir_all(d)] for a directory path [d] ending in ['/']: it
    fails when a regular file sits at [d]. *)
Definition create_dir_all (d : string) (fs : t) : bool * t :=
  match lookup d (files fs) with
  | Some _ => (false, fs)
  | None => (true, mk (files fs) (d :: dirs fs))
  end.

(** [fs::create_dir(p)]: the parent must exist and [p] must not. *)
Definition create_dir (p : string) (fs : t) : bool * t :=
  if is_dir (parent p) fs && negb (is_dir (p ++ "/")%string fs)
     && negb (match lookup p (files fs) with Some _ => true | None => false end)
  then (true, mk (files fs) ((p ++ "/")%string :: dirs fs))
  else (false, fs).

(** [File::create(p)]: creates or truncates [p]; its directory must exist and
    [p] must not be a directory. *)
Definition file_create (p : string) (fs : t) : bool * t :=
  if is_dir (parent p) fs && negb (is_dir (p ++ "/")%string fs) then (true, write p [] fs)
  else (false, fs).

(** [fs::remove_file(p)]. *)
Definition remove_file (p : string) (fs : t) : bool * t :=
  match lookup p (files fs) with
  | None => (false, fs)
  | Some _ => (true, mk (filter (fun e => negb (String.eqb (fst e) p)) (files fs)) (dirs fs))
  end.
End FileSystem.

Module Download.
Import FileSystem.
Section S.
(** [NEUTRON_SERVER_PROTOCOL], chosen by a cargo feature. *)
Variable NEUTRON_SERVER_PROTOCOL : string.
(** [reqwest::get(url)] followed by [copy(&mut response, &mut file)]:
    [None] when the request fails; [Some (bytes, complete)] gives the bytes
    the copy writes into the file and whether it reaches the end of the body
    without an error. *)
Variable server : string -> option (list byte * bool).

Definition TEMP_UPDATE_FOLDER : string := ".vc-temp/version_control/".
Definition get_temp_folder_path : string := (BASE_DIRECTORY ++ TEMP_UPDATE_FOLDER)%string.

(** [security::compare_hash]: [File::open], SHA-256 of the contents, and
    [HEXLOWER.encode(digest) == hash]. *)
Definition compare_hash (file_path hash : string) (fs : FileSystem.t) : bool :=
  match lookup file_path (files fs) with
  | None => false
  | Some bytes => String.eqb (sha256_hexlower bytes) hash
  end.

Definition download_url (neutron_acc_user mosquitto_client_user mosquitto_client_pass
    app_name update_branch component version : string) : string :=
  (NEUTRON_SERVER_PROTOCOL ++ Manifest.NEUTRON_SERVER_IP ++ Manifest.NEUTRON_SERVER_PORT ++
   "/version_control/download?neutronuser=" ++ neutron_acc_user ++
   "&username=" ++ mosquitto_client_user ++ "&password=" ++ mosquitto_client_pass ++
   "&application=" ++ app_name ++ "&branch=" ++ update_branch ++
   "&component=" ++ component ++ "&version=" ++ version)%string.

Section Loops.
Variables neutron_acc_user mosquitto_client_user mosquitto_client_pass app_name update_branch
  : string.

Definition url (component version : string) : string :=
  download_url neutron_acc_user mosquitto_client_user mosquitto_client_pass app_name
    update_branch component version.

(** The inner [for update in component.1] loop; returns
    [(component_updates, dirty_updates, fs)]. *)
Fixpoint download_updates (component tmp_dir_component_path : string) (us : list Update.t)
    (fs : FileSystem.t) (component_updates dirty_updates : list string)
    : list string * list string * FileSystem.t :=
  match us with
  | [] => (component_updates, dirty_updates, fs)
  | update :: us' =>
      let file_path := (tmp_dir_component_path ++ "/" ++ Update.version update)%string in
      match server (url component (Update.version update)) with
      | None =>
          download_updates component tmp_dir_component_path us' fs component_updates dirty_updates
      | Some (body, complete) =>
          let '(created, fs1) := file_create file_path fs in
          if created then
            let fs2 := write file_path body fs1 in
            if complete then
              if compare_hash file_path (Update.checksum update) fs2
              then download_updates component tmp_dir_component_path us' fs2
                     (component_updates ++ [file_path]) dirty_updates
              else download_updates component tmp_dir_component_path us' fs2
                     component_updates (dirty_updates ++ [file_path])
            else download_updates component tmp_dir_component_path us' fs2
                   component_updates dirty_updates
          else download_updates component tmp_dir_component_path us' fs1
                 component_updates dirty_updates
      end
  end.

(** The outer [for component in update_manifest.list] loop; returns
    [(verified_updates, dirty_updates, fs)]. *)
Fixpoint download_components (comps : list (string * list Update.t)) (fs : FileSystem.t)
    (verified_updates : BTree.t (list string)) (dirty_updates : list string)
    : BTree.t (list string) * list string * FileSystem.t :=
  match comps with
  | [] => (verified_updates, dirty_updates, fs)
  | (component, us) :: comps' =>
      let tmp_dir_component_path := (get_temp_folder_path ++ component)%string in
      let '(ok, fs1) := create_dir tmp_dir_component_path fs in
      if ok then
        let '(component_updates, dirty1, fs2) :=
          download_updates component tmp_dir_component_path us fs1 [] dirty_updates in
        download_components comps' fs2
          (match component_updates with
           | [] => verified_updates
           | _ => BTree.insert component component_updates verified_updates
           end) dirty1
      else download_components comps' fs1 verified_updates dirty_updates
  end.

(** The purge of the dirty update files. *)
Fixpoint purge (dirty_updates : list string) (fs : FileSystem.t) : FileSystem.t :=
  match dirty_updates with
  | [] => fs
  | p :: d => purge d (snd (remove_file p fs))
  end.

Definition dload_and_verify_updates (update_manifest : UpdateManifest.t) (fs : FileSystem.t)
    : BTree.t (list string) * FileSystem.t :=
  let temp_folder := get_temp_folder_path in
  let '(_, fs1) := remove_dir_all temp_folder fs in
  let '(ok, fs2) := create_dir_all temp_folder fs1 in
  if ok then
    let '(verified_updates, dirty_updates, fs3) :=
      download_components (UpdateManifest.list update_manifest) fs2 BTree.empty [] in
    (verified_updates, purge dirty_updates fs3)
  else (BTree.empty, fs2).
End Loops.

(** The file an update is downloaded to, and the updates in download order. *)
Definition update_file_path (component : string) (u : Update.t) : string :=
  ((get_temp_folder_path ++ component) ++ "/" ++ Update.version u)%string.


End S.
End Download.

(** A download server answering every URL with [body], in full. *)
Definition serve_all (body : list byte) : string -> option (list byte * bool) :=
  fun _ => Some (body, true).
Definition update_body : list byte := [x50; x4b; x03; x04].
Definition empty_fs : FileSystem.t := FileSystem.mk [] [].



(** The invariant of the two download loops, over the updates [done]
    processed so far, the map [verified] built so far, the current
    component's [cu] (for component [kc]), the dirty list and the file
    system. *)
Module DownloadInvariant.
Import FileSystem Download.
Section S.
Variable proto : string.
Variable server : string -> option (list byte * bool).
Variables user muser mpass app branch : string.
Local Abbreviation response k u := (server (url proto user muser mpass app branch k (Update.version u))).

(** [p] is the file of an already processed update [u] of component [k]: its
    download was complete, the file holds the downloaded bytes, and their
    digest is the update's checksum. *)
Definition admitted_ok (done : list (string * Update.t)) (fs : FileSystem.t) (k p : string)
    : Prop :=
  exists u c, In (k, u) done /\ p = update_file_path k u /\ lookup p (files fs) = Some c /\
    response k u = Some (c, true) /\ sha256_hexlower c = Update.checksum u.

Definition download_inv (done : list (string * Update.t)) (verified : BTree.t (list string))
    (cu : list string) (kc : string) (dirty : list string) (fs : FileSystem.t) : Prop :=
  (forall p c, String.prefix get_temp_folder_path p = true -> lookup p (files fs) = Some c ->
     exists k u ok, In (k, u) done /\ p = update_file_path k u /\ response k u = Some (c, ok) /\
       (ok = true ->
          (sha256_hexlower c = Update.checksum u ->
             In p cu \/ exists k' ps, In (k', ps) verified /\ In p ps) /\
          (sha256_hexlower c <> Update.checksum u -> In p dirty))) /\
  (forall k ps p, In (k, ps) verified -> In p ps -> admitted_ok done fs k p) /\
  (forall p, In p cu -> admitted_ok done fs kc p) /\
  (forall p, In p dirty -> exists k u c, In (k, u) done /\ p = update_file_path k u /\
     response k u = Some (c, true) /\ sha256_hexlower c <> Update.checksum u) /\
  (forall k ps, In (k, ps) verified -> In ((get_temp_folder_path ++ k) ++ "/")%string (dirs fs)).
End S.
End DownloadInvariant.


(* ================================================================= *)
(** ** [settings/update_components.rs], [settings/mqtt_connection.rs],
       [save_certificates] of [settings/encryption_certificates.rs] *)

Module SettingsUpdate.
Section S.
Context {W : Type} (sys : Sys W).
(** [SETTINGS.lock()]: the global settings, [None] when the lock is poisoned. *)
Variable lock_settings : W -> option Settings.t.

(** [add_update_component(settings, component)]. *)
Definition add_update_component (settings : Settings.t) (component : UpdateComponent.t)
    : IO W (result unit string) :=
  let exists_ := existsb (fun x => String.eqb (UpdateComponent.name x)
                                               (UpdateComponent.name component))
                         (Settings.update_components settings) in
  if exists_ then io_ret (Err "An update component with that name already exists.")
  else SettingsFile.save_to_file sys
         (SettingsFile.with_update_components settings
            (Settings.update_components settings ++ [component])).

(** The [for component in &settings.update_components] loop of
    [remove_update_component]: [Some index] of the first component named
    [component_name] ([found]), [None] otherwise. *)
Fixpoint find_component (component_name : string) (l : list UpdateComponent.t) (index : nat)
    : option nat :=
  match l with
  | [] => None
  | component :: l' =>
      if String.eqb (UpdateComponent.name component) component_name then Some index
      else find_component component_name l' (S index)
  end.

(** [remove_update_component(settings, component_name)]. *)
Definition remove_update_component (settings : Settings.t) (component_name : string)
    : IO W (result unit string) :=
  match find_component component_name (Settings.update_components settings) 0 with
  | None => io_ret (Err "A component with that name wasn't found.")
  | Some index =>
      SettingsFile.save_to_file sys
        (SettingsFile.with_update_components settings
           (SettingsFile.vec_remove index (Settings.update_components settings)))
  end.

(** [save_neutron_creds(settings, neutron_user, username, password)]. *)
Definition save_neutron_creds (settings : Settings.t) (neutron_user username password : string)
    : IO W (result unit string) :=
  SettingsFile.save_to_file sys
    (Settings.mk neutron_user (NeutronMqttClient.mk username password)
       (Settings.component_mqtt_client settings) (Settings.application_name settings)
       (Settings.update_branch settings) (Settings.update_components settings)
       (Settings.certificates settings)).

(** [save_component_creds(settings, ip, port, username, password, ca_path)]. *)
Definition save_component_creds (settings : Settings.t) (ip port username password ca_path : string)
    : IO W (result unit string) :=
  SettingsFile.save_to_file sys
    (Settings.mk (Settings.neutron_account_username settings)
       (Settings.neutron_mqtt_client settings)
       (ComponentMqttClient.mk ip port username password ca_path)
       (Settings.application_name settings) (Settings.update_branch settings)
       (Settings.update_components settings) (Settings.certificates settings)).

(** [save_certificates(certificates)]: the settings of the [SETTINGS] mutex
    with their certificate vector replaced, saved to file. *)
Definition save_certificates (certificates : list CertificateSettings.t)
    : IO W (result unit string) :=
  fun w =>
    match lock_settings w with
    | None => (Err "Could not lock settings mutex.", w, [])
    | Some settings =>
        SettingsFile.save_to_file sys (CertSettings.with_certificates settings certificates) w
    end.

End S.
End SettingsUpdate.

(* ================================================================= *)
(** ** [encryption_certificates/mod.rs]: key and certificate generation *)

Module CertGen.
Section S.
Context {W : Type} (sys : Sys W).
(** [thread_rng()] as used by [SliceRandom::choose]: an index drawn from
    [0..n] ([gen_range]), and the next generator state. *)
Variable gen_index : nat -> W -> nat * W.

Definition CHARSET : string :=
  "ABCDEFGHIJKLMNOPQRSTUVWXYZabcdefghijklmnopqrstuvwxyz0123456789".
Definition PASSPHRASE_LENGTH : nat := 20.

(** [CHARSET.choose(&mut rand_generator)]: [None] for an empty slice,
    otherwise the character at the drawn index. *)
Definition choose (w : W) : option ascii * W :=
  let n := String.length CHARSET in
  if Nat.eqb n 0 then (None, w)
  else let '(i, w') := gen_index n w in (String.get i CHARSET, w').

(** [(0..n).map(|_| Some(..)).collect::<Option<String>>()]: stops at the
    first [None]. *)
Fixpoint rand_chars (n : nat) (w : W) : option string * W :=
  match n with
  | 0 => (Some "", w)
  | S n' =>
      let '(c, w1) := choose w in
      match c with
      | None => (None, w1)
      | Some ch => let '(r, w2) := rand_chars n' w1 in (option_map (String ch) r, w2)
      end
  end.

(** [rand_passphrase()]. *)
Definition rand_passphrase : IO W (option string) :=
  fun w => let '(r, w') := rand_chars PASSPHRASE_LENGTH w in (r, w', []).

(** The passphrase of an encrypted key ([rand_passphrase()] is only called
    then); [Some ""] when the key is not encrypted. *)
Definition passphrase_if (encrypted : bool) : IO W (option string) :=
  if encrypted then rand_passphrase else io_ret (Some "").

(** [["-passout", "pass:" ++ passphrase]] when the key is encrypted. *)
Definition passout (encrypted : bool) (passphrase : string) : list string :=
  if encrypted then ["-passout"; ("pass:" ++ passphrase)%string] else [].

(** The arguments of the [openssl req] command of [generate_ca], up to
    [-passout]. *)
Definition ca_args (ca_config : CACertificate.t) : list string :=
  ["req"; "-new"; "-x509"] ++
  (if negb (CACertificate.encrypted ca_config) then ["-nodes"] else []) ++
  ["-days"; i64_to_string (CACertificate.duration ca_config);
   "-extensions"; CACertificate.extensions ca_config;
   "-keyout"; CertificatePaths.key (CACertificate.main_paths ca_config);
   "-out"; CertificatePaths.cert (CACertificate.main_paths ca_config);
   "-subj"; CACertificate.subj ca_config].

(** [generate_ca(component_name, ca_config, just_populate_aux)]; the name is
    only logged. *)
Definition generate_ca (component_name : string) (ca_config : CACertificate.t)
    (just_populate_aux : bool) : IO W (result string string) :=
  gen <- (if just_populate_aux then io_ret (Ok "") else
            p <- passphrase_if (CACertificate.encrypted ca_config) ;;
            match p with
            | None => io_ret (Err "Could not generate a random passphrase.")
            | Some passphrase =>
                r <- cmd_output sys "openssl"
                       (ca_args ca_config ++ passout (CACertificate.encrypted ca_config) passphrase) ;;
                match r with
                | None => io_ret (Err "Could not run openssl.")
                | Some _ => io_ret (Ok passphrase)
                end
            end) ;;
  match gen with
  | Err e => io_ret (Err e)
  | Ok passphrase =>
      r <- CertSettings.populate_aux sys (CACertificate.main_paths ca_config)
             (CACertificate.auxiliary_paths ca_config) ;;
      io_ret (match r with Ok _ => Ok passphrase | Err e => Err e end)
  end.

(** The [openssl genrsa] command of a CA-signed certificate. *)
Definition genrsa_args (mc : MainCertificate.t) (key_passphrase : string) : list string :=
  ["genrsa"] ++ (if MainCertificate.encrypted mc then ["-aes256"] else []) ++
  ["-out"; CertificatePaths.key (MainCertificate.main_paths mc)] ++
  passout (MainCertificate.encrypted mc) key_passphrase ++
  [i64_to_string (MainCertificate.key_len mc)].

(** The [openssl req] command of a self-signed certificate, up to [-passout]. *)
Definition selfsigned_args (certificate : CertificateSettings.t) : list string :=
  let mc := CertificateSettings.main_certificate certificate in
  ["req"; "-newkey"; CertificateSettings.algorithm certificate] ++
  (if negb (MainCertificate.encrypted mc) then ["-nodes"] else []) ++
  ["-keyout"; CertificatePaths.key (MainCertificate.main_paths mc); "-x509";
   "-days"; i64_to_string (MainCertificate.duration mc);
   "-out"; CertificatePaths.cert (MainCertificate.main_paths mc);
   "-subj"; MainCertificate.subj mc].

(** [generate_certificate(certificate, just_populate_aux)]. *)
Definition generate_certificate (certificate : CertificateSettings.t)
    (just_populate_aux : bool) : IO W (result string string) :=
  let mc := CertificateSettings.main_certificate certificate in
  gen <- (if just_populate_aux then io_ret (Ok "") else
            match CertificateSettings.cert_authority certificate with
            | Some _ =>
                p <- passphrase_if (MainCertificate.encrypted mc) ;;
                match p with
                | None => io_ret (Err "Could not generate a random passphrase.")
                | Some key_passphrase =>
                    if Z.ltb 0 (MainCertificate.key_len mc) then
                      r <- cmd_output sys "openssl" (genrsa_args mc key_passphrase) ;;
                      match r with
                      | None => io_ret (Err "Could not run openssl.")
                      | Some _ =>
                          s <- Certs.gen_csr_sign_with_ca sys certificate key_passphrase ;;
                          match s with
                          | Err e => io_ret (Err e)
                          | Ok _ => io_ret (Ok key_passphrase)
                          end
                      end
                    else io_ret (Err "Key length needs to be bigger than 0.")
                end
            | None =>
                p <- passphrase_if (MainCertificate.encrypted mc) ;;
                match p with
                | None => io_ret (Err "Could not generate a random passphrase.")
                | Some passphrase =>
                    r <- cmd_output sys "openssl"
                           (selfsigned_args certificate
                              ++ passout (MainCertificate.encrypted mc) passphrase) ;;
                    match r with
                    | None => io_ret (Err "Could not run openssl.")
                    | Some _ => io_ret (Ok passphrase)
                    end
                end
            end) ;;
  match gen with
  | Err e => io_ret (Err e)
  | Ok key_passphrase =>
      r <- CertSettings.populate_aux sys (MainCertificate.main_paths mc)
             (MainCertificate.auxiliary_paths mc) ;;
      io_ret (match r with
              | Err e => Err e
              | Ok _ => if just_populate_aux then Ok "" else Ok key_passphrase
              end)
  end.

Definition set_ca_passphrase (ca : CACertificate.t) (passphrase : string) : CACertificate.t :=
  CACertificate.mk (CACertificate.encrypted ca) (CACertificate.duration ca)
    (CACertificate.extensions ca) (CACertificate.subj ca) (CACertificate.main_paths ca)
    (CACertificate.auxiliary_paths ca) (CACertificate.date_issued ca) passphrase.

Definition set_main_passphrase (c : CertificateSettings.t) (passphrase : string)
    : CertificateSettings.t :=
  let m := CertificateSettings.main_certificate c in
  CertificateSettings.mk (CertificateSettings.component_name c)
    (CertificateSettings.algorithm c) (CertificateSettings.cert_authority c)
    (MainCertificate.mk (MainCertificate.encrypted m) (MainCertificate.duration m)
       (MainCertificate.key_len m) (MainCertificate.subj m) (MainCertificate.main_paths m)
       (MainCertificate.auxiliary_paths m) (MainCertificate.service_ips m)
       (MainCertificate.date_issued m) passphrase).

(** [add_certificate(settings, certificate)]. *)
Definition add_certificate (settings : Settings.t) (certificate : CertificateSettings.t)
    : IO W (result unit string) :=
  if existsb (fun cert => String.eqb (CertificateSettings.component_name cert)
                                      (CertificateSettings.component_name certificate))
             (Settings.certificates settings)
  then io_ret (Err "A certificate with that component name already exists.")
  else
    c1 <- match CertificateSettings.cert_authority certificate with
          | Some ca =>
              g <- generate_ca (CertificateSettings.component_name certificate) ca false ;;
              match g with
              | Ok passphrase =>
                  io_ret (Ok (CertSettings.with_ca certificate (set_ca_passphrase ca passphrase)))
              | Err e => io_ret (Err e)
              end
          | None => io_ret (Ok certificate)
          end ;;
    match c1 with
    | Err e => io_ret (Err e)
    | Ok certificate =>
        g <- generate_certificate certificate false ;;
        match g with
        | Err e => io_ret (Err e)
        | Ok passphrase =>
            SettingsFile.save_to_file sys
              (CertSettings.with_certificates settings
                 (Settings.certificates settings ++ [set_main_passphrase certificate passphrase]))
        end
    end.

End S.
End CertGen.


(* ================================================================= *)
(** ** [version_control/mod.rs]: [get_recipes] *)

Local Notation "x <-! m ;; k" := (match m with Done x => k | Panic => Panic end)
  (at level 61, m at next level, right associativity).

Module Recipes.
Section S.
Context {W : Type} (sys : Sys W).
(** [serde_json::from_str::<Value>]: [None] when the text is not JSON. *)
Variable parse_json : string -> option json.

Definition RECIPE_FILENAME : string := "recipe.json".

Definition is_empty {A} (l : list A) : bool := match l with [] => true | _ => false end.

(** [value[key] = x] ([IndexMut<&str>]): [Null] first becomes an empty
    object, an object gets the entry inserted or replaced (the map is a
    [BTreeMap]), any other value panics. *)
Definition json_set (v : json) (key : string) (x : json) : outcome json :=
  match v with
  | JNull => Done (JObj (BTree.insert key x []))
  | JObj l => Done (JObj (BTree.insert key x l))
  | _ => Panic
  end.

Definition is_null (v : json) : bool := match v with JNull => true | _ => false end.

(** [value == b] for a [bool] ([PartialEq<bool> for Value]). *)
Definition json_eq_bool (v : json) (b : bool) : bool :=
  match v with JBool b' => Bool.eqb b' b | _ => false end.

(** [value == s] for a [&str] ([PartialEq<&str> for Value]). *)
Definition json_eq_str (v : json) (s : string) : bool :=
  match v with JStr s' => String.eqb s' s | _ => false end.

(** [if instruction[key] == Null { instruction[key] = String(value) }]. *)
Definition fill_if_null (instruction : json) (key value : string) : outcome json :=
  if is_null (jindex instruction key) then json_set instruction key (JStr value)
  else Done instruction.

(** One iteration of [for mut instruction in parsed_json]: the new
    [restart_comp] and [final_version] and the instruction pushed to
    [recipes]. *)
Definition prepare_instruction (component_perms : list UpdateComponent.t) (recipe_path : string)
    (restart_comp : bool) (final_version : string) (instruction : json)
    : outcome (bool * string * json) :=
  let restart_comp :=
    if json_eq_bool (jindex instruction "restart") true then true else restart_comp in
  instruction <-! json_set instruction "absolute_update_path" (JStr recipe_path) ;;
  let final_version :=
    if negb (is_null (jindex instruction "version"))
    then as_str_or_default (jindex instruction "version") else final_version in
  if (json_eq_str (jindex instruction "type") "copy" && negb (is_empty component_perms))%bool then
    match component_perms with
    | [] => Panic
    | p :: _ =>
        instruction <-! fill_if_null instruction "permission_user" (UpdateComponent.permission_user p) ;;
        instruction <-! fill_if_null instruction "permission_group" (UpdateComponent.permission_group p) ;;
        instruction <-! fill_if_null instruction "file_permissions" (UpdateComponent.file_permissions p) ;;
        Done (restart_comp, final_version, instruction)
    end
  else Done (restart_comp, final_version, instruction).

(** The loop over the instructions of one parsed recipe. *)
Fixpoint prepare_instructions (component_perms : list UpdateComponent.t) (recipe_path : string)
    (parsed_json : list json) (restart_comp : bool) (final_version : string)
    (recipes : list json) : outcome (bool * string * list json) :=
  match parsed_json with
  | [] => Done (restart_comp, final_version, recipes)
  | instruction :: rest =>
      match prepare_instruction component_perms recipe_path restart_comp final_version
              instruction with
      | Panic => Panic
      | Done (rc, fv, i) => prepare_instructions component_perms recipe_path rest rc fv (recipes ++ [i])
      end
  end.

(** The loop over the recipe paths of one component: a recipe that cannot
    be opened, read or parsed as an array is skipped. *)
Fixpoint read_recipes (component_perms : list UpdateComponent.t) (paths : list string)
    (restart_comp : bool) (final_version : string) (recipes : list json)
    : IO W (outcome (bool * string * list json)) :=
  match paths with
  | [] => io_ret (Done (restart_comp, final_version, recipes))
  | recipe_path :: rest =>
      contents <- read_file sys (recipe_path ++ RECIPE_FILENAME)%string ;;
      match contents with
      | Some recipe =>
          match parse_json recipe with
          | Some (JArr parsed_json) =>
              match prepare_instructions component_perms recipe_path parsed_json restart_comp
                      final_version recipes with
              | Panic => io_ret Panic
              | Done (rc, fv, rs) => read_recipes component_perms rest rc fv rs
              end
          | _ => read_recipes component_perms rest restart_comp final_version recipes
          end
      | None => read_recipes component_perms rest restart_comp final_version recipes
      end
  end.

(** [permission_presets.iter().filter(|x| x.name == component.0)]. *)
Definition component_perms (permission_presets : list UpdateComponent.t) (name : string)
    : list UpdateComponent.t :=
  filter (fun x => String.eqb (UpdateComponent.name x) name) permission_presets.

(** The body of the loop over the components: [Done None] is the
    [continue] of a component without a final version;
    [component_perms[0]] panics when no preset has the component's name. *)
Definition recipe_component (permission_presets : list UpdateComponent.t)
    (component : string * list string) : IO W (outcome (option json)) :=
  match component_perms permission_presets (fst component) with
  | [] => io_ret Panic
  | (p :: _) as perms =>
      let component_in_vec :=
        BTree.insert "restart_command" (JStr (UpdateComponent.restart_command p))
          (BTree.insert "component" (JStr (fst component)) []) in
      r <- read_recipes perms (snd component) false "" [] ;;
      match r with
      | Panic => io_ret Panic
      | Done (restart_comp, final_version, recipes) =>
          if String.eqb final_version "" then io_ret (Done None)
          else io_ret (Done (Some (JObj
                 (BTree.insert "updates" (JArr recipes)
                    (BTree.insert "final_version" (JStr final_version)
                       (BTree.insert "restart" (JBool restart_comp) component_in_vec))))))
      end
  end.

Fixpoint get_recipes_loop (permission_presets : list UpdateComponent.t)
    (update_paths : BTree.t (list string)) (cookbook : list json) : IO W (outcome (list json)) :=
  match update_paths with
  | [] => io_ret (Done cookbook)
  | component :: rest =>
      r <- recipe_component permission_presets component ;;
      match r with
      | Panic => io_ret Panic
      | Done None => get_recipes_loop permission_presets rest cookbook
      | Done (Some c) => get_recipes_loop permission_presets rest (cookbook ++ [c])
      end
  end.

(** [get_recipes(update_paths, permission_presets)]. *)
Definition get_recipes (update_paths : BTree.t (list string))
    (permission_presets : list UpdateComponent.t) : IO W (outcome (list json)) :=
  get_recipes_loop permission_presets update_paths [].

End S.
End Recipes.

(* ================================================================= *)
(** ** [version_control/mod.rs]: leftover updates and
       [update_download_and_install] *)

(** The state [update_download_and_install] and the leftover functions use
    besides [cook]'s: the [UPDATE_MANIFEST] and [SETTINGS] mutexes ([None]:
    poisoned), clearing the manifest slot, and the file system the download
    works on. *)
Record UpdateSys (W : Type) := {
  us_cook : CookSys W;
  us_lock_manifest : W -> option (option UpdateManifest.t);
  us_clear_manifest : W -> W;
  us_lock_settings : W -> option Settings.t;
  us_fs : W -> FileSystem.t;
  us_set_fs : FileSystem.t -> W -> W;
}.
Arguments us_cook {W} _.
Arguments us_lock_manifest {W} _ _.
Arguments us_clear_manifest {W} _ _.
Arguments us_lock_settings {W} _ _.
Arguments us_fs {W} _ _.
Arguments us_set_fs {W} _ _ _.

(** [BTreeMap::remove(k)]. *)
Fixpoint btree_remove {V} (k : string) (m : BTree.t V) : BTree.t V :=
  match m with
  | [] => []
  | (k', v') :: m' => if String.eqb k k' then m' else (k', v') :: btree_remove k m'
  end.

Module UpdateFlow.
Section S.
Context {W : Type} (us : UpdateSys W).
Variable debug_assertions : bool.
Variable parse_json : string -> option json.
Variable NEUTRON_SERVER_PROTOCOL : string.
Variable server : string -> option (list byte * bool).

Local Abbreviation cs := (us_cook us).
Local Abbreviation sys := (cook_os (us_cook us)).

Definition LEFTOVER_UPDATES_FILE : string := "unfinished_updates.json".
Definition leftover_path : string := (Download.get_temp_folder_path ++ LEFTOVER_UPDATES_FILE)%string.

(** [serde_json::to_string(&update_manifest)] of a [BTreeMap<String, Vec<String>>]. *)
Definition leftover_document (m : BTree.t (list string)) : json :=
  JObj (map (fun kv => (fst kv, JArr (map JStr (snd kv)))) m).

(** [save_leftover_updates(update_manifest)]: [File::create] and
    [write_all]; [true] for [Ok]. *)
Definition save_leftover_updates (update_manifest : BTree.t (list string)) : IO W bool :=
  write_json sys leftover_path (leftover_document update_manifest).

(** Deserializing a [BTreeMap<String, Vec<String>>] from a JSON object. *)
Fixpoint de_update_entries (l : list (string * json)) (m : BTree.t (list string))
    : option (BTree.t (list string)) :=
  match l with
  | [] => Some m
  | (k, v) :: l' => vs <-? Serde.de_vec Serde.de_string v ;; de_update_entries l' (BTree.insert k vs m)
  end.

Definition de_update_list (v : json) : option (BTree.t (list string)) :=
  match v with JObj l => de_update_entries l BTree.empty | _ => None end.

(** [fs::remove_dir_all(d).is_err()] negated, on the file system of the world. *)
Definition fs_remove_dir_all (d : string) : IO W bool :=
  fun w => let '(ok, fs') := FileSystem.remove_dir_all d (us_fs us w) in (ok, us_set_fs us fs' w, []).

(** [install_leftover_updates(update_list, permission_presets)]. *)
Definition install_leftover_updates (update_list : BTree.t (list string))
    (permission_presets : list UpdateComponent.t) : IO W (outcome unit) :=
  cb <- Recipes.get_recipes sys parse_json update_list permission_presets ;;
  match cb with
  | Panic => io_ret Panic
  | Done cookbook =>
      RecipeProcessor.cook cs debug_assertions cookbook ;;;
      ok <- fs_remove_dir_all Download.get_temp_folder_path ;;
      if ok then io_ret (Done tt)
      else remove_file sys leftover_path ;;; io_ret (Done tt)
  end.

(** [find_leftover_updates(permission_presets)]. *)
Definition find_leftover_updates (permission_presets : list UpdateComponent.t)
    : IO W (outcome unit) :=
  contents <- read_file sys leftover_path ;;
  match contents with
  | None => io_ret (Done tt)
  | Some text =>
      match (v <-? parse_json text ;; de_update_list v) with
      | Some update_list =>
          if Recipes.is_empty update_list then io_ret (Done tt)
          else install_leftover_updates update_list permission_presets
      | None => io_ret (Done tt)
      end
  end.

(** [dload_and_verify_updates(update_manifest, ..)] on the file system of
    the world, with the account data of the settings. *)
Definition dload_step (update_manifest : UpdateManifest.t) (settings : Settings.t)
    : IO W (BTree.t (list string)) :=
  fun w =>
    let '(r, fs') :=
      Download.dload_and_verify_updates NEUTRON_SERVER_PROTOCOL server
        (Settings.neutron_account_username settings)
        (NeutronMqttClient.username (Settings.neutron_mqtt_client settings))
        (NeutronMqttClient.password (Settings.neutron_mqtt_client settings))
        (Settings.application_name settings) (Settings.update_branch settings)
        update_manifest (us_fs us w) in
    (r, us_set_fs us fs' w, []).

(** The cookbook of [update_download_and_install]: the agent's own update
    alone when there is one (the other updates saved as leftovers), all
    unpacked updates otherwise. *)
Definition select_cookbook (inflated_updates : BTree.t (list string))
    (permission_presets : list UpdateComponent.t) : IO W (outcome (list json)) :=
  match BTree.get APP_NAME inflated_updates with
  | Some neco_paths =>
      Manifest.send_state "Upgrading updater..." ;;;
      let neco_updates := BTree.insert APP_NAME neco_paths BTree.empty in
      let inflated_updates := btree_remove APP_NAME inflated_updates in
      (if negb (Recipes.is_empty inflated_updates) then
         ok <- save_leftover_updates inflated_updates ;;
         if ok then Manifest.send_state "Other updates will be installed after updater is upgraded."
         else Manifest.send_state
                "Failed to save the unfinished update list. Start the update search manually after the updater upgrade."
       else io_ret tt) ;;;
      Recipes.get_recipes sys parse_json neco_updates permission_presets
  | None => Recipes.get_recipes sys parse_json inflated_updates permission_presets
  end.

(** [update_download_and_install(mqtt_client)]. *)
Definition update_download_and_install : IO W (outcome unit) :=
  fun w =>
    match us_lock_manifest us w with
    | None | Some None => (Done tt, w, [])
    | Some (Some update_manifest) =>
        match us_lock_settings us w with
        | None => (Done tt, w, [])
        | Some settings =>
            match lock_update_components cs w with
            | None => (Done tt, w, [])
            | Some permission_presets =>
                (Manifest.send_state "Starting update download & install." ;;;
                 verified_updates <- dload_step update_manifest settings ;;
                 if Recipes.is_empty verified_updates then io_ret (Done tt) else
                 Manifest.send_state "Updates downloaded and verified. Unpacking..." ;;;
                 inflated_updates <- VersionControl.unpack_updates sys verified_updates ;;
                 cb <- select_cookbook inflated_updates permission_presets ;;
                 match cb with
                 | Panic => io_ret Panic
                 | Done cookbook =>
                     Manifest.send_state "Updating component(s)..." ;;;
                     ok <- RecipeProcessor.cook cs debug_assertions cookbook ;;
                     (if ok then Manifest.send_state "Update download & install complete."
                      else Manifest.send_state
                             "Some components failed to install. Please contact the support team.") ;;;
                     (fun w => (Done tt, us_clear_manifest us w, []))
                 end) w
            end
        end
    end.

End S.
End UpdateFlow.


(* ================================================================= *)
(** ** [version_control/mod.rs]: component states and logs *)

(** The mutexes [get_component_states] and [get_component_log] lock
    ([None]: the lock is poisoned). *)
Record QuerySys (W : Type) := {
  qs_os : Sys W;
  qs_lock_settings : W -> option Settings.t;
  qs_lock_component_versions : W -> option (BTree.t string);
  qs_lock_update_components : W -> option (list UpdateComponent.t);
}.
Arguments qs_os {W} _.
Arguments qs_lock_settings {W} _ _.
Arguments qs_lock_component_versions {W} _ _.
Arguments qs_lock_update_components {W} _ _.

(** [serde_json::Error]: an error of the parser or of the derived
    [Deserialize], or an [io::Error] wrapped by [serde_json::Error::io]. *)
Inductive query_error :=
| ParseError
| IoError (msg : string).

Module Query.
Section S.
Context {W : Type} (qs : QuerySys W).
(** [serde_json::from_str] up to a [Value]. *)
Variable parse_json : string -> option json.

Local Abbreviation sys := (qs_os qs).

Definition QUOTE : string := String "034"%char EmptyString.

(** [execute_shell(command)]: [sh -c command]; [Ok(stdout)] when nothing
    was written to stderr. *)
Definition execute_shell (command : string) : IO W (result string string) :=
  r <- cmd_output sys "sh" ["-c"; command] ;;
  match r with
  | Some res =>
      io_ret (if String.eqb (out_stderr res) "" then Ok (out_stdout res) else Err (out_stderr res))
  | None => io_ret (Err "Internal Error")
  end.

Definition service_state_command (name : string) : string :=
  ("systemctl is-active " ++ name)%string.

(** [fetch_service_state(name)]. *)
Definition fetch_service_state (name : string) : IO W bool :=
  r <- cmd_output sys "sh" ["-c"; service_state_command name] ;;
  match r with
  | Some res => io_ret (if String.eqb (out_stderr res) "" then out_status_ok res else false)
  | None => io_ret false
  end.

Definition container_id_command (name : string) : string :=
  ("docker ps -qf " ++ QUOTE ++ "name=^" ++ name ++ "$" ++ QUOTE)%string.

(** [fetch_container_state(name)]. *)
Definition fetch_container_state (name : string) : IO W bool :=
  r <- execute_shell (container_id_command name) ;;
  match r with
  | Ok out => io_ret (negb (String.eqb out ""))
  | Err _ => io_ret false
  end.

(** A serialized [Component { component, version, state }]. *)
Definition component_entry (component version : string) (state : bool) : json :=
  JObj [("component", JStr component); ("version", JStr version); ("state", JBool state)].

(** [component_versions.get(&comp.name).unwrap_or(&String::from("Unknown"))]. *)
Definition version_or_unknown (component_versions : BTree.t string) (comp : UpdateComponent.t)
    : string :=
  match BTree.get (UpdateComponent.name comp) component_versions with
  | Some v => v
  | None => "Unknown"
  end.

(** The entries one component adds: its container's, then its service's. *)
Definition component_states (component_versions : BTree.t string) (comp : UpdateComponent.t)
    : IO W (list json) :=
  let ver := version_or_unknown component_versions comp in
  c <- match UpdateComponent.container_name comp with
       | Some name =>
           st <- fetch_container_state name ;;
           io_ret [component_entry (UpdateComponent.name comp ++ " - Container") ver st]
       | None => io_ret []
       end ;;
  s <- match UpdateComponent.service_name comp with
       | Some name =>
           st <- fetch_service_state name ;;
           io_ret [component_entry (UpdateComponent.name comp ++ " - Service") ver st]
       | None => io_ret []
       end ;;
  io_ret (c ++ s).

(** [for comp in update_components { ... }], skipping the agent. *)
Fixpoint states_loop (component_versions : BTree.t string) (comps : list UpdateComponent.t)
    : IO W (list json) :=
  match comps with
  | [] => io_ret []
  | comp :: rest =>
      if String.eqb (UpdateComponent.name comp) APP_NAME
      then states_loop component_versions rest
      else
        e <- component_states component_versions comp ;;
        es <- states_loop component_versions rest ;;
        io_ret (e ++ es)
  end.

(** [get_component_states()]: the serialized [Main { id, components }]. *)
Definition get_component_states : IO W (result json query_error) :=
  fun w =>
    match qs_lock_settings qs w with
    | None => (Err (IoError "Could not lock SETTINGS mutex."), w, [])
    | Some settings =>
        match qs_lock_component_versions qs w with
        | None => (Err (IoError "Could not lock COMPONENT_VERSIONS mutex."), w, [])
        | Some component_versions =>
            match qs_lock_update_components qs w with
            | None => (Err (IoError "Could not lock UPDATE_COMPONENTS mutex."), w, [])
            | Some update_components =>
                (components <- states_loop component_versions update_components ;;
                 io_ret (Ok (JObj [("id", JStr (ComponentMqttClient.username
                                                  (Settings.component_mqtt_client settings)));
                                   ("components", JArr components)]))) w
            end
        end
    end.

Definition service_log_command (name : string) : string :=
  ("journalctl --no-pager -u " ++ name)%string.

(** [fetch_service_log(name)]. *)
Definition fetch_service_log (name : string) : IO W string :=
  r <- execute_shell (service_log_command name) ;;
  match r with
  | Ok res => io_ret res
  | Err e_res => io_ret ("Failed to get service log. >> " ++ trim e_res)%string
  end.

Definition container_log_command (name : string) : string :=
  ("docker logs -t " ++ name)%string.

(** [fetch_container_log(name)]. *)
Definition fetch_container_log (name : string) : IO W string :=
  r <- execute_shell (container_log_command name) ;;
  match r with
  | Ok res => io_ret res
  | Err e_res => io_ret ("Failed to get container log. >> " ++ trim e_res)%string
  end.

(** [data.replace]: every single quote becomes a double quote. *)
Fixpoint replace_quotes (s : string) : string :=
  match s with
  | EmptyString => EmptyString
  | String a s' => String (if Ascii.eqb a "'"%char then "034"%char else a) (replace_quotes s')
  end.

Definition cons_head (a : ascii) (l : list string) : list string :=
  match l with
  | x :: l' => String a x :: l'
  | [] => [String a EmptyString]
  end.

(** [s.split(" - ").collect::<Vec<&str>>()]: the separator is matched from
    the left, without overlaps. *)
Fixpoint split_dash (s : string) : list string :=
  match s with
  | EmptyString => [EmptyString]
  | String a rest =>
      match rest with
      | String b (String c rest') =>
          if (Ascii.eqb a " " && Ascii.eqb b "-" && Ascii.eqb c " ")%bool
          then EmptyString :: split_dash rest'
          else cons_head a (split_dash rest)
      | _ => cons_head a (split_dash rest)
      end
  end.

(** The derived [Deserialize] of [JSONIn { request, component }] on an
    object: unknown fields are ignored, a repeated field is refused, both
    fields are required strings. *)
Fixpoint de_json_in_fields (l : list (string * json)) (request component : option string)
    : option (string * string) :=
  match l with
  | [] => r <-? request ;; c <-? component ;; Some (r, c)
  | (k, v) :: l' =>
      if String.eqb k "request" then
        match request with
        | Some _ => None
        | None => r <-? Serde.de_string v ;; de_json_in_fields l' (Some r) component
        end
      else if String.eqb k "component" then
        match component with
        | Some _ => None
        | None => c <-? Serde.de_string v ;; de_json_in_fields l' request (Some c)
        end
      else de_json_in_fields l' request component
  end.

(** ... and on a sequence: exactly the two fields, in order. *)
Definition de_json_in (v : json) : option (string * string) :=
  match v with
  | JObj l => de_json_in_fields l None None
  | JArr [r; c] => request <-? Serde.de_string r ;; component <-? Serde.de_string c ;;
                   Some (request, component)
  | _ => None
  end.

(** The [match comp_type] of [get_component_log]: the log fetch for the
    requested type, [None] for an unknown type. *)
Definition log_fetch (component : UpdateComponent.t) (comp_type : string) : option (IO W string) :=
  if String.eqb comp_type "Service" then
    Some (match UpdateComponent.service_name component with
          | Some n => fetch_service_log n
          | None => io_ret ""
          end)
  else if String.eqb comp_type "Container" then
    Some (match UpdateComponent.container_name component with
          | Some n => fetch_container_log n
          | None => io_ret ""
          end)
  else None.

(** [get_component_log(data)]: the serialized [JSONOut { request, data }]. *)
Definition get_component_log (data : string) : IO W (result json query_error) :=
  fun w =>
    match (v <-? parse_json (replace_quotes data) ;; de_json_in v) with
    | None => (Err ParseError, w, [])
    | Some (request, component) =>
        match split_dash component with
        | [component_name; comp_type] =>
            match qs_lock_update_components qs w with
            | None => (Err (IoError "Could not lock UPDATE_COMPONENTS mutex."), w, [])
            | Some components =>
                match filter (fun x => String.eqb (UpdateComponent.name x) component_name)
                        components with
                | comp :: _ =>
                    match log_fetch comp comp_type with
                    | None =>
                        (Err (IoError ("Could not determine the component type. '" ++
                                       component_name ++ "'")), w, [])
                    | Some fetch =>
                        (ret_data <- fetch ;;
                         io_ret (if String.eqb ret_data "" then
                                   Err (IoError ("Failed to fetch the log. Component: " ++
                                                 UpdateComponent.name comp ++ " | Type requested: " ++
                                                 comp_type ++ " | <type>.name == None"))
                                 else Ok (JObj [("request", JStr request); ("data", JStr ret_data)]))) w
                    end
                | [] =>
                    (Err (IoError ("Could not find a component named: '" ++ component_name ++ "'")),
                     w, [])
                end
            end
        | _ =>
            (Err (IoError ("Failed splitting component, no component type specified. '" ++
                           component ++ "'")), w, [])
        end
    end.

End S.
End Query.


(* ================================================================= *)
(** ** Concrete inputs for the update installation *)

(** A world in which every file reads as the same text. *)
Definition recipe_reading_sys : Sys unit := {|
  sys_output := fun _ _ w => (None, w);
  sys_remove := fun _ w => (true, w);
  sys_copy := fun _ _ w => (true, w);
  sys_copy_dir := fun _ _ w => (true, w);
  sys_read := fun _ w => (Some "recipe", w);
  sys_tempfile := fun _ w => (Some "/tmp/sans", w);
  sys_write_json := fun _ _ w => (true, w) |}.

(** A parser that reads any text as one recipe: a copy instruction of
    version 1.2.0 that asks for a restart. *)
Definition recipe_example_parse (text : string) : option json :=
  Some (JArr [JObj [("restart", JBool true); ("type", JStr "copy"); ("version", JStr "1.2.0")]]).

Definition blackbox_update_paths : BTree.t (list string) :=
  [("BlackBox", ["/tmp/BlackBox-1.2.0.zip-extracted/"])].

Definition blackbox_recipes_run :=
  Recipes.get_recipes recipe_reading_sys recipe_example_parse blackbox_update_paths
    [blackbox_component] tt.

Definition blackbox_cookbook : list json :=
  Eval vm_compute in
    match blackbox_recipes_run with (Done cb, _, _) => cb | _ => [] end.

(** The agent's configuration: the two components have permission presets,
    every file reads as a recipe, and the manifest lists an update of the
    BlackBox and one of the agent. *)
Definition example_cook_sys : CookSys unit := {|
  cook_os := recipe_reading_sys;
  dev_dir_exists := fun _ _ => true;
  create_dir := fun _ w => (true, w);
  lock_update_components := fun _ => Some [blackbox_component; SettingsFile.agent_component];
  lock_component_versions := fun _ => Some [];
  store_component_versions := fun _ w => w;
  store_restart_neco := fun w => w;
  find_leftover_updates := fun _ => io_ret tt |}.

Definition agent_update_manifest : UpdateManifest.t :=
  UpdateManifest.mk
    [("BlackBox", [Update.mk false (sha256_hexlower update_body) "1.2.0" "" None]);
     (APP_NAME, [Update.mk false (sha256_hexlower update_body) "1.3.0" "" None])].

Definition example_update_sys : UpdateSys unit := {|
  us_cook := example_cook_sys;
  us_lock_manifest := fun _ => Some (Some agent_update_manifest);
  us_clear_manifest := fun w => w;
  us_lock_settings := fun _ => Some settings_loaded_example;
  us_fs := fun _ => empty_fs;
  us_set_fs := fun _ w => w |}.

Definition example_download : BTree.t (list string) * FileSystem.t :=
  Eval vm_compute in
    Download.dload_and_verify_updates "https://" (serve_all update_body) "neco" "u" "p" "LSOC"
      "stable" agent_update_manifest empty_fs.

Definition example_unpack : BTree.t (list string) * unit * list Event :=
  Eval vm_compute in VersionControl.unpack_updates recipe_reading_sys (fst example_download) tt.

Definition example_update_run : outcome unit * unit * list Event :=
  Eval vm_compute in
    UpdateFlow.update_download_and_install example_update_sys false recipe_example_parse "https://"
      (serve_all update_body) tt.

Definition example_leftover_install : outcome unit * unit * list Event :=
  Eval vm_compute in
    UpdateFlow.install_leftover_updates example_update_sys false recipe_example_parse
      blackbox_update_paths [blackbox_component] tt.

(* ================================================================= *)
(** ** Concrete inputs for the settings updates and certificate generation *)

Definition webinterface_component : UpdateComponent.t :=
  UpdateComponent.mk "WebInterface" "/etc/WebInterface/webinterface.version" "www-data" "www-data"
    "755" (Some "webinterface") None "docker restart webinterface".

(** A random source that always draws the first index. *)
Definition first_index (n : nat) (w : unit) : nat * unit := (0%nat, w).

(** A host on which openssl starts but fails, and every copy succeeds. *)
Definition failing_openssl_sys : Sys unit := {|
  sys_output := fun _ _ w => (Some (mkOutput false "" "unable to load key"), w);
  sys_remove := fun _ w => (true, w);
  sys_copy := fun _ _ w => (true, w);
  sys_copy_dir := fun _ _ w => (true, w);
  sys_read := fun _ w => (None, w);
  sys_tempfile := fun _ w => (Some "/tmp/ext", w);
  sys_write_json := fun _ _ w => (true, w) |}.

Definition mosquitto_ca : CACertificate.t :=
  CACertificate.mk true 3650 "v3_ca" "/CN=LSOC-CA"
    (CertificatePaths.mk "/etc/mosquitto/ca.key" "/etc/mosquitto/ca.crt")
    [] None "".

(** A CA-signed certificate asking for a key of length 0. *)
Definition zero_key_cert : CertificateSettings.t :=
  CertificateSettings.mk "BlackBox" "rsa:2048" (Some mosquitto_ca)
    (MainCertificate.mk true 365 0 "/CN=blackbox"
       (CertificatePaths.mk "/etc/BlackBox/server.key" "/etc/BlackBox/server.crt")
       [] [] None "").

(** A self-signed certificate with an encrypted key. *)
Definition blackbox_selfsigned_cert : CertificateSettings.t :=
  CertificateSettings.mk "BlackBox" "rsa:2048" None
    (MainCertificate.mk true 365 2048 "/CN=blackbox"
       (CertificatePaths.mk "/etc/BlackBox/server.key" "/etc/BlackBox/server.crt")
       [] [] None "").

(* ================================================================= *)
(** ** Concrete inputs for the component states and logs *)

(** A host on which the journal and [docker ps] answer, and [docker logs]
    fails with a message on stderr. *)
Definition query_os : Sys unit := {|
  sys_output := fun prog args w =>
    match args with
    | ["-c"; command] =>
        if String.prefix "journalctl" command then
          (Some (mkOutput true "Oct 18 blackbox started" ""), w)
        else if String.prefix "docker logs" command then
          (Some (mkOutput false "" "Error: No such container: webinterface
"), w)
        else if String.prefix "docker ps" command then (Some (mkOutput true "3f2a9c
" ""), w)
        else (Some (mkOutput true "active
" ""), w)
    | _ => (None, w)
    end;
  sys_remove := fun _ w => (true, w);
  sys_copy := fun _ _ w => (true, w);
  sys_copy_dir := fun _ _ w => (true, w);
  sys_read := fun _ w => (None, w);
  sys_tempfile := fun _ w => (None, w);
  sys_write_json := fun _ _ w => (true, w) |}.

Definition example_query_sys : QuerySys unit := {|
  qs_os := query_os;
  qs_lock_settings := fun _ => Some settings_loaded_example;
  qs_lock_component_versions := fun _ => Some [("BlackBox", "1.2.0"); (APP_NAME, "1.3.0")];
  qs_lock_update_components := fun _ =>
    Some [webinterface_component; blackbox_component; SettingsFile.agent_component] |}.

(** The parsed requests for the log of the BlackBox service and of the
    WebInterface container. *)
Definition blackbox_log_request (_ : string) : option json :=
  Some (JObj [("id", JStr "neco"); ("request", JStr "r-17"); ("component", JStr "BlackBox - Service")]).
Definition webinterface_log_request (_ : string) : option json :=
  Some (JObj [("id", JStr "neco"); ("request", JStr "r-18");
              ("component", JStr "WebInterface - Container")]).

Definition example_states := Eval vm_compute in Query.get_component_states example_query_sys tt.
Definition example_blackbox_log :=
  Eval vm_compute in
    Query.get_component_log example_query_sys blackbox_log_request
      "{'id': 'neco', 'request': 'r-17', 'component': 'BlackBox - Service'}" tt.
Definition example_webinterface_log :=
  Eval vm_compute in
    Query.get_component_log example_query_sys webinterface_log_request
      "{'id': 'neco', 'request': 'r-18', 'component': 'WebInterface - Container'}" tt.

(* ================================================================= *)
(** * Properties *)

Module SecurityProofs.
Import Security.

(** C8: [set_file_permissions] runs [chmod] first; when [chmod] fails (spawn
    error or non-empty stderr) nothing else runs and the result is an error;
    otherwise [chown user:group] runs next, and the result is [Ok] exactly when
    both commands were spawned and left stderr empty. *)
Theorem set_file_permissions_chmod_then_chown {W} (sys : Sys W)
    (file_loc user group perms : string) (w : W) :
  let chmod := EvRun "chmod" [perms; file_loc] in
  let chown := EvRun "chown" [(user ++ ":" ++ group)%string; file_loc] in
  let o1 := fst (sys_output sys "chmod" [perms; file_loc] w) in
  let w1 := snd (sys_output sys "chmod" [perms; file_loc] w) in
  let o2 := fst (sys_output sys "chown" [(user ++ ":" ++ group)%string; file_loc] w1) in
  let '(r, _, t) := set_file_permissions sys file_loc user group perms w in
  (spawned_clean o1 = false -> t = [chmod] /\ r = Err tt) /\
  (spawned_clean o1 = true -> t = [chmod; chown]) /\
  (r = Ok tt <-> spawned_clean o1 = true /\ spawned_clean o2 = true).
Proof.
  cbv zeta. unfold set_file_permissions, io_bind, cmd_output, io_ret.
  destruct (sys_output sys "chmod" [perms; file_loc] w) as [o1 w1]; simpl.
  destruct o1 as [res|]; simpl.
  - destruct (String.eqb (out_stderr res) "") eqn:E1; simpl.
    + destruct (sys_output sys "chown" _ w1) as [o2 w2]; simpl.
      destruct o2 as [res2|]; simpl.
      * destruct (String.eqb (out_stderr res2) "") eqn:E2; simpl;
          repeat split; intros; try discriminate; try tauto; try reflexivity;
          destruct H; discriminate.
      * repeat split; intros; try discriminate; try reflexivity;
          destruct H; discriminate.
    + repeat split; intros; try discriminate; try reflexivity;
        destruct H; discriminate.
  - repeat split; intros; try discriminate; try reflexivity;
      destruct H; discriminate.
Qed.

End SecurityProofs.

Module CertsProofs.
Import Certs.

Example csr_temp_path_multi_dot :
  csr_temp_path "/etc/ca.v2.key" = Some "/etc/ca.csr".
Proof. reflexivity. Qed.

Example csr_temp_path_no_dot : csr_temp_path "/etc/cakey" = None.
Proof. reflexivity. Qed.

Lemma split_take1_first_dot (pre rest : string) :
  str_contains "." pre = false ->
  split_take1 "." (pre ++ "." ++ rest) = pre /\
  str_contains "." (pre ++ "." ++ rest) = true.
Proof.
  induction pre as [|a pre IH]; simpl; intros H.
  - split; reflexivity.
  - apply orb_false_iff in H as [Ha Hp].
    rewrite Ha. destruct (IH Hp) as [E1 E2]. simpl in E1, E2.
    rewrite E1, E2. split; [reflexivity|apply orb_true_r].
Qed.

Lemma csr_temp_path_dot (pre rest : string) :
  str_contains "." pre = false ->
  csr_temp_path (pre ++ "." ++ rest) = Some (pre ++ ".csr")%string.
Proof.
  intros H. destruct (split_take1_first_dot pre rest H) as [E1 E2].
  unfold csr_temp_path. rewrite E2, E1. reflexivity.
Qed.

Lemma csr_temp_path_nodot (k : string) :
  str_contains "." k = false -> csr_temp_path k = None.
Proof. intros H. unfold csr_temp_path. rewrite H. reflexivity. Qed.

Lemma first_run_cmd {W A} (sys : Sys W) prog args (k : option Output -> IO W A) w :
  let '(_, _, t) := (r <- cmd_output sys prog args ;; k r) w in
  first_run t = Some (EvRun prog args).
Proof.
  unfold io_bind, cmd_output. destruct (sys_output sys prog args w) as [o w1].
  destruct (k o w1) as [[b w2] t2]. reflexivity.
Qed.

(** C7: both signing functions take the temporary CSR path to be the key
    path's text before its first dot followed by [.csr] (the path given to
    [openssl req -out] and removed afterwards), and when the key path has no
    dot they return an error before spawning any command or touching the
    world. *)
Theorem gen_csr_path_split_once_on_dot {W} (sys : Sys W)
    (pre rest component_name key subj pass crt mkp : string) (enc : bool)
    (dur : Z) (cert : CertificateSettings.t) (w : W) :
  let cert_key := CertificatePaths.key (MainCertificate.main_paths
                    (CertificateSettings.main_certificate cert)) in
  (str_contains "." pre = false ->
     csr_temp_path (pre ++ "." ++ rest) = Some (pre ++ ".csr")%string) /\
  (str_contains "." key = false ->
     exists e, gen_csr_sign_with_key sys component_name key enc subj pass dur crt w
               = (Err e, w, [])) /\
  (str_contains "." cert_key = false ->
     exists e, gen_csr_sign_with_ca sys cert mkp w = (Err e, w, [])) /\
  (str_contains "." pre = false -> key = (pre ++ "." ++ rest)%string ->
     let '(_, _, t) := gen_csr_sign_with_key sys component_name key enc subj pass dur crt w in
     exists args, first_run t = Some (EvRun "openssl" ("req" :: "-out" :: (pre ++ ".csr")%string :: args))) /\
  (str_contains "." pre = false -> cert_key = (pre ++ "." ++ rest)%string ->
     let '(_, _, t) := gen_csr_sign_with_ca sys cert mkp w in
     forall e, first_run t = Some e ->
     exists args, e = EvRun "openssl" ("req" :: "-out" :: (pre ++ ".csr")%string :: args)).
Proof.
  cbv zeta. repeat split.
  - apply csr_temp_path_dot.
  - intros H. unfold gen_csr_sign_with_key. rewrite (csr_temp_path_nodot _ H).
    eexists. reflexivity.
  - intros H. unfold gen_csr_sign_with_ca. cbv zeta. rewrite (csr_temp_path_nodot _ H).
    eexists. reflexivity.
  - intros Hp ->. unfold gen_csr_sign_with_key. rewrite (csr_temp_path_dot _ _ Hp).
    match goal with |- context [io_bind (cmd_output sys ?p ?a) ?k w] =>
      pose proof (first_run_cmd sys p a k w) as F end.
    destruct (io_bind _ _ w) as [[r w'] t]. rewrite F. eexists. reflexivity.
  - intros Hp Hk. unfold gen_csr_sign_with_ca. cbv zeta.
    rewrite Hk, (csr_temp_path_dot _ _ Hp).
    destruct (CertificateSettings.cert_authority cert) as [ca|]; [|intros e' He'; discriminate].
    destruct (MainCertificate.service_ips _) as [|ip ips].
    + match goal with |- context [io_bind (cmd_output sys ?p ?a) ?k w] =>
        pose proof (first_run_cmd sys p a k w) as F end.
      destruct (io_bind _ _ w) as [[r w'] t]. rewrite F.
      intros e He; inversion He; eexists; reflexivity.
    + unfold io_bind at 1, temp_file.
      destruct (sys_tempfile sys _ w) as [[path|] w1]; simpl.
      * match goal with |- context [io_bind (cmd_output sys ?p ?a) ?k w1] =>
          pose proof (first_run_cmd sys p a k w1) as F end.
        destruct (io_bind _ _ w1) as [[r w'] t]. simpl. rewrite F.
        intros e He; inversion He; eexists; reflexivity.
      * intros e He; discriminate.
Qed.

End CertsProofs.

Module BTreeFacts.

Lemma get_insert_same {V} (k : string) (v : V) (m : BTree.t V) :
  BTree.get k (BTree.insert k v m) = Some v.
Proof.
  induction m as [|[k0 v0] m IH]; simpl.
  - rewrite String.eqb_refl. reflexivity.
  - destruct (String.compare k k0) eqn:C; simpl; rewrite ?String.eqb_refl; try reflexivity.
    destruct (String.eqb_spec k k0) as [->|]; [|exact IH].
    pose proof (String.compare_antisym k0 k0) as A. rewrite C in A. discriminate.
Qed.

Lemma get_insert_other {V} (k k' : string) (v : V) (m : BTree.t V) :
  k <> k' -> BTree.get k (BTree.insert k' v m) = BTree.get k m.
Proof.
  intros Hne. induction m as [|[k0 v0] m IH]; simpl.
  - destruct (String.eqb_spec k k'); [congruence|reflexivity].
  - destruct (String.compare k' k0) eqn:C; simpl.
    + apply String.compare_eq_iff in C. subst k0.
      destruct (String.eqb_spec k k'); [congruence|reflexivity].
    + destruct (String.eqb_spec k k'); [congruence|reflexivity].
    + rewrite IH. reflexivity.
Qed.

End BTreeFacts.

Module VersionControlProofs.
Import VersionControl.

Lemma load_versions_spec {W} (sys : Sys W) (v : string) comps versions w :
  BTree.get APP_NAME versions = Some v ->
  let '(vs, _, t) := load_versions sys comps versions w in
  BTree.get APP_NAME vs = Some v /\
  t = map (fun c => EvOpen (UpdateComponent.version_file_path c))
          (filter (fun c => negb (String.eqb (UpdateComponent.name c) APP_NAME)) comps).
Proof.
  revert versions w. induction comps as [|c comps IH]; intros versions w Hv; simpl.
  - split; [exact Hv|reflexivity].
  - destruct (String.eqb (UpdateComponent.name c) APP_NAME) eqn:En; simpl.
    + apply IH. exact Hv.
    + unfold io_bind, read_file.
      destruct (sys_read sys (UpdateComponent.version_file_path c) w) as [[s|] w1].
      * assert (Hv' : BTree.get APP_NAME
                  (BTree.insert (UpdateComponent.name c) (trim s) versions) = Some v).
        { rewrite BTreeFacts.get_insert_other; [exact Hv|].
          intros E. rewrite <- E, String.eqb_refl in En. discriminate. }
        specialize (IH _ w1 Hv').
        destruct (load_versions sys comps _ w1) as [[vs w2] t2].
        destruct IH as [IH1 IH2]. split; [exact IH1|]. simpl. rewrite IH2. reflexivity.
      * specialize (IH _ w1 Hv).
        destruct (load_versions sys comps _ w1) as [[vs w2] t2].
        destruct IH as [IH1 IH2]. split; [exact IH1|]. simpl. rewrite IH2. reflexivity.
Qed.

(** C9: the map built by [init_component_versions] maps [APP_NAME] to the
    compiled-in version, and the files opened are exactly the version files of
    the components not named [APP_NAME], in order: an agent-named component is
    skipped and never overwrites the agent's entry. *)
Theorem init_component_versions_keeps_agent {W} (sys : Sys W)
    (APP_VERSION : string) (components : list UpdateComponent.t) (w : W) :
  let '(versions, _, t) := init_component_versions sys APP_VERSION components w in
  BTree.get APP_NAME versions = Some APP_VERSION /\
  t = map (fun c => EvOpen (UpdateComponent.version_file_path c))
          (filter (fun c => negb (String.eqb (UpdateComponent.name c) APP_NAME)) components).
Proof.
  unfold init_component_versions. apply load_versions_spec.
  apply BTreeFacts.get_insert_same.
Qed.

(** C4 (evaluation at the failing input): on a host where [unzip] cannot be
    spawned, [unpack_updates] still removes the archive and reports its
    extraction folder. *)
Theorem unpack_updates_removes_archive_when_unzip_cannot_run :
  unpack_updates no_programs_sys
    [("WebInterface", ["/etc/NeutronCommunicator/.vc-temp/version_control/WebInterface/1.2.0"])] tt
  = ([("WebInterface",
       ["/etc/NeutronCommunicator/.vc-temp/version_control/WebInterface/1.2.0-extracted/"])],
     tt,
     [EvRun "unzip" ["/etc/NeutronCommunicator/.vc-temp/version_control/WebInterface/1.2.0"; "-d";
                     "/etc/NeutronCommunicator/.vc-temp/version_control/WebInterface/1.2.0-extracted"];
      EvRemove "/etc/NeutronCommunicator/.vc-temp/version_control/WebInterface/1.2.0"]).
Proof. reflexivity. Qed.

End VersionControlProofs.

Module SerdeProofs.
Import Serde.

Lemma de_list_map {A} (de : json -> option A) (ser : A -> json) (l : list A) :
  (forall x, In x l -> de (ser x) = Some x) -> de_list de (map ser l) = Some l.
Proof.
  induction l as [|x l IH]; simpl; intros H; [reflexivity|].
  rewrite (H x (or_introl eq_refl)), IH; [reflexivity|].
  intros y Hy. apply H. right. exact Hy.
Qed.

Lemma de_paths_ser p : de_paths (ser_paths p) = Some p.
Proof. destruct p; reflexivity. Qed.

Lemma de_i64_ok z : i64_ok z = true -> de_i64 (JNum z) = Some z.
Proof. unfold i64_ok, de_i64. intros ->. reflexivity. Qed.

Lemma de_ca_ser c : i64_ok (CACertificate.duration c) = true -> de_ca (ser_ca c) = Some c.
Proof.
  destruct c as [e d x s mp ap di p]; simpl. intros Hd.
  unfold req, opt; simpl. unfold i64_ok in Hd. rewrite Hd.
  rewrite (de_list_map de_paths ser_paths ap) by (intros; apply de_paths_ser).
  destruct mp, di; reflexivity.
Qed.

Lemma de_main_ser c :
  i64_ok (MainCertificate.duration c) = true -> i64_ok (MainCertificate.key_len c) = true ->
  de_main (ser_main c) = Some c.
Proof.
  destruct c as [e d kl s mp ap ips di p]; simpl. intros Hd Hk.
  unfold req, opt; simpl. unfold i64_ok in Hd, Hk. rewrite Hd, Hk.
  rewrite (de_list_map de_paths ser_paths ap) by (intros; apply de_paths_ser).
  rewrite (de_list_map de_string JStr ips) by reflexivity.
  destruct mp, di; reflexivity.
Qed.

Lemma de_cert_ser c : cert_i64_ok c = true -> de_cert (ser_cert c) = Some c.
Proof.
  destruct c as [n a ca m]; unfold cert_i64_ok; cbn -[de_main ser_main de_ca ser_ca].
  intros H. apply andb_true_iff in H as [H Hk]. apply andb_true_iff in H as [Hca Hd].
  destruct ca as [ca|]; cbn [ser_opt].
  - remember (ser_ca ca) as v eqn:Ev.
    destruct v; try (unfold ser_ca in Ev; discriminate).
    rewrite Ev, (de_ca_ser ca Hca), (de_main_ser m Hd Hk). reflexivity.
  - rewrite (de_main_ser m Hd Hk). reflexivity.
Qed.

Lemma de_component_ser c : de_component (ser_component c) = Some c.
Proof. destruct c as [n vf pu pg fp [cn|] [sn|] rc]; reflexivity. Qed.

Lemma de_settings_ser s : settings_i64_ok s = true -> de_settings (ser_settings s) = Some s.
Proof.
  destruct s as [nu [u p] [i po u' p' cf] an ub uc cs]; unfold settings_i64_ok; simpl.
  intros H. unfold req; simpl.
  rewrite (de_list_map de_component ser_component uc) by (intros; apply de_component_ser).
  rewrite (de_list_map de_cert ser_cert cs).
  - reflexivity.
  - intros x Hx. apply de_cert_ser. rewrite forallb_forall in H. apply H, Hx.
Qed.

End SerdeProofs.

Module SettingsFileProofs.
Import SettingsFile.

Lemma with_update_components_eta s : with_update_components s (Settings.update_components s) = s.
Proof. destruct s; reflexivity. Qed.

Lemma update_components_with s l : Settings.update_components (with_update_components s l) = l.
Proof. reflexivity. Qed.

Lemma strip_agent_components s :
  strip_agent s = with_update_components s
    (match position_agent (Settings.update_components s) with
     | Some index => vec_remove index (Settings.update_components s)
     | None => Settings.update_components s
     end).
Proof.
  unfold strip_agent. destruct (position_agent _); [reflexivity|].
  symmetry. apply with_update_components_eta.
Qed.

Lemma strip_list_cons c l :
  match position_agent (c :: l) with
  | Some index => vec_remove index (c :: l)
  | None => c :: l
  end =
  if String.eqb (UpdateComponent.name c) APP_NAME then l
  else c :: match position_agent l with Some index => vec_remove index l | None => l end.
Proof.
  simpl. destruct (String.eqb _ _); [reflexivity|].
  destruct (position_agent l); reflexivity.
Qed.

Lemma strip_list_no_agent l :
  (count_agents l <= 1)%nat ->
  count_agents (match position_agent l with
                | Some index => vec_remove index l
                | None => l
                end) = 0%nat.
Proof.
  induction l as [|c l IH]; [reflexivity|].
  rewrite strip_list_cons. unfold count_agents in *. simpl.
  destruct (String.eqb (UpdateComponent.name c) APP_NAME) eqn:E; simpl; intros H.
  - apply length_zero_iff_nil. apply length_zero_iff_nil. lia.
  - rewrite E. apply IH. exact H.
Qed.

Lemma strip_list_app_agent l :
  count_agents l = 0%nat ->
  match position_agent (l ++ [agent_component]) with
  | Some index => vec_remove index (l ++ [agent_component])
  | None => l ++ [agent_component]
  end = l.
Proof.
  induction l as [|c l IH]; [reflexivity|].
  intros H. simpl app. rewrite strip_list_cons. unfold count_agents in H. simpl in H.
  destruct (String.eqb (UpdateComponent.name c) APP_NAME); [discriminate|].
  rewrite IH; [reflexivity|exact H].
Qed.

Lemma doc_components_no_agent (l : list UpdateComponent.t) :
  count_agents l = 0%nat ->
  forall c, In c (map Serde.ser_component l) -> jindex c "name" <> JStr APP_NAME.
Proof.
  induction l as [|x l IH]; simpl; [tauto|].
  unfold count_agents. simpl.
  destruct (String.eqb (UpdateComponent.name x) APP_NAME) eqn:E; [discriminate|].
  intros H c [<-|Hc].
  - simpl. intros Hn. injection Hn as Hn. rewrite Hn, String.eqb_refl in E. discriminate.
  - apply IH; assumption.
Qed.

(** C2 (as the code has it): [save_to_file] writes only the settings document
    [settings_document s], in which the first agent-named component has been
    removed; loading that document gives back the stripped settings with the
    synthetic agent entry appended at the end, so settings as [load_settings]
    produces them (one agent entry, last) come back unchanged; and when [s]
    holds at most one agent-named entry the document holds none. *)
Theorem save_then_load_settings {W} (sys : Sys W) (s : Settings.t) (w : W)
    (Hi64 : settings_i64_ok s = true) :
  (let '(_, _, t) := save_to_file sys s w in
   t = [EvWriteJson get_settings_location (settings_document s)]) /\
  load_settings (Some (settings_document s)) =
    Ok (with_update_components (strip_agent s)
          (Settings.update_components (strip_agent s) ++ [agent_component])) /\
  ((count_agents (Settings.update_components s) <= 1)%nat ->
   forall c, In c (doc_components (settings_document s)) -> jindex c "name" <> JStr APP_NAME) /\
  (forall l, Settings.update_components s = l ++ [agent_component] ->
   count_agents l = 0%nat -> load_settings (Some (settings_document s)) = Ok s).
Proof.
  assert (Hi : settings_i64_ok (strip_agent s) = true).
  { rewrite strip_agent_components. exact Hi64. }
  assert (Hload : load_settings (Some (settings_document s)) =
    Ok (with_update_components (strip_agent s)
          (Settings.update_components (strip_agent s) ++ [agent_component]))).
  { unfold load_settings, settings_document. rewrite (SerdeProofs.de_settings_ser _ Hi).
    reflexivity. }
  split; [|split; [exact Hload|split]].
  - unfold save_to_file, io_bind, write_json.
    destruct (sys_write_json sys _ _ w). reflexivity.
  - intros Hc c. unfold doc_components, settings_document. simpl.
    rewrite strip_agent_components, update_components_with.
    apply doc_components_no_agent, strip_list_no_agent, Hc.
  - intros l Hl H0. rewrite Hload. rewrite strip_agent_components, update_components_with, Hl.
    rewrite (strip_list_app_agent l H0). f_equal.
    destruct s; simpl in *; subst; reflexivity.
Qed.

Lemma save_then_load_settings_witness :
  settings_i64_ok settings_loaded_example = true /\
  load_settings (Some (settings_document settings_loaded_example)) = Ok settings_loaded_example.
Proof.
  split; [reflexivity|].
  apply (proj2 (proj2 (proj2 (save_then_load_settings no_programs_sys
           settings_loaded_example tt eq_refl))) [blackbox_component]); reflexivity.
Defined.

(** C2, counterexample: settings holding the agent's entry twice (one written
    in the settings file, one appended by [load_settings]) are saved with an
    agent entry still in the document. *)
Lemma settings_two_agents_agent_on_disk :
  In (Serde.ser_component agent_component) (doc_components (settings_document settings_two_agents)).
Proof. simpl. left. reflexivity. Qed.

End SettingsFileProofs.

Module CertSettingsProofs.
Import CertSettings.

Section Loop.
Context {W : Type} (sys : Sys W) (cn ct : string) (aux : list string).

Let is_match (c : CertificateSettings.t) := String.eqb (CertificateSettings.component_name c) cn.

Lemma aux_entry_short : (length aux < 2)%nat -> aux_entry aux = None.
Proof.
  unfold aux_entry. destruct aux as [|a [|b l]]; simpl; intros H; try reflexivity. lia.
Qed.

Lemma aux_entry_long : (2 <= length aux)%nat -> exists p, aux_entry aux = Some p.
Proof.
  unfold aux_entry. destruct aux as [|a [|b l]]; simpl; intros H; try lia. eexists; reflexivity.
Qed.

Lemma aux_loop_nomatch certs n w :
  find is_match certs = None ->
  aux_loop sys cn ct aux certs n w = (Done (inr (certs, n + length certs)%nat), w, []).
Proof.
  revert n. induction certs as [|c rest IH]; intros n; simpl.
  - intros _. rewrite Nat.add_0_r. reflexivity.
  - unfold is_match at 1. destruct (String.eqb _ cn) eqn:E; [discriminate|].
    intros Hf. unfold io_bind. rewrite (IH (S n) Hf). simpl.
    rewrite Nat.add_succ_r. reflexivity.
Qed.

Lemma aux_loop_first_panic certs n w c :
  find is_match certs = Some c -> aux_entry aux = None ->
  (ct <> "ca" \/ CertificateSettings.cert_authority c <> None) ->
  fst (fst (aux_loop sys cn ct aux certs n w)) = Panic.
Proof.
  intros Hf Hnone Hc. revert n w Hf. induction certs as [|d rest IH]; intros n w; simpl;
    [discriminate|].
  unfold is_match at 1. destruct (String.eqb _ cn) eqn:E.
  - intros Hd. injection Hd as <-.
    destruct (String.eqb_spec ct "ca") as [Hca|Hca].
    + destruct (CertificateSettings.cert_authority d) as [ca|] eqn:Ed.
      * rewrite Hnone. reflexivity.
      * destruct Hc; congruence.
    + rewrite Hnone. reflexivity.
  - intros Hf. specialize (IH (S n) w Hf). unfold io_bind.
    destruct (aux_loop sys cn ct aux rest (S n) w) as [[o w1] t1].
    simpl in IH. subst o. reflexivity.
Qed.

Lemma aux_loop_first_noca certs n w c :
  find is_match certs = Some c -> ct = "ca" -> CertificateSettings.cert_authority c = None ->
  aux_loop sys cn ct aux certs n w =
    (Done (inl (Err "Could not find a CA certificate for that component")), w, []).
Proof.
  intros Hf Hca Hc. subst ct. revert n w Hf. induction certs as [|d rest IH]; intros n w; simpl;
    [discriminate|].
  unfold is_match at 1. destruct (String.eqb _ cn) eqn:E.
  - intros Hd. injection Hd as <-. rewrite Hc. reflexivity.
  - intros Hf. unfold io_bind. rewrite (IH (S n) w Hf). reflexivity.
Qed.

Lemma aux_loop_no_panic p certs n w :
  aux_entry aux = Some p -> fst (fst (aux_loop sys cn ct aux certs n w)) <> Panic.
Proof.
  intros Hp. revert n w. induction certs as [|c rest IH]; intros n w; simpl; [discriminate|].
  assert (Hk : forall (f : _ -> outcome (result unit string + list CertificateSettings.t * nat)) m w0,
     (forall x, x <> Panic -> f x <> Panic) ->
     fst (fst ((r <- aux_loop sys cn ct aux rest m ;; io_ret (f r)) w0)) <> Panic).
  { intros f m w0 Hf. unfold io_bind. specialize (IH m w0).
    destruct (aux_loop sys cn ct aux rest m w0) as [[o w1] t1]. simpl in *. apply Hf, IH. }
  assert (Hcont : forall x : outcome (result unit string + list CertificateSettings.t * nat),
     x <> Panic -> forall c',
     match x with Done (inr (rest', k)) => Done (inr (c' :: rest', k)) | other => other end
     <> Panic).
  { intros x Hx c'. destruct x as [[e|[r k]]|]; congruence. }
  destruct (String.eqb _ cn).
  - destruct (String.eqb ct "ca").
    + destruct (CertificateSettings.cert_authority c) as [ca|]; [|discriminate].
      rewrite Hp. unfold io_bind at 1.
      destruct (generate_ca_populate sys (push_ca_aux ca p) w) as [[[g|e] w1] t1];
        [|discriminate].
      unfold io_bind. specialize (Hk (fun r => match r with
          | Done (inr (rest', k)) => Done (inr (with_ca c (push_ca_aux ca p) :: rest', k))
          | other => other end) n w1 (fun x Hx => Hcont x Hx _)).
      unfold io_bind in Hk. destruct (aux_loop sys cn ct aux rest n w1) as [[o w2] t2].
      exact Hk.
    + rewrite Hp. unfold io_bind at 1.
      destruct (generate_certificate_populate sys (push_main_aux c p) w) as [[[g|e] w1] t1];
        [|discriminate].
      unfold io_bind. specialize (Hk (fun r => match r with
          | Done (inr (rest', k)) => Done (inr (push_main_aux c p :: rest', k))
          | other => other end) n w1 (fun x Hx => Hcont x Hx _)).
      unfold io_bind in Hk. destruct (aux_loop sys cn ct aux rest n w1) as [[o w2] t2].
      exact Hk.
  - apply (Hk (fun r => match r with
          | Done (inr (rest', k)) => Done (inr (c :: rest', k))
          | other => other end) (S n) w (fun x Hx => Hcont x Hx _)).
Qed.

End Loop.

(** C10 (as the code has it): the first certificate whose [component_name]
    matches decides. With at least two auxiliary paths the call never panics.
    With fewer, it panics on [aux_paths[0]]/[aux_paths[1]] when that
    certificate is reached, unless [cert_type] is ["ca"] and the certificate
    has no CA: then it returns the NotFound error without indexing and without
    side effects. When no certificate matches, it returns the NotFound error
    without indexing. *)
Theorem append_cert_aux_paths_indexing {W} (sys : Sys W) (settings : Settings.t)
    (component_name cert_type : string) (aux_paths : list string) (w : W) :
  let first := find (fun c => String.eqb (CertificateSettings.component_name c) component_name)
                    (Settings.certificates settings) in
  let '(o, _, t) := append_cert_aux_paths sys settings component_name cert_type aux_paths w in
  ((2 <= length aux_paths)%nat -> o <> Panic) /\
  (forall c, first = Some c -> (length aux_paths < 2)%nat ->
   (cert_type <> "ca" \/ CertificateSettings.cert_authority c <> None) -> o = Panic) /\
  (forall c, first = Some c -> cert_type = "ca" -> CertificateSettings.cert_authority c = None ->
   o = Done (Err "Could not find a CA certificate for that component") /\ t = []) /\
  (first = None -> o = Done (Err "Could not find a certificate with that component name.") /\ t = []).
Proof.
  cbv zeta. unfold append_cert_aux_paths, io_bind at 1.
  pose proof (aux_loop_first_panic sys component_name cert_type aux_paths
                (Settings.certificates settings) 0 w) as HP.
  pose proof (aux_loop_first_noca sys component_name cert_type aux_paths
                (Settings.certificates settings) 0 w) as HN.
  pose proof (aux_loop_nomatch sys component_name cert_type aux_paths
                (Settings.certificates settings) 0 w) as HM.
  pose proof (fun p => aux_loop_no_panic sys component_name cert_type aux_paths p
                (Settings.certificates settings) 0 w) as HL.
  pose proof (aux_entry_short aux_paths) as HS.
  pose proof (aux_entry_long aux_paths) as HG.
  destruct (aux_loop sys component_name cert_type aux_paths _ 0 w) as [[o w1] t1] eqn:Eloop.
  simpl in HP, HL.
  destruct o as [[e|[certs n]]|].
  - cbv beta iota. split; [|split; [|split]].
    + discriminate.
    + intros c Hf Hs Hc. discriminate (HP c Hf (HS Hs) Hc).
    + intros c Hf Hca Hc. specialize (HN c Hf Hca Hc). injection HN as -> -> ->.
      split; reflexivity.
    + intros Hf. discriminate (HM Hf).
  - destruct (Nat.eqb n (length certs)) eqn:En.
    + cbv beta iota. split; [|split; [|split]].
      * discriminate.
      * intros c Hf Hs Hc. discriminate (HP c Hf (HS Hs) Hc).
      * intros c Hf Hca Hc. discriminate (HN c Hf Hca Hc).
      * intros Hf. specialize (HM Hf). injection HM as _ _ -> ->. split; reflexivity.
    + unfold io_bind. destruct (SettingsFile.save_to_file sys _ w1) as [[r w2] t2].
      cbv beta iota. split; [|split; [|split]].
      * discriminate.
      * intros c Hf Hs Hc. discriminate (HP c Hf (HS Hs) Hc).
      * intros c Hf Hca Hc. discriminate (HN c Hf Hca Hc).
      * intros Hf. specialize (HM Hf). injection HM as -> -> _ _.
        rewrite Nat.eqb_refl in En. discriminate.
  - cbv beta iota. split; [|split; [|split]].
    + intros H2. destruct (HG H2) as [p Hp]. exfalso. exact (HL p Hp eq_refl).
    + reflexivity.
    + intros c Hf Hca Hc. discriminate (HN c Hf Hca Hc).
    + intros Hf. discriminate (HM Hf).
Qed.

Lemma append_cert_aux_paths_indexing_witness :
  ((2 <= length ["/srv/a.key"; "/srv/a.crt"])%nat /\
   fst (fst (append_cert_aux_paths no_programs_sys settings_loaded_example "Mosquitto" "main"
          ["/srv/a.key"; "/srv/a.crt"] tt)) <> Panic).
Proof.
  split; [simpl; lia|].
  pose proof (append_cert_aux_paths_indexing no_programs_sys settings_loaded_example
                "Mosquitto" "main" ["/srv/a.key"; "/srv/a.crt"] tt) as H.
  cbv zeta in H.
  destruct (append_cert_aux_paths no_programs_sys settings_loaded_example "Mosquitto" "main"
              ["/srv/a.key"; "/srv/a.crt"] tt) as [[o w'] t].
  exact (proj1 H (le_n_S _ _ (le_n_S _ _ (Nat.le_0_l _)))).
Defined.

(** C10, counterexample: a matching self-signed certificate, [cert_type]
    ["ca"] and an empty slice: an error value is returned, no panic. *)
Lemma append_cert_aux_paths_no_panic_without_ca :
  append_cert_aux_paths no_programs_sys settings_selfsigned "Mosquitto" "ca" [] tt
  = (Done (Err "Could not find a CA certificate for that component"), tt, []).
Proof. reflexivity. Qed.

End CertSettingsProofs.

Module RecipeProcessorProofs.
Import RecipeProcessor.

Section Cook.
Context {W : Type} (cs : CookSys W) (dbg : bool).

Lemma cook_loop_snoc cb c b w :
  cook_loop cs dbg (cb ++ [c]) b w =
  let '(_, w1, t1) := cook_loop cs dbg cb b w in
  let '(e, w2, t2) := cook_component cs dbg c w1 in (negb e, w2, t1 ++ t2).
Proof.
  revert b w; induction cb as [|x cb IH]; intros b w; cbn [cook_loop app].
  - unfold io_bind, io_ret. destruct (cook_component cs dbg c w) as [[e w2] t2].
    rewrite app_nil_r. reflexivity.
  - unfold io_bind. destruct (cook_component cs dbg x w) as [[e1 w1] t1].
    rewrite IH. destruct (cook_loop cs dbg cb (negb e1) w1) as [[r w2] t2].
    destruct (cook_component cs dbg c w2) as [[e w3] t3].
    rewrite app_assoc. reflexivity.
Qed.

Lemma digest_recipe_not_copy recipe w :
  String.eqb (field recipe "type") "copy" = false ->
  (String.eqb (field recipe "type") "copy_dir" = false \/ dbg = true) ->
  fst (fst (digest_recipe cs dbg recipe w)) = false.
Proof.
  intros H1 H2. unfold digest_recipe. rewrite H1.
  destruct (String.eqb (field recipe "type") "copy_dir") eqn:E2.
  - destruct H2 as [H2|H2]; [discriminate|subst; reflexivity].
  - destruct (String.eqb (field recipe "type") "run_command");
      [|destruct (String.eqb (field recipe "type") "run_script")];
      unfold digest_run, digest_script, io_bind, cmd_output, io_ret;
      repeat match goal with |- context [match ?x with _ => _ end] => destruct x end;
      reflexivity.
Qed.

End Cook.

(** C3 (amended): [cook] returns the negation of the [erroneous] flag of the
    last component, computed in the state the earlier components left behind;
    their own flags do not enter the result. A recipe sets the flag only when
    it is a [copy] that fails, or (release build) a [copy_dir] that fails: a
    [run_command], a [run_script] or an unknown instruction never does,
    whatever its outcome. *)
Theorem cook_returns_last_component_status {W} (cs : CookSys W) (dbg : bool)
    (cb : list json) (c : json) (w : W) :
  (let '(_, w1, t1) := cook cs dbg cb w in
   let '(e, w2, t2) := cook_component cs dbg c w1 in
   cook cs dbg (cb ++ [c]) w = (negb e, w2, t1 ++ t2)) /\
  (forall recipe w',
     String.eqb (field recipe "type") "copy" = false ->
     (String.eqb (field recipe "type") "copy_dir" = false \/ dbg = true) ->
     fst (fst (digest_recipe cs dbg recipe w')) = false).
Proof.
  split.
  - unfold cook, io_bind.
    destruct (dbg && negb (dev_dir_exists cs DEV_DIR w));
      [destruct (create_dir cs DEV_DIR w) as [u w0]|];
      (rewrite cook_loop_snoc;
       destruct (cook_loop cs dbg cb true _) as [[r w1] t1];
       destruct (cook_component cs dbg c w1) as [[e w2] t2];
       rewrite app_assoc; reflexivity).
  - intros recipe w'. apply digest_recipe_not_copy.
Qed.

(** C3, counterexample: the only component's only instruction is a command
    that fails ([sh] reports on stderr); [cook] still returns [true]. *)
Lemma cook_true_despite_failed_command :
  fst (sys_output (cook_os failing_sh_cook_sys) "sh" ["-c"; "frobnicate"] tt)
    = Some (mkOutput false "" "sh: 1: frobnicate: not found") /\
  cook failing_sh_cook_sys false run_command_cookbook tt
    = (true, tt, [EvRun "sh" ["-c"; "frobnicate"]]).
Proof. split; reflexivity. Qed.

End RecipeProcessorProofs.

Module ManifestProofs.
Import Manifest.

(** C6 (amended): once [SETTINGS] and a non-empty [COMPONENT_VERSIONS] are
    read, the request is sent. When the answer has [result == true] and its
    [msg.manifest] is a non-empty object that deserializes to an
    [UpdateManifest] [man] (and the slot can be locked), [man] is stored in the
    slot and, after the states "Looking for updates..." and "Found updates.",
    a [Changelogs] command carrying [changelogs_of man] is published. When the
    request fails, the state "Could not reach Neutron server." is published
    and the slot is cleared when it can be locked (a poisoned slot is left as
    it is). *)
Theorem request_update_manifest_stores_and_publishes {W} (ms : ManifestSys W)
    (proto : string) (w : W) (settings : Settings.t) (comp_ver : BTree.t string)
    (Hs : lock_settings ms w = Some settings) (Hv : lock_versions ms w = Some comp_ver)
    (Hne : comp_ver <> []) :
  let url := manifest_url proto settings (map fst comp_ver) (map snd comp_ver) in
  let w1 := snd (http_get ms url w) in
  let looking := EvPublish "State" "Looking for updates..." in
  (forall response man,
     fst (http_get ms url w) = Some (Some response) ->
     jindex response "result" = JBool true ->
     jindex (jindex response "msg") "manifest" <> JObj [] ->
     ManifestSerde.de_update_manifest (jindex (jindex response "msg") "manifest") = Some man ->
     lock_manifest ms w1 = true ->
     request_update_manifest ms proto w =
       (Done tt, store_manifest ms (Some man) w1,
        [looking; EvPublish "State" "Found updates."; EvPublish "Changelogs" (changelogs_of man)])) /\
  (fst (http_get ms url w) = None ->
     request_update_manifest ms proto w =
       (Done tt, (if lock_manifest ms w1 then store_manifest ms None w1 else w1),
        [looking; EvPublish "State" "Could not reach Neutron server."])).
Proof.
  cbv zeta.
  destruct comp_ver as [|[k v] rest]; [contradiction|].
  cbv [request_update_manifest io_bind io_ret send_state send_changelogs publish clear_slot].
  rewrite Hs, Hv. cbn [map].
  destruct (http_get ms _ w) as [r w1]. cbn [fst snd].
  split.
  - intros response man -> Hr Hm Hd Hl.
    unfold handle_response. rewrite Hr.
    destruct (jindex (jindex response "msg") "manifest") as [| | | | |[|e l]];
      try discriminate Hd; [contradiction|].
    cbn [is_empty_object is_null negb andb]. rewrite Hl, Hd.
    cbv [send_state send_changelogs publish io_bind io_ret]. reflexivity.
  - intros ->. destruct (lock_manifest ms w1); reflexivity.
Qed.
Lemma request_update_manifest_stores_and_publishes_witness :
  (lock_settings (slot_manifest_sys manifest_response) None = Some settings_loaded_example /\
   lock_versions (slot_manifest_sys manifest_response) None
     = Some [("Blackbox", "1.0.0"); (APP_NAME, "0.1.0")] /\
   [("Blackbox", "1.0.0"); (APP_NAME, "0.1.0")] <> []) /\
  request_update_manifest (slot_manifest_sys manifest_response) "http://" None =
    (Done tt,
     Some (UpdateManifest.mk [("Blackbox", [Update.mk false "00" "1.1.0" "a" None;
                                            Update.mk false "00" "1.2.0" "b" None])]),
     [EvPublish "State" "Looking for updates..."; EvPublish "State" "Found updates.";
      EvPublish "Changelogs" ("b" ++ CRLF2 ++ "a" ++ CRLF2)%string]).
Proof.
  split; [split; [reflexivity|split; [reflexivity|discriminate]]|].
  refine (proj1 (request_update_manifest_stores_and_publishes
                   (slot_manifest_sys manifest_response) "http://" None settings_loaded_example
                   [("Blackbox", "1.0.0"); (APP_NAME, "0.1.0")] eq_refl eq_refl ltac:(discriminate))
                manifest_response _ eq_refl eq_refl ltac:(discriminate) eq_refl eq_refl).
Defined.

(** C6, counterexample: [result == true] and a non-empty [msg.manifest]
    object that is not an [UpdateManifest]: the slot is left empty, no
    [Changelogs] command is published, and the call panics. *)
Lemma request_update_manifest_malformed_manifest :
  request_update_manifest (slot_manifest_sys malformed_manifest_response) "http://" None =
    (Panic, None,
     [EvPublish "State" "Looking for updates..."; EvPublish "State" "Found updates."]).
Proof. reflexivity. Qed.

End ManifestProofs.

Module WatchdogProofs.
Import Watchdog.

Lemma io_bind_ret {W A B} (a : A) (k : A -> IO W B) (w : W) :
  io_bind (io_ret a) k w = k a w.
Proof.
  unfold io_bind, io_ret. destruct (k a w) as [[b w2] t2]. reflexivity.
Qed.

Lemma io_bind_ret_r {W A} (m : IO W A) (w : W) :
  io_bind m (fun a => io_ret a) w = m w.
Proof.
  unfold io_bind, io_ret. destruct (m w) as [[a w1] t1]. rewrite app_nil_r. reflexivity.
Qed.

(** C5 (amended): for a certificate with a CA, the CA is reissued with its
    own key exactly when [num_days] (whole days elapsed since [date_issued],
    truncated toward zero) is at least [duration - 10]; the main certificate
    likewise, signed by the CA when there is one and by its own key
    otherwise. After a successful reissue [date_issued] becomes the new
    file's modification time when that can be read, and stays as it was
    otherwise; a failed reissue leaves the certificate unchanged and the pass
    goes on. When the elapsed time is not negative, [num_days] is the floor of
    the elapsed days. *)
Theorem watchdog_renewal_rule {W} (ws : WatchdogSys W)
    (parse_from_str : string -> option Z) (date_to_string : Z -> string) :
  (forall cert ca di parsed w,
     CertificateSettings.cert_authority cert = Some ca ->
     CACertificate.date_issued ca = Some di -> parse_from_str di = Some parsed ->
     let days := num_days (utc_now ws w) parsed in
     let crt := CertificatePaths.cert (CACertificate.main_paths ca) in
     ((days < wrap_i64 (CACertificate.duration ca - 10))%Z ->
      watch_ca ws parse_from_str date_to_string cert w = (Done cert, w, [])) /\
     ((wrap_i64 (CACertificate.duration ca - 10) <= days)%Z ->
      let '(r, w1, t1) :=
        Certs.gen_csr_sign_with_key (wd_os ws) (CertificateSettings.component_name cert)
          (CertificatePaths.key (CACertificate.main_paths ca)) (CACertificate.encrypted ca)
          (CACertificate.subj ca) (CACertificate.passphrase ca) (CACertificate.duration ca)
          crt w in
      watch_ca ws parse_from_str date_to_string cert w =
        (Done (if is_ok r then
                 match get_date_issued ws crt w1 with
                 | Some d => set_ca_date cert (Some (date_to_string d))
                 | None => cert
                 end
               else cert), w1, t1))) /\
  (forall cert di parsed w,
     let mc := CertificateSettings.main_certificate cert in
     MainCertificate.date_issued mc = Some di -> parse_from_str di = Some parsed ->
     let days := num_days (utc_now ws w) parsed in
     let crt := CertificatePaths.cert (MainCertificate.main_paths mc) in
     ((days < wrap_i64 (MainCertificate.duration mc - 10))%Z ->
      watch_main ws parse_from_str date_to_string cert w = (Done cert, w, [])) /\
     ((wrap_i64 (MainCertificate.duration mc - 10) <= days)%Z ->
      let renew :=
        match CertificateSettings.cert_authority cert with
        | Some _ => Certs.gen_csr_sign_with_ca (wd_os ws) cert (MainCertificate.passphrase mc)
        | None =>
            Certs.gen_csr_sign_with_key (wd_os ws) (CertificateSettings.component_name cert)
              (CertificatePaths.key (MainCertificate.main_paths mc)) (MainCertificate.encrypted mc)
              (MainCertificate.subj mc) (MainCertificate.passphrase mc)
              (MainCertificate.duration mc) crt
        end in
      let '(r, w1, t1) := renew w in
      watch_main ws parse_from_str date_to_string cert w =
        (Done (if is_ok r then
                 match get_date_issued ws crt w1 with
                 | Some d => set_main_date cert (Some (date_to_string d))
                 | None => cert
                 end
               else cert), w1, t1))) /\
  (forall now parsed, (parsed * NANOS_PER_SEC <= now)%Z ->
     num_days now parsed = ((now - parsed * NANOS_PER_SEC) / (86400 * NANOS_PER_SEC))%Z).
Proof.
  split; [|split].
  - intros cert ca di parsed w Hca Hdi Hp. cbv zeta.
    unfold watch_ca. rewrite Hca. unfold difference_in_days. rewrite Hdi, Hp.
    unfold io_bind at 1. cbn beta iota.
    split; intros Hd.
    + match goal with |- context [Z.geb ?a ?b] => destruct (Z.geb a b) eqn:E end.
      * rewrite Z.geb_le in E. lia.
      * reflexivity.
    + unfold io_bind.
      destruct (Z.geb _ _) eqn:E.
      2: { rewrite Z.geb_leb, Z.leb_gt in E. lia. }
      destruct (Certs.gen_csr_sign_with_key _ _ _ _ _ _ _ _ w) as [[r w1] t1].
      destruct r; cbv [is_ok read_date_issued io_ret];
        try destruct (get_date_issued ws _ w1); cbn; rewrite ?app_nil_r; reflexivity.
  - intros cert di parsed w. cbv zeta. intros Hdi Hp.
    unfold watch_main. unfold difference_in_days. rewrite Hdi, Hp.
    unfold io_bind at 1. cbn beta iota.
    split; intros Hd.
    + match goal with |- context [Z.geb ?a ?b] => destruct (Z.geb a b) eqn:E end.
      * rewrite Z.geb_le in E. lia.
      * reflexivity.
    + unfold io_bind.
      destruct (Z.geb _ _) eqn:E.
      2: { rewrite Z.geb_leb, Z.leb_gt in E. lia. }
      destruct (CertificateSettings.cert_authority cert) as [ca|];
        [destruct (Certs.gen_csr_sign_with_ca _ _ _ w) as [[r w1] t1]
        |destruct (Certs.gen_csr_sign_with_key _ _ _ _ _ _ _ _ w) as [[r w1] t1]];
      destruct r; cbv [is_ok read_date_issued io_ret];
        try destruct (get_date_issued ws _ w1); cbn; rewrite ?app_nil_r; reflexivity.
  - intros now parsed H. unfold num_days.
    rewrite (Z.quot_div_nonneg (now - parsed * NANOS_PER_SEC) NANOS_PER_SEC)
      by (unfold NANOS_PER_SEC in *; lia).
    rewrite Z.quot_div_nonneg.
    + rewrite Z.div_div by (unfold NANOS_PER_SEC; lia). reflexivity.
    + apply Z.div_pos; unfold NANOS_PER_SEC in *; lia.
    + lia.
Qed.

(** C5, counterexample: a 10-day certificate whose [date_issued] lies one
    second after the current time. The floor of the elapsed days is [-1],
    below [duration - 10 = 0], yet [num_days] truncates to [0] and the
    certificate is reissued. *)
Lemma watch_main_reissues_above_floor :
  parse_ymd_hms "1970-01-01 00:00:01" = Some 1%Z /\
  utc_now epoch_watchdog_sys tt = 0%Z /\
  ((0 - 1 * NANOS_PER_SEC) / (86400 * NANOS_PER_SEC))%Z = (-1)%Z /\
  (MainCertificate.duration (CertificateSettings.main_certificate ten_day_cert) - 10)%Z = 0%Z /\
  watch_main epoch_watchdog_sys parse_ymd_hms format_ymd_hms ten_day_cert tt =
    (Done (set_main_date ten_day_cert (Some "1970-01-01 00:00:00")), tt,
     [EvRun "openssl" ["req"; "-out"; "/etc/mosquitto/server.csr"; "-key";
                       "/etc/mosquitto/server.key"; "-new"; "-subj"; "/CN=mosquitto"];
      EvRun "openssl" ["x509"; "-req"; "-days"; "10"; "-in"; "/etc/mosquitto/server.csr";
                       "-signkey"; "/etc/mosquitto/server.key"; "-out";
                       "/etc/mosquitto/server.crt"];
      EvRemove "/etc/mosquitto/server.csr"]).
Proof. repeat split; reflexivity. Qed.

End WatchdogProofs.

Module DownloadProofs.
Import FileSystem Download DownloadInvariant.



















Section Loops.
Variable proto : string.
Variable server : string -> option (list byte * bool).
Variables user muser mpass app branch : string.
Local Abbreviation response k u := (server (url proto user muser mpass app branch k (Update.version u))).
Local Abbreviation Inv := (download_inv proto server user muser mpass app branch).
Local Abbreviation adm := (admitted_ok proto server user muser mpass app branch).
Local Abbreviation dl_updates := (download_updates proto server user muser mpass app branch).
Local Abbreviation dl_components := (download_components proto server user muser mpass app branch).
Local Abbreviation T := get_temp_folder_path.









End Loops.



End DownloadProofs.

Module SettingsUpdateProofs.
Import SettingsFile SettingsUpdate SettingsFileProofs.

Lemma save_to_file_trace {W} (sys : Sys W) s w :
  exists r w', save_to_file sys s w = (r, w', [EvWriteJson get_settings_location (settings_document s)]).
Proof.
  unfold save_to_file, io_bind, write_json, io_ret.
  destruct (sys_write_json sys _ _ w) as [ok w1]. eexists _, _. reflexivity.
Qed.

Lemma load_document s :
  settings_i64_ok s = true ->
  load_settings (Some (settings_document s)) =
    Ok (with_update_components (strip_agent s)
          (Settings.update_components (strip_agent s) ++ [agent_component])).
Proof.
  intros Hi. assert (Hi' : settings_i64_ok (strip_agent s) = true).
  { rewrite strip_agent_components. exact Hi. }
  unfold load_settings, settings_document. rewrite (SerdeProofs.de_settings_ser _ Hi').
  reflexivity.
Qed.

Lemma with_with s l l' : with_update_components (with_update_components s l) l' = with_update_components s l'.
Proof. destruct s; reflexivity. Qed.

Lemma count_agents_app l r : count_agents (l ++ r) = (count_agents l + count_agents r)%nat.
Proof. unfold count_agents. rewrite filter_app, length_app. reflexivity. Qed.

Lemma no_agent_position l : count_agents l = 0%nat -> position_agent l = None.
Proof.
  induction l as [|c l IH]; [reflexivity|]. unfold count_agents; simpl.
  destruct (String.eqb (UpdateComponent.name c) APP_NAME); [discriminate|].
  intros H. rewrite IH; [reflexivity|exact H].
Qed.

Lemma strip_list_agent_rest l r :
  count_agents l = 0%nat ->
  match position_agent (l ++ agent_component :: r) with
  | Some index => vec_remove index (l ++ agent_component :: r)
  | None => l ++ agent_component :: r
  end = l ++ r.
Proof.
  induction l as [|c l IH]; intros H.
  - simpl app. rewrite strip_list_cons. change (UpdateComponent.name agent_component) with APP_NAME.
    rewrite String.eqb_refl. reflexivity.
  - simpl app. rewrite strip_list_cons. unfold count_agents in H. simpl in H.
    destruct (String.eqb (UpdateComponent.name c) APP_NAME); [discriminate|].
    rewrite IH; [reflexivity|exact H].
Qed.

(** Settings whose components hold one agent entry, after [l], reload with
    that entry moved to the end. *)
Lemma reload_loaded s l r :
  Settings.update_components s = l ++ agent_component :: r -> count_agents l = 0%nat ->
  settings_i64_ok s = true ->
  load_settings (Some (settings_document s)) = Ok (with_update_components s (l ++ r ++ [agent_component])).
Proof.
  intros Hc H0 Hi. rewrite (load_document s Hi), strip_agent_components, update_components_with, Hc.
  rewrite (strip_list_agent_rest l r H0), with_with, app_assoc. reflexivity.
Qed.

Lemma find_component_app n l1 x rest i :
  existsb (fun y => String.eqb (UpdateComponent.name y) n) l1 = false ->
  UpdateComponent.name x = n ->
  find_component n (l1 ++ x :: rest) i = Some (i + length l1)%nat.
Proof.
  revert i. induction l1 as [|y l1 IH]; intros i Hno Hx; simpl.
  - rewrite Hx, String.eqb_refl. f_equal. lia.
  - simpl in Hno. apply orb_false_iff in Hno as [Hy Hno]. rewrite Hy.
    rewrite IH by assumption. f_equal. lia.
Qed.

Lemma find_component_none n l i :
  existsb (fun y => String.eqb (UpdateComponent.name y) n) l = false ->
  find_component n l i = None.
Proof.
  revert i. induction l as [|y l IH]; intros i H; [reflexivity|]. simpl in *.
  apply orb_false_iff in H as [Hy H]. rewrite Hy. apply IH, H.
Qed.

Lemma vec_remove_app {A} (l1 : list A) x rest : vec_remove (length l1) (l1 ++ x :: rest) = l1 ++ rest.
Proof. induction l1 as [|y l1 IH]; [reflexivity|]. simpl. rewrite IH. reflexivity. Qed.

Lemma no_agent_existsb l :
  count_agents l = 0%nat ->
  existsb (fun y => String.eqb (UpdateComponent.name y) APP_NAME) l = false.
Proof.
  induction l as [|c l IH]; [reflexivity|]. unfold count_agents; simpl.
  destruct (String.eqb (UpdateComponent.name c) APP_NAME); [discriminate|]. exact IH.
Qed.

(** Adding a component whose name is new to settings as [load_settings]
    returns them (the agent's entry last) writes the settings file once,
    and reloading it gives the old components, then the new one, then the
    agent's entry. *)
Theorem add_update_component_reload {W} (sys : Sys W) (s : Settings.t) l c w
    (Hc : Settings.update_components s = l ++ [agent_component])
    (H0 : count_agents l = 0%nat)
    (Hnew : existsb (fun x => String.eqb (UpdateComponent.name x) (UpdateComponent.name c))
              (Settings.update_components s) = false)
    (Hi : settings_i64_ok s = true) :
  exists r w' doc, add_update_component sys s c w = (r, w', [EvWriteJson get_settings_location doc]) /\
    load_settings (Some doc) = Ok (with_update_components s (l ++ [c; agent_component])).
Proof.
  unfold add_update_component. rewrite Hnew.
  destruct (save_to_file_trace sys (with_update_components s (Settings.update_components s ++ [c])) w)
    as (r & w' & E).
  eexists r, w', _. split; [exact E|].
  rewrite (reload_loaded _ l [c]).
  - rewrite with_with. reflexivity.
  - rewrite update_components_with, Hc, <- app_assoc. reflexivity.
  - exact H0.
  - exact Hi.
Qed.

(** Removing the first component named [name x] (not the agent) from
    settings as [load_settings] returns them writes the settings file once,
    and reloading it gives the components without that entry, the agent's
    entry last. *)
Theorem remove_update_component_reload {W} (sys : Sys W) (s : Settings.t) l1 x l2 w
    (Hc : Settings.update_components s = l1 ++ x :: l2 ++ [agent_component])
    (H0 : count_agents (l1 ++ x :: l2) = 0%nat)
    (Hfirst : existsb (fun y => String.eqb (UpdateComponent.name y) (UpdateComponent.name x)) l1 = false)
    (Hi : settings_i64_ok s = true) :
  exists r w' doc,
    remove_update_component sys s (UpdateComponent.name x) w = (r, w', [EvWriteJson get_settings_location doc]) /\
    load_settings (Some doc) = Ok (with_update_components s (l1 ++ l2 ++ [agent_component])).
Proof.
  unfold remove_update_component. rewrite Hc.
  rewrite (find_component_app _ l1 x (l2 ++ [agent_component]) 0 Hfirst eq_refl). simpl Nat.add.
  rewrite vec_remove_app.
  destruct (save_to_file_trace sys (with_update_components s (l1 ++ l2 ++ [agent_component])) w)
    as (r & w' & E).
  eexists r, w', _. split; [exact E|].
  rewrite (reload_loaded _ (l1 ++ l2) []).
  - rewrite with_with, <- app_assoc. reflexivity.
  - rewrite update_components_with, <- app_assoc. reflexivity.
  - rewrite count_agents_app in *. simpl in H0. unfold count_agents in H0 |- *. simpl in H0.
    destruct (String.eqb (UpdateComponent.name x) APP_NAME); simpl in H0; lia.
  - exact Hi.
Qed.

(** Removing the agent's own entry from settings as [load_settings] returns
    them writes a file that reloads to the same settings: the entry comes
    back on load. *)
Theorem remove_agent_entry_not_persisted {W} (sys : Sys W) (s : Settings.t) l w
    (Hc : Settings.update_components s = l ++ [agent_component])
    (H0 : count_agents l = 0%nat)
    (Hi : settings_i64_ok s = true) :
  exists r w' doc,
    remove_update_component sys s APP_NAME w = (r, w', [EvWriteJson get_settings_location doc]) /\
    load_settings (Some doc) = Ok s.
Proof.
  unfold remove_update_component. rewrite Hc.
  rewrite (find_component_app _ l agent_component [] 0 (no_agent_existsb l H0) eq_refl).
  simpl Nat.add. rewrite vec_remove_app, app_nil_r.
  destruct (save_to_file_trace sys (with_update_components s l) w) as (r & w' & E).
  eexists r, w', _. split; [exact E|].
  assert (Hi' : settings_i64_ok (with_update_components s l) = true) by exact Hi.
  rewrite (load_document _ Hi'). unfold strip_agent. rewrite update_components_with, no_agent_position by exact H0.
  cbv beta iota. rewrite update_components_with, with_with, <- Hc, with_update_components_eta. reflexivity.
Qed.

(** Both component updaters refuse without writing anything or changing the
    world: [add_update_component] when a component of the same name exists
    (for settings as loaded, always the case for the agent's name), and
    [remove_update_component] when no component has the name. *)
Theorem update_component_refusals {W} (sys : Sys W) (s : Settings.t) w :
  (forall c, (exists x, In x (Settings.update_components s) /\
                        UpdateComponent.name x = UpdateComponent.name c) ->
     add_update_component sys s c w =
       (Err "An update component with that name already exists.", w, [])) /\
  (forall n, (forall x, In x (Settings.update_components s) -> UpdateComponent.name x <> n) ->
     remove_update_component sys s n w = (Err "A component with that name wasn't found.", w, [])).
Proof.
  split.
  - intros c (x & Hx & Hn). unfold add_update_component.
    replace (existsb _ _) with true; [reflexivity|]. symmetry. apply existsb_exists.
    exists x. split; [exact Hx|]. rewrite Hn. apply String.eqb_refl.
  - intros n Hn. unfold remove_update_component. rewrite find_component_none; [reflexivity|].
    apply not_true_is_false. intros E. apply existsb_exists in E as (x & Hx & E).
    apply String.eqb_eq in E. exact (Hn x Hx E).
Qed.

(** Saving new credentials for settings as [load_settings] returns them
    writes the settings file once, and reloading it gives the same settings
    with only the credentials replaced ([save_neutron_creds] and
    [save_component_creds]). *)
Theorem save_creds_reload {W} (sys : Sys W) (s : Settings.t) l w
    (Hc : Settings.update_components s = l ++ [agent_component])
    (H0 : count_agents l = 0%nat)
    (Hi : settings_i64_ok s = true) :
  (forall nu u p, exists r w' doc,
     save_neutron_creds sys s nu u p w = (r, w', [EvWriteJson get_settings_location doc]) /\
     load_settings (Some doc) =
       Ok (Settings.mk nu (NeutronMqttClient.mk u p) (Settings.component_mqtt_client s)
             (Settings.application_name s) (Settings.update_branch s)
             (Settings.update_components s) (Settings.certificates s))) /\
  (forall ip port u p ca, exists r w' doc,
     save_component_creds sys s ip port u p ca w = (r, w', [EvWriteJson get_settings_location doc]) /\
     load_settings (Some doc) =
       Ok (Settings.mk (Settings.neutron_account_username s) (Settings.neutron_mqtt_client s)
             (ComponentMqttClient.mk ip port u p ca) (Settings.application_name s)
             (Settings.update_branch s) (Settings.update_components s) (Settings.certificates s))).
Proof.
  split.
  - intros nu u p. unfold save_neutron_creds.
    match goal with |- context [save_to_file sys ?s'] =>
      destruct (save_to_file_trace sys s' w) as (r & w' & E);
      eexists r, w', _; split; [exact E|];
      rewrite (reload_loaded s' l [])
    end; [|exact Hc|exact H0|exact Hi].
    rewrite app_nil_l, <- Hc. reflexivity.
  - intros ip port u p ca. unfold save_component_creds.
    match goal with |- context [save_to_file sys ?s'] =>
      destruct (save_to_file_trace sys s' w) as (r & w' & E);
      eexists r, w', _; split; [exact E|];
      rewrite (reload_loaded s' l [])
    end; [|exact Hc|exact H0|exact Hi].
    rewrite app_nil_l, <- Hc. reflexivity.
Qed.

(** [save_certificates] writes nothing when the settings lock is poisoned;
    otherwise it writes the settings file once, and for settings as
    [load_settings] returns them reloading it gives the locked settings with
    their certificates replaced. *)
Theorem save_certificates_reload {W} (sys : Sys W) (lock : W -> option Settings.t)
    (certs : list CertificateSettings.t) (w : W) :
  (lock w = None -> save_certificates sys lock certs w = (Err "Could not lock settings mutex.", w, [])) /\
  (forall s l, lock w = Some s -> Settings.update_components s = l ++ [agent_component] ->
     count_agents l = 0%nat -> forallb cert_i64_ok certs = true ->
     exists r w' doc,
       save_certificates sys lock certs w = (r, w', [EvWriteJson get_settings_location doc]) /\
       load_settings (Some doc) = Ok (CertSettings.with_certificates s certs)).
Proof.
  split.
  - intros H. unfold save_certificates. rewrite H. reflexivity.
  - intros s l Hl Hc H0 Hi. unfold save_certificates. rewrite Hl.
    destruct (save_to_file_trace sys (CertSettings.with_certificates s certs) w) as (r & w' & E).
    eexists r, w', _. split; [exact E|].
    rewrite (reload_loaded _ l []); [|exact Hc|exact H0|exact Hi].
    rewrite app_nil_l, <- Hc. reflexivity.
Qed.


Lemma add_update_component_reload_witness :
  Settings.update_components settings_loaded_example = [blackbox_component] ++ [agent_component] /\
  count_agents [blackbox_component] = 0%nat /\
  existsb (fun x => String.eqb (UpdateComponent.name x) (UpdateComponent.name webinterface_component))
    (Settings.update_components settings_loaded_example) = false /\
  settings_i64_ok settings_loaded_example = true /\
  exists r w' doc,
    add_update_component no_programs_sys settings_loaded_example webinterface_component tt
      = (r, w', [EvWriteJson get_settings_location doc]) /\
    load_settings (Some doc) = Ok (with_update_components settings_loaded_example
                                     ([blackbox_component] ++ [webinterface_component; agent_component])).
Proof.
  split; [reflexivity|]. split; [reflexivity|]. split; [reflexivity|].
  split; [vm_compute; reflexivity|].
  apply (add_update_component_reload no_programs_sys settings_loaded_example [blackbox_component]
           webinterface_component tt).
  - reflexivity.
  - reflexivity.
  - reflexivity.
  - vm_compute. reflexivity.
Defined.

Lemma remove_update_component_reload_witness :
  Settings.update_components settings_loaded_example = [] ++ blackbox_component :: [] ++ [agent_component] /\
  settings_i64_ok settings_loaded_example = true /\
  exists r w' doc,
    remove_update_component no_programs_sys settings_loaded_example
      (UpdateComponent.name blackbox_component) tt
      = (r, w', [EvWriteJson get_settings_location doc]) /\
    load_settings (Some doc) = Ok (with_update_components settings_loaded_example
                                     ([] ++ [] ++ [agent_component])).
Proof.
  split; [reflexivity|]. split; [vm_compute; reflexivity|].
  apply (remove_update_component_reload no_programs_sys settings_loaded_example [] blackbox_component
           [] tt).
  - reflexivity.
  - reflexivity.
  - reflexivity.
  - vm_compute. reflexivity.
Defined.

Lemma remove_agent_entry_not_persisted_witness :
  Settings.update_components settings_loaded_example = [blackbox_component] ++ [agent_component] /\
  exists r w' doc,
    remove_update_component no_programs_sys settings_loaded_example APP_NAME tt
      = (r, w', [EvWriteJson get_settings_location doc]) /\
    load_settings (Some doc) = Ok settings_loaded_example.
Proof.
  split; [reflexivity|].
  apply (remove_agent_entry_not_persisted no_programs_sys settings_loaded_example [blackbox_component] tt).
  - reflexivity.
  - reflexivity.
  - vm_compute. reflexivity.
Defined.

Lemma update_component_refusals_witness :
  add_update_component no_programs_sys settings_loaded_example blackbox_component tt
    = (Err "An update component with that name already exists.", tt, []) /\
  remove_update_component no_programs_sys settings_loaded_example "WebInterface" tt
    = (Err "A component with that name wasn't found.", tt, []).
Proof.
  destruct (update_component_refusals no_programs_sys settings_loaded_example tt) as [A B].
  split.
  - apply A. exists blackbox_component. split; [left; reflexivity|reflexivity].
  - apply B. intros x Hx. simpl in Hx. destruct Hx as [<-|[<-|[]]]; discriminate.
Defined.

Lemma save_creds_reload_witness :
  Settings.update_components settings_loaded_example = [blackbox_component] ++ [agent_component] /\
  exists r w' doc,
    save_neutron_creds no_programs_sys settings_loaded_example "lsoc" "mqtt-user" "mqtt-pass" tt
      = (r, w', [EvWriteJson get_settings_location doc]) /\
    load_settings (Some doc) =
      Ok (Settings.mk "lsoc" (NeutronMqttClient.mk "mqtt-user" "mqtt-pass")
            (Settings.component_mqtt_client settings_loaded_example)
            (Settings.application_name settings_loaded_example)
            (Settings.update_branch settings_loaded_example)
            (Settings.update_components settings_loaded_example)
            (Settings.certificates settings_loaded_example)).
Proof.
  split; [reflexivity|].
  destruct (save_creds_reload no_programs_sys settings_loaded_example [blackbox_component] tt)
    as [A _].
  - reflexivity.
  - reflexivity.
  - vm_compute. reflexivity.
  - apply A.
Defined.

Lemma save_certificates_reload_witness :
  save_certificates no_programs_sys (fun _ => None) [mosquitto_cert] tt
    = (Err "Could not lock settings mutex.", tt, []) /\
  exists r w' doc,
    save_certificates no_programs_sys (fun _ => Some settings_loaded_example) [mosquitto_cert] tt
      = (r, w', [EvWriteJson get_settings_location doc]) /\
    load_settings (Some doc) = Ok (CertSettings.with_certificates settings_loaded_example [mosquitto_cert]).
Proof.
  split.
  - destruct (save_certificates_reload no_programs_sys (fun _ => None) [mosquitto_cert] tt) as [A _].
    apply A. reflexivity.
  - destruct (save_certificates_reload no_programs_sys (fun _ => Some settings_loaded_example)
                [mosquitto_cert] tt) as [_ B].
    apply (B settings_loaded_example [blackbox_component]).
    + reflexivity.
    + reflexivity.
    + reflexivity.
    + vm_compute. reflexivity.
Defined.

End SettingsUpdateProofs.

Module CertGenProofs.
Import CertGen.

Lemma bind_eq {W A B} (m : IO W A) (k : A -> IO W B) w a w1 t1 :
  m w = (a, w1, t1) -> io_bind m k w = (let '(b, w2, t2) := k a w1 in (b, w2, t1 ++ t2)).
Proof. intros H. unfold io_bind. rewrite H. reflexivity. Qed.

Lemma bind_assoc {W A B C} (m : IO W A) (k : A -> IO W B) (k2 : B -> IO W C) w :
  io_bind (io_bind m k) k2 w = io_bind m (fun a => io_bind (k a) k2) w.
Proof.
  unfold io_bind. destruct (m w) as [[a w1] t1]. destruct (k a w1) as [[b w2] t2].
  destruct (k2 b w2) as [[c w3] t3]. rewrite app_assoc. reflexivity.
Qed.

Lemma get_in s i :
  (i < String.length s)%nat -> exists c, String.get i s = Some c /\ In c (list_ascii_of_string s).
Proof.
  revert i. induction s as [|a s IH]; intros i H; simpl in H; [lia|].
  destruct i as [|i]; simpl.
  - exists a. auto.
  - destruct (IH i ltac:(lia)) as (c & E & Hc). exists c. auto.
Qed.

Section Rand.
Context {W : Type} (gen_index : nat -> W -> nat * W).
Hypothesis Hgen : forall n w, (0 < n)%nat -> (fst (gen_index n w) < n)%nat.

Lemma choose_some w :
  exists c w', choose gen_index w = (Some c, w') /\ In c (list_ascii_of_string CHARSET).
Proof.
  assert (HL : String.length CHARSET = 62%nat) by reflexivity.
  unfold choose. rewrite HL. cbn [Nat.eqb].
  destruct (gen_index 62 w) as [i w'] eqn:E.
  pose proof (Hgen 62 w ltac:(lia)) as H. rewrite E in H. simpl in H.
  destruct (get_in CHARSET i) as (c & Ec & Hc); [rewrite HL; exact H|].
  rewrite Ec. eauto.
Qed.

Lemma rand_chars_spec n : forall w,
  exists p w', rand_chars gen_index n w = (Some p, w') /\ String.length p = n /\
    forall c, In c (list_ascii_of_string p) -> In c (list_ascii_of_string CHARSET).
Proof.
  induction n as [|n IH]; intros w.
  - exists "", w. split; [reflexivity|split; [reflexivity|intros c []]].
  - cbn [rand_chars]. destruct (choose_some w) as (c & w1 & Ec & Hc). rewrite Ec.
    cbv beta iota. destruct (IH w1) as (p & w2 & Ep & Hl & Hp). rewrite Ep.
    exists (String c p), w2. split; [reflexivity|split].
    + simpl. rewrite Hl. reflexivity.
    + change (list_ascii_of_string (String c p)) with (c :: list_ascii_of_string p).
      intros d [<-|Hd]; [exact Hc|exact (Hp d Hd)].
Qed.

(** [rand_passphrase] never fails: given a generator that draws its
    indices in range, it returns twenty characters of [CHARSET] (ASCII
    letters and digits), without any other effect. *)
Theorem rand_passphrase_alnum w :
  exists p w', rand_passphrase gen_index w = (Some p, w', []) /\
    String.length p = PASSPHRASE_LENGTH /\
    forall c, In c (list_ascii_of_string p) -> In c (list_ascii_of_string CHARSET).
Proof.
  unfold rand_passphrase. destruct (rand_chars_spec PASSPHRASE_LENGTH w) as (p & w' & E & Hl & Hc).
  rewrite E. exists p, w'. auto.
Qed.

Lemma passphrase_if_spec enc w :
  exists p w', passphrase_if gen_index enc w = (Some p, w', []) /\
    (if enc then String.length p = PASSPHRASE_LENGTH else p = "").
Proof.
  destruct enc; simpl.
  - destruct (rand_passphrase_alnum w) as (p & w' & E & Hl & _). eauto.
  - exists "", w. split; reflexivity.
Qed.

End Rand.

Section Gen.
Context {W : Type} (sys : Sys W) (gen_index : nat -> W -> nat * W).
Hypothesis Hgen : forall n w, (0 < n)%nat -> (fst (gen_index n w) < n)%nat.

(** A CA-signed certificate with a key length of zero or less is refused
    before any command runs or any file is copied. *)
Theorem generate_certificate_rejects_key_len (c : CertificateSettings.t) w
    (Hca : CertificateSettings.cert_authority c <> None)
    (Hk : (MainCertificate.key_len (CertificateSettings.main_certificate c) <= 0)%Z) :
  exists w', generate_certificate sys gen_index c false w =
               (Err "Key length needs to be bigger than 0.", w', []).
Proof.
  unfold generate_certificate. cbv beta iota.
  destruct (CertificateSettings.cert_authority c) as [ca|]; [|congruence].
  rewrite bind_assoc.
  destruct (passphrase_if_spec gen_index Hgen (MainCertificate.encrypted (CertificateSettings.main_certificate c)) w)
    as (p & w1 & Hp & _).
  rewrite (bind_eq _ _ _ _ _ _ Hp). cbv beta iota.
  replace (Z.ltb 0 _) with false by (symmetry; apply Z.ltb_ge; exact Hk).
  rewrite WatchdogProofs.io_bind_ret. cbv beta iota. simpl. eexists. reflexivity.
Qed.

Hypothesis Hspawn : forall args w, fst (sys_output sys "openssl" args w) <> None.
Hypothesis Hcopy : forall s d w, fst (sys_copy sys s d w) = true.

Lemma copy_step src dst (k : IO W (result unit string)) :
  (forall w, exists w' t, k w = (Ok tt, w', t)) ->
  forall w, exists w' t,
    (ok <- fs_copy sys src dst ;; if ok then k else io_ret (Err "Failed to copy to auxiliary path.")) w
    = (Ok tt, w', t).
Proof.
  intros Hk w. unfold io_bind, fs_copy. pose proof (Hcopy src dst w) as H.
  destruct (sys_copy sys src dst w) as [ok w1]. simpl in H. subst ok.
  destruct (Hk w1) as (w2 & t2 & E). simpl. rewrite E. eexists _, _. reflexivity.
Qed.

Lemma copy_if_ok src dst (k : IO W (result unit string)) :
  (forall w, exists w' t, k w = (Ok tt, w', t)) ->
  forall w, exists w' t,
    (if (negb (String.eqb src "") && negb (String.eqb dst ""))%bool
     then ok <- fs_copy sys src dst ;; if ok then k else io_ret (Err "Failed to copy to auxiliary path.")
     else k) w = (Ok tt, w', t).
Proof. intros Hk. destruct (_ && _)%bool; [apply copy_step, Hk|exact Hk]. Qed.

Lemma populate_ok main aux : forall w,
  exists w' t, CertSettings.populate_aux sys main aux w = (Ok tt, w', t).
Proof.
  induction aux as [|path rest IH]; intros w.
  - eexists _, _. reflexivity.
  - cbn [CertSettings.populate_aux]. apply copy_if_ok, copy_if_ok, IH.
Qed.

Lemma openssl_step args (k : option Output -> IO W (result string string)) w :
  exists o w1, io_bind (cmd_output sys "openssl" args) k w =
    (let '(b, w2, t2) := k (Some o) w1 in (b, w2, EvRun "openssl" args :: t2)).
Proof.
  pose proof (Hspawn args w) as Hs. unfold io_bind, cmd_output.
  destruct (sys_output sys "openssl" args w) as [[o|] w1]; [|simpl in Hs; congruence].
  exists o, w1. reflexivity.
Qed.

(** [generate_ca(.., false)] and [generate_certificate(.., false)] for a
    self-signed certificate succeed whenever [openssl] can be spawned and
    the auxiliary copies succeed, whatever [openssl]'s exit status and
    output: the command is run first, with [-passout pass:p] when the key is
    encrypted, and the [p] returned is that twenty-character passphrase
    ([""] when the key is not encrypted). *)
Theorem generation_ignores_openssl_status (name : string) (ca : CACertificate.t)
    (c : CertificateSettings.t) w :
  (exists p w' t, generate_ca sys gen_index name ca false w =
     (Ok p, w', EvRun "openssl" (ca_args ca ++ passout (CACertificate.encrypted ca) p) :: t) /\
     (if CACertificate.encrypted ca then String.length p = PASSPHRASE_LENGTH else p = "")) /\
  (CertificateSettings.cert_authority c = None ->
   let mc := CertificateSettings.main_certificate c in
   exists p w' t, generate_certificate sys gen_index c false w =
     (Ok p, w', EvRun "openssl" (selfsigned_args c ++ passout (MainCertificate.encrypted mc) p) :: t) /\
     (if MainCertificate.encrypted mc then String.length p = PASSPHRASE_LENGTH else p = "")).
Proof.
  split.
  - unfold generate_ca. cbv beta iota. rewrite bind_assoc.
    destruct (passphrase_if_spec gen_index Hgen (CACertificate.encrypted ca) w) as (p & w1 & Hp & Hl).
    rewrite (bind_eq _ _ _ _ _ _ Hp). cbv beta iota. rewrite bind_assoc.
    match goal with |- context [io_bind (cmd_output sys "openssl" ?a) ?k ?w0] =>
      destruct (openssl_step a k w0) as (o & w2 & E); rewrite E
    end. cbv beta iota. rewrite WatchdogProofs.io_bind_ret. cbv beta iota.
    destruct (populate_ok (CACertificate.main_paths ca) (CACertificate.auxiliary_paths ca) w2)
      as (w3 & t3 & Hq).
    rewrite (bind_eq _ _ _ _ _ _ Hq). simpl. eexists _, _, _. split; [reflexivity|exact Hl].
  - intros Hnone mc. unfold generate_certificate. cbv beta iota. rewrite Hnone. rewrite bind_assoc.
    destruct (passphrase_if_spec gen_index Hgen (MainCertificate.encrypted mc) w) as (p & w1 & Hp & Hl).
    rewrite (bind_eq _ _ _ _ _ _ Hp). cbv beta iota. rewrite bind_assoc.
    match goal with |- context [io_bind (cmd_output sys "openssl" ?a) ?k ?w0] =>
      destruct (openssl_step a k w0) as (o & w2 & E); rewrite E
    end. cbv beta iota. rewrite WatchdogProofs.io_bind_ret. cbv beta iota.
    destruct (populate_ok (MainCertificate.main_paths mc) (MainCertificate.auxiliary_paths mc) w2)
      as (w3 & t3 & Hq).
    rewrite (bind_eq _ _ _ _ _ _ Hq). simpl. eexists _, _, _. split; [reflexivity|exact Hl].
Qed.

(** [add_certificate] for a self-signed certificate whose component name is
    new, with [openssl] spawnable and the copies succeeding: the key is
    generated first, and the settings file written last holds the old
    certificates followed by the new one carrying exactly the passphrase
    given to [openssl]. *)
Theorem add_certificate_selfsigned_saves_passphrase (s : Settings.t) (c : CertificateSettings.t) w
    (Hnone : CertificateSettings.cert_authority c = None)
    (Hnew : existsb (fun x => String.eqb (CertificateSettings.component_name x)
                                          (CertificateSettings.component_name c))
              (Settings.certificates s) = false) :
  let mc := CertificateSettings.main_certificate c in
  exists p r w' t,
    add_certificate sys gen_index s c w =
      (r, w', EvRun "openssl" (selfsigned_args c ++ passout (MainCertificate.encrypted mc) p) :: t ++
              [EvWriteJson SettingsFile.get_settings_location
                 (SettingsFile.settings_document
                    (CertSettings.with_certificates s
                       (Settings.certificates s ++ [set_main_passphrase c p])))]) /\
    (if MainCertificate.encrypted mc then String.length p = PASSPHRASE_LENGTH else p = "").
Proof.
  intros mc. unfold add_certificate. rewrite Hnew. rewrite Hnone.
  rewrite WatchdogProofs.io_bind_ret. cbv beta iota.
  destruct (proj2 (generation_ignores_openssl_status ""
                     (CACertificate.mk false 0 "" "" (CertificatePaths.mk "" "") [] None "") c w) Hnone)
    as (p & w1 & t1 & E & Hl).
  rewrite (bind_eq _ _ _ _ _ _ E). cbv beta iota.
  destruct (SettingsUpdateProofs.save_to_file_trace sys
              (CertSettings.with_certificates s (Settings.certificates s ++ [set_main_passphrase c p])) w1)
    as (r & w2 & Hs).
  rewrite Hs. exists p, r, w2, t1. split; [|exact Hl]. simpl. reflexivity.
Qed.

End Gen.

(** [add_certificate] refuses a certificate whose component name is already
    taken without running any command or writing anything. *)
Theorem add_certificate_duplicate {W} (sys : Sys W) (gen_index : nat -> W -> nat * W)
    (s : Settings.t) (c : CertificateSettings.t) w
    (Hdup : exists x, In x (Settings.certificates s) /\
                      CertificateSettings.component_name x = CertificateSettings.component_name c) :
  add_certificate sys gen_index s c w =
    (Err "A certificate with that component name already exists.", w, []).
Proof.
  unfold add_certificate. replace (existsb _ _) with true; [reflexivity|].
  symmetry. apply existsb_exists. destruct Hdup as (x & Hx & Hn). exists x.
  split; [exact Hx|]. rewrite Hn. apply String.eqb_refl.
Qed.


Lemma rand_passphrase_alnum_witness :
  (forall n (w : unit), (0 < n)%nat -> (fst (first_index n w) < n)%nat) /\
  exists p w', rand_passphrase first_index tt = (Some p, w', []) /\
    String.length p = PASSPHRASE_LENGTH /\
    forall c, In c (list_ascii_of_string p) -> In c (list_ascii_of_string CHARSET).
Proof.
  split; [intros n w H; exact H|].
  apply (rand_passphrase_alnum first_index (fun n w H => H) tt).
Defined.

Lemma generate_certificate_rejects_key_len_witness :
  CertificateSettings.cert_authority zero_key_cert <> None /\
  (MainCertificate.key_len (CertificateSettings.main_certificate zero_key_cert) <= 0)%Z /\
  exists w', generate_certificate failing_openssl_sys first_index zero_key_cert false tt =
               (Err "Key length needs to be bigger than 0.", w', []).
Proof.
  split; [discriminate|]. split; [vm_compute; discriminate|].
  apply (generate_certificate_rejects_key_len failing_openssl_sys first_index (fun n w H => H)
           zero_key_cert tt).
  - discriminate.
  - vm_compute. discriminate.
Defined.

Lemma generation_ignores_openssl_status_witness :
  (forall args (w : unit), fst (sys_output failing_openssl_sys "openssl" args w) <> None) /\
  (forall src dst (w : unit), fst (sys_copy failing_openssl_sys src dst w) = true) /\
  (exists p w' t, generate_ca failing_openssl_sys first_index "BlackBox" mosquitto_ca false tt =
     (Ok p, w', EvRun "openssl" (ca_args mosquitto_ca ++ passout (CACertificate.encrypted mosquitto_ca) p) :: t) /\
     (if CACertificate.encrypted mosquitto_ca then String.length p = PASSPHRASE_LENGTH else p = "")) /\
  (CertificateSettings.cert_authority blackbox_selfsigned_cert = None ->
   let mc := CertificateSettings.main_certificate blackbox_selfsigned_cert in
   exists p w' t, generate_certificate failing_openssl_sys first_index blackbox_selfsigned_cert false tt =
     (Ok p, w', EvRun "openssl" (selfsigned_args blackbox_selfsigned_cert ++
                                 passout (MainCertificate.encrypted mc) p) :: t) /\
     (if MainCertificate.encrypted mc then String.length p = PASSPHRASE_LENGTH else p = "")).
Proof.
  assert (Hs : forall args (w : unit), fst (sys_output failing_openssl_sys "openssl" args w) <> None)
    by (intros; discriminate).
  assert (Hc : forall src dst (w : unit), fst (sys_copy failing_openssl_sys src dst w) = true)
    by reflexivity.
  split; [exact Hs|]. split; [exact Hc|].
  apply (generation_ignores_openssl_status failing_openssl_sys first_index (fun n w H => H) Hs Hc
           "BlackBox" mosquitto_ca blackbox_selfsigned_cert tt).
Defined.

Lemma add_certificate_selfsigned_saves_passphrase_witness :
  CertificateSettings.cert_authority blackbox_selfsigned_cert = None /\
  existsb (fun x => String.eqb (CertificateSettings.component_name x)
                                (CertificateSettings.component_name blackbox_selfsigned_cert))
    (Settings.certificates settings_loaded_example) = false /\
  let mc := CertificateSettings.main_certificate blackbox_selfsigned_cert in
  exists p r w' t,
    add_certificate failing_openssl_sys first_index settings_loaded_example blackbox_selfsigned_cert tt =
      (r, w', EvRun "openssl" (selfsigned_args blackbox_selfsigned_cert ++
                               passout (MainCertificate.encrypted mc) p) :: t ++
              [EvWriteJson SettingsFile.get_settings_location
                 (SettingsFile.settings_document
                    (CertSettings.with_certificates settings_loaded_example
                       (Settings.certificates settings_loaded_example ++
                        [set_main_passphrase blackbox_selfsigned_cert p])))]) /\
    (if MainCertificate.encrypted mc then String.length p = PASSPHRASE_LENGTH else p = "").
Proof.
  split; [reflexivity|]. split; [reflexivity|].
  apply (add_certificate_selfsigned_saves_passphrase failing_openssl_sys first_index (fun n w H => H)
           (fun args w => ltac:(discriminate)) (fun s d w => eq_refl)
           settings_loaded_example blackbox_selfsigned_cert tt).
  - reflexivity.
  - reflexivity.
Defined.

Lemma add_certificate_duplicate_witness :
  add_certificate failing_openssl_sys first_index settings_loaded_example selfsigned_cert tt =
    (Err "A certificate with that component name already exists.", tt, []).
Proof.
  apply (add_certificate_duplicate failing_openssl_sys first_index settings_loaded_example
           selfsigned_cert tt).
  exists mosquitto_cert. split; [left; reflexivity|reflexivity].
Defined.

End CertGenProofs.

Module RecipesProofs.
Import Recipes.

Lemma io_bind_split {W A B} (m : IO W A) (k : A -> IO W B) w b w2 t :
  io_bind m k w = (b, w2, t) ->
  exists a w1 t1 t2, m w = (a, w1, t1) /\ k a w1 = (b, w2, t2) /\ t = t1 ++ t2.
Proof.
  unfold io_bind. destruct (m w) as [[a w1] t1]. destruct (k a w1) as [[b' w2'] t2] eqn:E.
  intros H. inversion H; subst. exists a, w1, t1, t2. auto.
Qed.

Lemma jindex_obj l k :
  jindex (JObj l) k = match BTree.get k l with Some x => x | None => JNull end.
Proof.
  induction l as [|[k0 v0] l IH]; simpl; [reflexivity|].
  rewrite (String.eqb_sym k0 k). destruct (String.eqb k k0); [reflexivity|]. exact IH.
Qed.

Lemma jindex_insert l k x k' :
  jindex (JObj (BTree.insert k x l)) k' = if String.eqb k' k then x else jindex (JObj l) k'.
Proof.
  rewrite !jindex_obj. destruct (String.eqb_spec k' k) as [->|Hne].
  - rewrite BTreeFacts.get_insert_same. reflexivity.
  - rewrite BTreeFacts.get_insert_other by exact Hne. reflexivity.
Qed.

Lemma json_set_obj v k x v' :
  json_set v k x = Done v' ->
  exists l, v' = JObj l /\ forall k', jindex v' k' = if String.eqb k' k then x else jindex v k'.
Proof.
  destruct v; unfold json_set; intros H; try discriminate; injection H as <-;
    eexists; (split; [reflexivity|]); intros k'.
  - cbn. rewrite String.eqb_sym. destruct (String.eqb k' k); reflexivity.
  - rewrite jindex_insert. reflexivity.
Qed.

Lemma fill_if_null_spec l key value :
  exists l', fill_if_null (JObj l) key value = Done (JObj l') /\
    is_null (jindex (JObj l') key) = false /\
    forall k', k' <> key -> jindex (JObj l') k' = jindex (JObj l) k'.
Proof.
  unfold fill_if_null. destruct (is_null (jindex (JObj l) key)) eqn:E.
  - eexists. split; [reflexivity|]. split.
    + rewrite jindex_insert, String.eqb_refl. reflexivity.
    + intros k' Hne. rewrite jindex_insert.
      destruct (String.eqb_spec k' key); [congruence|reflexivity].
  - eexists. split; [reflexivity|]. split; [exact E|]. reflexivity.
Qed.

Lemma prepare_instruction_spec perms rp rc fv i rc' fv' i' :
  prepare_instruction perms rp rc fv i = Done (rc', fv', i') ->
  rc' = (json_eq_bool (jindex i' "restart") true || rc)%bool /\
  jindex i' "absolute_update_path" = JStr rp /\
  (json_eq_str (jindex i' "type") "copy" = true -> perms <> [] ->
   is_null (jindex i' "permission_user") = false /\
   is_null (jindex i' "permission_group") = false /\
   is_null (jindex i' "file_permissions") = false).
Proof.
  unfold prepare_instruction.
  destruct (json_set i "absolute_update_path" (JStr rp)) as [j1|] eqn:E1; [|discriminate].
  apply json_set_obj in E1 as (l1 & -> & H1).
  destruct (json_eq_str (jindex (JObj l1) "type") "copy" && negb (is_empty perms))%bool eqn:Ec.
  - destruct perms as [|p ps]; [rewrite andb_false_r in Ec; discriminate|].
    destruct (fill_if_null_spec l1 "permission_user" (UpdateComponent.permission_user p))
      as (l2 & E2 & N2 & O2).
    rewrite E2.
    destruct (fill_if_null_spec l2 "permission_group" (UpdateComponent.permission_group p))
      as (l3 & E3 & N3 & O3).
    rewrite E3.
    destruct (fill_if_null_spec l3 "file_permissions" (UpdateComponent.file_permissions p))
      as (l4 & E4 & N4 & O4).
    rewrite E4. intros H. inversion H; subst. clear H.
    rewrite !O4, !O3, !O2 by discriminate. rewrite !H1. cbn -[jindex].
    split; [destruct (json_eq_bool (jindex i "restart") true); reflexivity|].
    split; [reflexivity|]. intros _ _. auto.
  - intros H. inversion H; subst. clear H. rewrite !H1. cbn -[jindex].
    split; [destruct (json_eq_bool (jindex i "restart") true); reflexivity|].
    split; [reflexivity|]. intros Hc Hp.
    destruct perms as [|p ps]; [congruence|].
    rewrite H1 in Ec. cbn -[jindex] in Ec, Hc. rewrite Hc in Ec. discriminate.
Qed.


Lemma prepare_instructions_spec perms rp l rc fv recs rc' fv' recs' :
  prepare_instructions perms rp l rc fv recs = Done (rc', fv', recs') ->
  exists added, recs' = recs ++ added /\
    rc' = (existsb (fun i => json_eq_bool (jindex i "restart") true) added || rc)%bool /\
    forall i, In i added ->
      jindex i "absolute_update_path" = JStr rp /\
      (json_eq_str (jindex i "type") "copy" = true -> perms <> [] ->
       is_null (jindex i "permission_user") = false /\
       is_null (jindex i "permission_group") = false /\
       is_null (jindex i "file_permissions") = false).
Proof.
  revert rc fv recs. induction l as [|i l IH]; intros rc fv recs H; simpl in H.
  - inversion H; subst. exists []. rewrite app_nil_r. simpl. intuition.
  - destruct (prepare_instruction perms rp rc fv i) as [[[rc1 fv1] i1]|] eqn:E; [|discriminate].
    apply IH in H as (added & -> & Hrc & Hall).
    apply prepare_instruction_spec in E as (Hr1 & Ha1 & Hc1).
    exists (i1 :: added). split; [rewrite <- app_assoc; reflexivity|]. split.
    + rewrite Hrc, Hr1. simpl.
      destruct (existsb _ added), (json_eq_bool (jindex i1 "restart") true), rc; reflexivity.
    + intros j [<-|Hj]; auto.
Qed.

Section Read.
Context {W : Type} (sys : Sys W) (parse_json : string -> option json).

Lemma read_recipes_spec perms paths rc fv recs w r w' t :
  read_recipes sys parse_json perms paths rc fv recs w = (r, w', t) ->
  (forall e, In e t -> exists p, In p paths /\ e = EvOpen (p ++ RECIPE_FILENAME)) /\
  (forall rc' fv' recs', r = Done (rc', fv', recs') ->
   exists added, recs' = recs ++ added /\
     rc' = (existsb (fun i => json_eq_bool (jindex i "restart") true) added || rc)%bool /\
     forall i, In i added -> exists rp, In rp paths /\
       jindex i "absolute_update_path" = JStr rp /\
       (json_eq_str (jindex i "type") "copy" = true -> perms <> [] ->
        is_null (jindex i "permission_user") = false /\
        is_null (jindex i "permission_group") = false /\
        is_null (jindex i "file_permissions") = false)).
Proof.
  revert rc fv recs w r w' t.
  induction paths as [|p paths IH]; intros rc fv recs w r w' t H.
  - cbn in H. inversion H; subst. split; [intros e []|].
    intros rc' fv' recs' Hd. inversion Hd; subst. exists []. rewrite app_nil_r.
    split; [reflexivity|]. split; [reflexivity|]. intros i [].
  - cbn [read_recipes] in H.
    apply io_bind_split in H as (c & w1 & t1 & t2 & Er & Hk & ->).
    unfold read_file in Er. destruct (sys_read sys _ w) as [c' w1'] in Er.
    inversion Er; subst; clear Er.
    assert (Hskip : forall rc0 fv0 recs0 r0 w0 t0,
      read_recipes sys parse_json perms paths rc0 fv0 recs0 w1 = (r0, w0, t0) ->
      rc0 = rc -> recs0 = recs -> r0 = r -> w0 = w' -> t0 = t2 ->
      (forall e, In e (EvOpen (p ++ RECIPE_FILENAME) :: t2) ->
        exists p', In p' (p :: paths) /\ e = EvOpen (p' ++ RECIPE_FILENAME)) /\
      (forall rc' fv' recs', r = Done (rc', fv', recs') ->
       exists added, recs' = recs ++ added /\
         rc' = (existsb (fun i => json_eq_bool (jindex i "restart") true) added || rc)%bool /\
         forall i, In i added -> exists rp, In rp (p :: paths) /\
           jindex i "absolute_update_path" = JStr rp /\
           (json_eq_str (jindex i "type") "copy" = true -> perms <> [] ->
            is_null (jindex i "permission_user") = false /\
            is_null (jindex i "permission_group") = false /\
            is_null (jindex i "file_permissions") = false))).
    { intros rc0 fv0 recs0 r0 w0 t0 E0 -> -> -> -> ->.
      apply IH in E0 as (Ht & Hd). split.
      - intros e [<-|He]; [exists p; simpl; auto|].
        destruct (Ht e He) as (p' & Hp' & ->). exists p'. simpl. auto.
      - intros rc' fv' recs' Hr. destruct (Hd rc' fv' recs' Hr) as (added & Ha & Hrc & Hall).
        exists added. split; [exact Ha|]. split; [exact Hrc|].
        intros i Hi. destruct (Hall i Hi) as (rp & Hrp & Hi2). exists rp. simpl. auto. }
    destruct c as [text|]; [|eapply Hskip; eauto].
    destruct (parse_json text) as [j|]; [|eapply Hskip; eauto].
    destruct j as [| | | |l|]; try (eapply Hskip; eauto; fail).
    destruct (prepare_instructions perms p l rc fv recs) as [[[rc1 fv1] rs1]|] eqn:Ep.
    + apply IH in Hk as (Ht & Hd). split.
      * intros e [<-|He]; [exists p; simpl; auto|].
        destruct (Ht e He) as (p' & Hp' & ->). exists p'. simpl. auto.
      * intros rc' fv' recs' Hr. destruct (Hd rc' fv' recs' Hr) as (added2 & Ha2 & Hrc2 & Hall2).
        apply prepare_instructions_spec in Ep as (added1 & -> & Hrc1 & Hall1).
        exists (added1 ++ added2). split; [rewrite Ha2, app_assoc; reflexivity|]. split.
        -- rewrite Hrc2, Hrc1, existsb_app.
           destruct (existsb _ added1), (existsb _ added2), rc; reflexivity.
        -- intros i Hi. apply in_app_or in Hi as [Hi|Hi].
           ++ exists p. simpl. auto.
           ++ destruct (Hall2 i Hi) as (rp & Hrp & Hi2). exists rp. simpl. auto.
    + cbn in Hk. inversion Hk; subst. split.
      * intros e [<-|[]]. exists p. simpl. auto.
      * intros rc' fv' recs' Hr. discriminate.
Qed.

Lemma recipe_component_spec presets component w r w' t :
  recipe_component sys parse_json presets component w = (r, w', t) ->
  (forall e, In e t -> exists p, In p (snd component) /\ e = EvOpen (p ++ RECIPE_FILENAME)) /\
  (component_perms presets (fst component) = [] -> r = Panic) /\
  (forall e, r = Done (Some e) ->
   exists p ps fv recipes,
     component_perms presets (fst component) = p :: ps /\ fv <> ""%string /\
     e = JObj (BTree.insert "updates" (JArr recipes)
                (BTree.insert "final_version" (JStr fv)
                   (BTree.insert "restart"
                      (JBool (existsb (fun i => json_eq_bool (jindex i "restart") true) recipes))
                      (BTree.insert "restart_command" (JStr (UpdateComponent.restart_command p))
                         (BTree.insert "component" (JStr (fst component)) []))))) /\
     forall i, In i recipes -> exists rp, In rp (snd component) /\
       jindex i "absolute_update_path" = JStr rp /\
       (json_eq_str (jindex i "type") "copy" = true ->
        is_null (jindex i "permission_user") = false /\
        is_null (jindex i "permission_group") = false /\
        is_null (jindex i "file_permissions") = false)).
Proof.
  unfold recipe_component. destruct (component_perms presets (fst component)) as [|p ps] eqn:Ep.
  - intros H. cbn in H. inversion H; subst. split; [intros e []|]. split; [auto|].
    intros e He. discriminate.
  - intros H. apply io_bind_split in H as (r1 & w1 & t1 & t2 & E1 & Hk & ->).
    apply read_recipes_spec in E1 as (Ht & Hd).
    destruct r1 as [[[rc fv] recs]|]; cbn in Hk.
    + destruct (String.eqb_spec fv "") as [Hfv|Hfv]; inversion Hk; subst;
        (split; [intros e He; rewrite app_nil_r in He; auto|]);
        (split; [discriminate|]); intros e He; try discriminate.
      injection He as <-.
      destruct (Hd rc fv recs eq_refl) as (added & Ha & Hrc & Hall).
      simpl in Ha. subst recs. rewrite orb_false_r in Hrc. subst rc.
      exists p, ps, fv, added. split; [reflexivity|]. split; [exact Hfv|]. split; [reflexivity|].
      intros i Hi. destruct (Hall i Hi) as (rp & Hrp & Ha' & Hc). exists rp.
      split; [exact Hrp|]. split; [exact Ha'|]. intros Hc'. apply Hc; [exact Hc'|congruence].
    + inversion Hk; subst. split; [intros e He; rewrite app_nil_r in He; auto|].
      split; [discriminate|]. intros e He. discriminate.
Qed.

Lemma get_recipes_loop_spec presets ups cookbook w r w' t :
  get_recipes_loop sys parse_json presets ups cookbook w = (r, w', t) ->
  (forall e, In e t -> exists k paths p, In (k, paths) ups /\ In p paths /\
                        e = EvOpen (p ++ RECIPE_FILENAME)) /\
  ((exists k paths, In (k, paths) ups /\ component_perms presets k = []) -> r = Panic) /\
  (forall cb, r = Done cb ->
   exists added, cb = cookbook ++ added /\
   forall e, In e added -> exists k paths p ps fv recipes,
     In (k, paths) ups /\
     component_perms presets k = p :: ps /\ fv <> ""%string /\
     e = JObj (BTree.insert "updates" (JArr recipes)
                (BTree.insert "final_version" (JStr fv)
                   (BTree.insert "restart"
                      (JBool (existsb (fun i => json_eq_bool (jindex i "restart") true) recipes))
                      (BTree.insert "restart_command" (JStr (UpdateComponent.restart_command p))
                         (BTree.insert "component" (JStr k) []))))) /\
     forall i, In i recipes -> exists rp, In rp paths /\
       jindex i "absolute_update_path" = JStr rp /\
       (json_eq_str (jindex i "type") "copy" = true ->
        is_null (jindex i "permission_user") = false /\
        is_null (jindex i "permission_group") = false /\
        is_null (jindex i "file_permissions") = false)).
Proof.
  revert cookbook w r w' t.
  induction ups as [|[k paths] ups IH]; intros cookbook w r w' t H.
  - cbn in H. inversion H; subst. split; [intros e []|]. split.
    + intros (k & paths & [] & _).
    + intros cb Hcb. inversion Hcb; subst. exists []. rewrite app_nil_r. split; [reflexivity|].
      intros e [].
  - cbn [get_recipes_loop] in H.
    apply io_bind_split in H as (r1 & w1 & t1 & t2 & E1 & Hk & ->).
    apply recipe_component_spec in E1 as (Ht1 & Hp1 & Hd1). cbn [fst snd] in *.
    assert (Htr : forall t0, (forall e, In e t0 -> exists k0 paths0 p, In (k0, paths0) ups /\
                    In p paths0 /\ e = EvOpen (p ++ RECIPE_FILENAME)) ->
              forall e, In e (t1 ++ t0) -> exists k0 paths0 p, In (k0, paths0) ((k, paths) :: ups) /\
                    In p paths0 /\ e = EvOpen (p ++ RECIPE_FILENAME)).
    { intros t0 Ht0 e He. apply in_app_or in He as [He|He].
      - destruct (Ht1 e He) as (p & Hp & ->). exists k, paths, p. simpl. auto.
      - destruct (Ht0 e He) as (k0 & paths0 & p & Hin & Hp & ->). exists k0, paths0, p. simpl. auto. }
    destruct r1 as [[c|]|].
    + apply IH in Hk as (Ht & Hp & Hd). split; [apply Htr, Ht|]. split.
      * intros (k0 & paths0 & [Heq|Hin] & Hk0).
        -- injection Heq as -> ->. specialize (Hp1 Hk0). discriminate.
        -- apply Hp. eauto.
      * intros cb Hcb. destruct (Hd cb Hcb) as (added & -> & Hall).
        exists (c :: added). split; [rewrite <- app_assoc; reflexivity|].
        intros e [<-|He].
        -- destruct (Hd1 c eq_refl) as (p & ps & fv & recipes & Hps & Hfv & Hc & Hi).
           exists k, paths, p, ps, fv, recipes. simpl. auto 6.
        -- destruct (Hall e He) as (k0 & paths0 & p & ps & fv & recipes & Hin & X).
           exists k0, paths0, p, ps, fv, recipes. simpl. auto.
    + apply IH in Hk as (Ht & Hp & Hd). split; [apply Htr, Ht|]. split.
      * intros (k0 & paths0 & [Heq|Hin] & Hk0).
        -- injection Heq as -> ->. specialize (Hp1 Hk0). discriminate.
        -- apply Hp. eauto.
      * intros cb Hcb. destruct (Hd cb Hcb) as (added & -> & Hall).
        exists added. split; [reflexivity|].
        intros e He. destruct (Hall e He) as (k0 & paths0 & p & ps & fv & recipes & Hin & X).
        exists k0, paths0, p, ps, fv, recipes. simpl. auto.
    + cbn in Hk. inversion Hk; subst. split.
      * intros e He. rewrite app_nil_r in He. apply Htr with (t0 := []); [intros ? []|].
        rewrite app_nil_r. exact He.
      * split; [reflexivity|]. intros cb Hcb. discriminate.
Qed.

End Read.


(** get_recipes never runs a program, writes or removes a file: every effect
    it has is opening the recipe file of one of the update paths it is given. *)
Theorem get_recipes_only_opens_recipes {W} (sys : Sys W) parse_json ups presets w r w' t e
  (H : get_recipes sys parse_json ups presets w = (r, w', t)) (He : In e t) :
  exists k paths p, In (k, paths) ups /\ In p paths /\ e = EvOpen (p ++ "recipe.json").
Proof. apply get_recipes_loop_spec in H as (Ht & _ & _). exact (Ht e He). Qed.

(** get_recipes panics ([component_perms[0]] out of bounds) as soon as one
    component of the update paths has no permission preset of its name,
    whatever the recipe files contain. *)
Theorem get_recipes_panics_without_preset {W} (sys : Sys W) parse_json ups presets w k paths
  (Hin : In (k, paths) ups) (Hno : component_perms presets k = []) :
  fst (fst (get_recipes sys parse_json ups presets w)) = Panic.
Proof.
  unfold get_recipes.
  destruct (get_recipes_loop sys parse_json presets ups [] w) as [[r w'] t] eqn:E.
  apply get_recipes_loop_spec in E as (_ & Hp & _). simpl. apply Hp. eauto.
Qed.

(** Each entry of a cookbook get_recipes returns belongs to one listed
    component with a permission preset: it names the component and the
    first preset's restart command, has a non-empty final version, its
    restart flag is set exactly when one of its instructions has
    restart true, every instruction carries the recipe path it came from,
    and every copy instruction has its owner, group and mode filled. *)
Theorem get_recipes_entries {W} (sys : Sys W) parse_json ups presets w cb w' t
  (H : get_recipes sys parse_json ups presets w = (Done cb, w', t)) :
  forall e, In e cb -> exists k paths p ps fv recipes,
     In (k, paths) ups /\
     component_perms presets k = p :: ps /\ fv <> ""%string /\
     e = JObj (BTree.insert "updates" (JArr recipes)
                (BTree.insert "final_version" (JStr fv)
                   (BTree.insert "restart"
                      (JBool (existsb (fun i => json_eq_bool (jindex i "restart") true) recipes))
                      (BTree.insert "restart_command" (JStr (UpdateComponent.restart_command p))
                         (BTree.insert "component" (JStr k) []))))) /\
     forall i, In i recipes -> exists rp, In rp paths /\
       jindex i "absolute_update_path" = JStr rp /\
       (json_eq_str (jindex i "type") "copy" = true ->
        is_null (jindex i "permission_user") = false /\
        is_null (jindex i "permission_group") = false /\
        is_null (jindex i "file_permissions") = false).
Proof.
  apply get_recipes_loop_spec in H as (_ & _ & Hd).
  destruct (Hd cb eq_refl) as (added & -> & Hall). exact Hall.
Qed.

Lemma get_recipes_only_opens_recipes_witness :
  exists k paths p, In (k, paths) blackbox_update_paths /\ In p paths /\
    EvOpen "/tmp/BlackBox-1.2.0.zip-extracted/recipe.json" = EvOpen (p ++ "recipe.json").
Proof.
  apply (get_recipes_only_opens_recipes recipe_reading_sys recipe_example_parse
           blackbox_update_paths [blackbox_component] tt (Done blackbox_cookbook) tt
           [EvOpen "/tmp/BlackBox-1.2.0.zip-extracted/recipe.json"]).
  - vm_compute. reflexivity.
  - left. reflexivity.
Defined.

Lemma get_recipes_panics_without_preset_witness :
  In ("BlackBox", ["/tmp/BlackBox-1.2.0.zip-extracted/"]) blackbox_update_paths /\
  component_perms [SettingsFile.agent_component] "BlackBox" = [] /\
  fst (fst (get_recipes recipe_reading_sys recipe_example_parse blackbox_update_paths
              [SettingsFile.agent_component] tt)) = Panic.
Proof.
  split; [left; reflexivity|]. split; [vm_compute; reflexivity|].
  apply (get_recipes_panics_without_preset recipe_reading_sys recipe_example_parse
           blackbox_update_paths [SettingsFile.agent_component] tt "BlackBox"
           ["/tmp/BlackBox-1.2.0.zip-extracted/"]).
  - left. reflexivity.
  - vm_compute. reflexivity.
Defined.

Lemma get_recipes_entries_witness :
  blackbox_cookbook <> [] /\
  forall e, In e blackbox_cookbook -> exists k paths p ps fv recipes,
     In (k, paths) blackbox_update_paths /\
     component_perms [blackbox_component] k = p :: ps /\ fv <> ""%string /\
     e = JObj (BTree.insert "updates" (JArr recipes)
                (BTree.insert "final_version" (JStr fv)
                   (BTree.insert "restart"
                      (JBool (existsb (fun i => json_eq_bool (jindex i "restart") true) recipes))
                      (BTree.insert "restart_command" (JStr (UpdateComponent.restart_command p))
                         (BTree.insert "component" (JStr k) []))))) /\
     forall i, In i recipes -> exists rp, In rp paths /\
       jindex i "absolute_update_path" = JStr rp /\
       (json_eq_str (jindex i "type") "copy" = true ->
        is_null (jindex i "permission_user") = false /\
        is_null (jindex i "permission_group") = false /\
        is_null (jindex i "file_permissions") = false).
Proof.
  split; [vm_compute; discriminate|].
  apply (get_recipes_entries recipe_reading_sys recipe_example_parse blackbox_update_paths
           [blackbox_component] tt blackbox_cookbook tt
           [EvOpen "/tmp/BlackBox-1.2.0.zip-extracted/recipe.json"]).
  vm_compute. reflexivity.
Defined.

End RecipesProofs.

Module UpdateFlowProofs.
Import UpdateFlow.

Local Abbreviation split_bind := RecipesProofs.io_bind_split.

Lemma unpack_component_events {W} (sys : Sys W) updates w r w' t :
  VersionControl.unpack_component sys updates w = (r, w', t) ->
  forall e, In e t -> (exists args, e = EvRun "unzip" args) \/ (exists p, e = EvRemove p).
Proof.
  revert w r w' t. induction updates as [|u updates IH]; intros w r w' t H.
  - cbn in H. inversion H; subst. intros e [].
  - cbn [VersionControl.unpack_component] in H.
    apply split_bind in H as (o & w1 & t1 & t2 & E1 & H & ->).
    unfold cmd_output in E1. destruct (sys_output sys _ _ w) as [o' w1'] in E1.
    inversion E1; subst; clear E1.
    assert (Hp : forall (w0 : W) r0 w0' t0,
      (remove_file sys u ;;; tl <- VersionControl.unpack_component sys updates ;;
       io_ret (((u ++ "-extracted") ++ "/")%string :: tl)) w0 = (r0, w0', t0) ->
      forall e, In e t0 -> (exists args, e = EvRun "unzip" args) \/ (exists p, e = EvRemove p)).
    { intros w0 r0 w0' t0 H0.
      apply split_bind in H0 as (b & w5 & t5 & t6 & E5 & H0 & ->).
      unfold remove_file in E5. destruct (sys_remove sys u w0) in E5. inversion E5; subst.
      apply split_bind in H0 as (tl & w6 & t7 & t8 & E6 & H0 & ->).
      cbn in H0. inversion H0; subst.
      intros e He. simpl in He. destruct He as [<-|He]; [right; eauto|].
      rewrite app_nil_r in He. exact (IH _ _ _ _ E6 e He). }
    intros e [<-|He]; [left; eauto|].
    destruct o as [res|].
    + destruct (negb (String.eqb (out_stderr res) "")).
      * exact (IH _ _ _ _ H e He).
      * exact (Hp _ _ _ _ H e He).
    + exact (Hp _ _ _ _ H e He).
Qed.

Lemma unpack_updates_events {W} (sys : Sys W) verified inflated w r w' t :
  VersionControl.unpack_updates_from sys verified inflated w = (r, w', t) ->
  forall e, In e t -> (exists args, e = EvRun "unzip" args) \/ (exists p, e = EvRemove p).
Proof.
  revert inflated w r w' t.
  induction verified as [|[k us0] verified IH]; intros inflated w r w' t H.
  - cbn in H. inversion H; subst. intros e [].
  - cbn [VersionControl.unpack_updates_from] in H.
    apply split_bind in H as (z & w1 & t1 & t2 & E1 & H & ->).
    intros e He. apply in_app_or in He as [He|He].
    + exact (unpack_component_events _ _ _ _ _ _ E1 e He).
    + exact (IH _ _ _ _ _ H e He).
Qed.

Lemma strongly_sorted_app {A} (R : A -> A -> Prop) a b :
  StronglySorted R (a ++ b) -> forall x y, In x a -> In y b -> R x y.
Proof.
  induction a as [|z a IH]; simpl; intros H x y Hx Hy; [destruct Hx|].
  inversion H as [|z' l Hs Hf]; subst.
  destruct Hx as [<-|Hx].
  - rewrite Forall_forall in Hf. apply Hf. apply in_or_app. right. exact Hy.
  - exact (IH Hs x y Hx Hy).
Qed.

Lemma insert_last {V} k (v : V) m :
  Forall (fun kv => String.compare (fst kv) k = Lt) m -> BTree.insert k v m = m ++ [(k, v)].
Proof.
  induction m as [|[k' v'] m IH]; intros H; [reflexivity|].
  inversion H as [|x l Hk Hm]; subst. simpl in Hk. simpl.
  rewrite String.compare_antisym, Hk. simpl. rewrite IH by exact Hm. reflexivity.
Qed.

Lemma de_update_entries_sorted acc l :
  StronglySorted (fun a b => String.compare (fst a) (fst b) = Lt) (acc ++ l) ->
  de_update_entries (map (fun kv => (fst kv, JArr (map JStr (snd kv)))) l) acc = Some (acc ++ l).
Proof.
  revert acc. induction l as [|[k vs] l IH]; intros acc Hs; simpl.
  - rewrite app_nil_r. reflexivity.
  - rewrite (SerdeProofs.de_list_map Serde.de_string JStr vs) by reflexivity.
    rewrite insert_last.
    + rewrite IH; [rewrite <- app_assoc; reflexivity|]. rewrite <- app_assoc. exact Hs.
    + apply Forall_forall. intros x Hx.
      exact (strongly_sorted_app _ acc _ Hs x (k, vs) Hx (or_introl eq_refl)).
Qed.

Lemma de_leftover_document m :
  StronglySorted (fun a b => String.compare (fst a) (fst b) = Lt) m ->
  de_update_list (leftover_document m) = Some m.
Proof. intros Hs. exact (de_update_entries_sorted [] m Hs). Qed.

Lemma lookup_removed d p l :
  String.prefix d p = true ->
  FileSystem.lookup p (filter (fun e => negb (String.prefix d (fst e))) l) = None.
Proof.
  intros Hp. induction l as [|[q b] l IH]; simpl; [reflexivity|].
  destruct (String.prefix d q) eqn:Eq; simpl; [exact IH|].
  destruct (String.eqb_spec q p) as [->|]; [congruence|exact IH].
Qed.

Section Flow.
Context {W : Type} (us : UpdateSys W) (debug_assertions : bool)
  (parse_json : string -> option json).

(** When the leftover list exists but does not hold a non-empty JSON map of
    string lists (missing, unreadable, not JSON, another shape, or empty),
    find_leftover_updates only opens it: nothing is installed or removed. *)
Theorem find_leftover_updates_idle presets w c w1
  (Hr : sys_read (cook_os (us_cook us)) leftover_path w = (c, w1))
  (Hc : forall text ul, c = Some text ->
        (v <-? parse_json text ;; de_update_list v) = Some ul -> ul = []) :
  find_leftover_updates us debug_assertions parse_json presets w
  = (Done tt, w1, [EvOpen leftover_path]).
Proof.
  unfold find_leftover_updates, io_bind, read_file. rewrite Hr. cbv beta iota.
  destruct c as [text|]; [|reflexivity].
  destruct (v <-? parse_json text ;; de_update_list v) as [ul|] eqn:E; [|reflexivity].
  rewrite (Hc text ul eq_refl E). reflexivity.
Qed.

(** The map save_leftover_updates writes is read back by
    find_leftover_updates as the same map: when the leftover file parses to
    the document written for a non-empty BTreeMap, exactly that map is
    installed, right after the file is opened. *)
Theorem find_leftover_updates_resumes_saved_list presets w text w1 m
  (Hr : sys_read (cook_os (us_cook us)) leftover_path w = (Some text, w1))
  (Hp : parse_json text = Some (leftover_document m))
  (Hs : StronglySorted (fun a b => String.compare (fst a) (fst b) = Lt) m)
  (Hne : m <> []) :
  find_leftover_updates us debug_assertions parse_json presets w
  = (let '(r, w2, t2) := install_leftover_updates us debug_assertions parse_json m presets w1 in
     (r, w2, EvOpen leftover_path :: t2)).
Proof.
  unfold find_leftover_updates. unfold io_bind at 1. unfold read_file at 1. rewrite Hr.
  cbv beta iota. rewrite Hp. cbv beta iota. rewrite de_leftover_document by exact Hs.
  destruct m as [|kv m]; [congruence|]. cbn [Recipes.is_empty].
  destruct (install_leftover_updates us debug_assertions parse_json (kv :: m) presets w1)
    as [[r w2] t2]. reflexivity.
Qed.

(** install_leftover_updates either panics, having only opened recipe files
    of the list, or finishes with the leftover list gone: the temporary
    update folder was removed (and with it the list), or its removal failed
    and the last thing it does is to remove the list file. *)
Theorem install_leftover_updates_cleanup update_list presets w r w' t
  (H : install_leftover_updates us debug_assertions parse_json update_list presets w = (r, w', t)) :
  (r = Panic /\ forall e, In e t -> exists k paths p, In (k, paths) update_list /\ In p paths /\
                                     e = EvOpen (p ++ "recipe.json")) \/
  (r = Done tt /\ exists w_c fs', FileSystem.remove_dir_all Download.get_temp_folder_path (us_fs us w_c)
                                  = (true, fs') /\
                     w' = us_set_fs us fs' w_c /\
                     FileSystem.lookup leftover_path (FileSystem.files fs') = None) \/
  (r = Done tt /\ exists t0, t = t0 ++ [EvRemove leftover_path]).
Proof.
  unfold install_leftover_updates in H.
  apply split_bind in H as (cb & w1 & t1 & t2 & E1 & H & ->).
  pose proof (RecipesProofs.get_recipes_loop_spec _ parse_json _ _ _ _ _ _ _ E1) as (Ht1 & _ & _).
  destruct cb as [cookbook|].
  - apply split_bind in H as (ok & w2 & t3 & t4 & E2 & H & ->).
    apply split_bind in H as (ok' & w3 & t5 & t6 & E3 & H & ->).
    unfold fs_remove_dir_all in E3.
    destruct (FileSystem.remove_dir_all Download.get_temp_folder_path (us_fs us w2)) as [b fs'] eqn:Erd.
    injection E3 as <- <- <-. destruct b.
    + cbn in H. inversion H; subst. right. left. split; [reflexivity|].
      exists w2, fs'. split; [exact Erd|]. split; [reflexivity|].
      unfold FileSystem.remove_dir_all in Erd. inversion Erd; subst. simpl.
      apply lookup_removed. vm_compute. reflexivity.
    + apply split_bind in H as (u & w4 & t7 & t8 & E4 & H & ->).
      unfold remove_file in E4. destruct (sys_remove _ leftover_path _) in E4.
      inversion E4; subst. cbn in H. inversion H; subst.
      right. right. split; [reflexivity|]. exists (t1 ++ t3).
      rewrite app_nil_l, app_nil_r, <- app_assoc. reflexivity.
  - cbn in H. inversion H; subst. left. split; [reflexivity|].
    intros e He. rewrite app_nil_r in He. exact (Ht1 e He).
Qed.

Section Download.
Variable NEUTRON_SERVER_PROTOCOL : string.
Variable server : string -> option (list byte * bool).

(** When nothing could be downloaded and verified, update_download_and_install
    stops after announcing the start: nothing is unpacked or installed, and
    the update manifest is left in place (not cleared) for the next attempt. *)
Theorem update_without_downloads_keeps_manifest w m s presets fs'
  (Hm : us_lock_manifest us w = Some (Some m))
  (Hs : us_lock_settings us w = Some s)
  (Hp : lock_update_components (us_cook us) w = Some presets)
  (Hd : Download.dload_and_verify_updates NEUTRON_SERVER_PROTOCOL server
          (Settings.neutron_account_username s)
          (NeutronMqttClient.username (Settings.neutron_mqtt_client s))
          (NeutronMqttClient.password (Settings.neutron_mqtt_client s))
          (Settings.application_name s) (Settings.update_branch s) m (us_fs us w) = ([], fs')) :
  update_download_and_install us debug_assertions parse_json NEUTRON_SERVER_PROTOCOL server w
  = (Done tt, us_set_fs us fs' w, [EvPublish "State" "Starting update download & install."]).
Proof.
  unfold update_download_and_install. rewrite Hm, Hs, Hp.
  unfold io_bind at 1. unfold Manifest.send_state at 1, publish at 1. cbv beta iota.
  unfold io_bind at 1. unfold dload_step at 1. rewrite Hd. reflexivity.
Qed.


(** When the unpacked updates include the agent's own, this run installs the
    agent alone: before "Updating component(s)..." is announced the only
    recipe files opened are the agent's, and the other unpacked updates are
    written to the leftover list, exactly when there are any. A panic while
    collecting the recipes ends the run before anything is installed. *)
Theorem update_installs_agent_first w m s presets verified fs1 inflated w2 tu paths r w' t
  (Hm : us_lock_manifest us w = Some (Some m))
  (Hs : us_lock_settings us w = Some s)
  (Hp : lock_update_components (us_cook us) w = Some presets)
  (Hd : Download.dload_and_verify_updates NEUTRON_SERVER_PROTOCOL server
          (Settings.neutron_account_username s)
          (NeutronMqttClient.username (Settings.neutron_mqtt_client s))
          (NeutronMqttClient.password (Settings.neutron_mqtt_client s))
          (Settings.application_name s) (Settings.update_branch s) m (us_fs us w)
        = (verified, fs1))
  (Hv : verified <> [])
  (Hu : VersionControl.unpack_updates (cook_os (us_cook us)) verified (us_set_fs us fs1 w)
        = (inflated, w2, tu))
  (Ha : BTree.get APP_NAME inflated = Some paths)
  (H : update_download_and_install us debug_assertions parse_json NEUTRON_SERVER_PROTOCOL server w
       = (r, w', t)) :
  exists pre post, t = pre ++ post /\
    (forall e, In e pre ->
       (exists msg, e = EvPublish "State" msg /\ msg <> "Updating component(s)...") \/
       (exists args, e = EvRun "unzip" args) \/ (exists p, e = EvRemove p) \/
       (exists p, In p paths /\ e = EvOpen (p ++ "recipe.json")) \/
       e = EvWriteJson leftover_path (leftover_document (btree_remove APP_NAME inflated))) /\
    (In (EvWriteJson leftover_path (leftover_document (btree_remove APP_NAME inflated))) pre <->
       btree_remove APP_NAME inflated <> []) /\
    ((r = Panic /\ post = []) \/
     (r = Done tt /\ exists post', post = EvPublish "State" "Updating component(s)..." :: post')).
Proof.
  unfold update_download_and_install in H. rewrite Hm, Hs, Hp in H.
  apply split_bind in H as (a1 & w1 & t1 & t2 & E1 & H & ->).
  unfold Manifest.send_state, publish in E1. injection E1 as <- <- <-.
  apply split_bind in H as (v & w3 & t3 & t4 & E2 & H & ->).
  unfold dload_step in E2. rewrite Hd in E2. injection E2 as <- <- <-.
  destruct verified as [|x xs]; [congruence|]. cbn [Recipes.is_empty] in H.
  apply split_bind in H as (a2 & w4 & t5 & t6 & E3 & H & ->).
  unfold Manifest.send_state, publish in E3. injection E3 as <- <- <-.
  apply split_bind in H as (inf & w5 & t7 & t8 & E4 & H & ->).
  rewrite Hu in E4. injection E4 as <- <- <-.
  apply split_bind in H as (cb & w6 & t9 & t10 & E5 & H & ->).
  unfold select_cookbook in E5. rewrite Ha in E5.
  apply split_bind in E5 as (a3 & w7 & t11 & t12 & E6 & E5 & ->).
  unfold Manifest.send_state, publish in E6. injection E6 as <- <- <-.
  apply split_bind in E5 as (a4 & w8 & t13 & t14 & E7 & E5 & ->).
  assert (Hsave : (btree_remove APP_NAME inflated = [] /\ t13 = []) \/
                  (btree_remove APP_NAME inflated <> [] /\ exists msg,
                     t13 = [EvWriteJson leftover_path (leftover_document (btree_remove APP_NAME inflated));
                            EvPublish "State" msg] /\ msg <> "Updating component(s)...")).
  { destruct (btree_remove APP_NAME inflated) as [|kv rest] eqn:Er.
    - cbn in E7. injection E7 as _ _ <-. left. auto.
    - cbn [Recipes.is_empty negb] in E7. right. split; [discriminate|].
      apply split_bind in E7 as (ok & w9 & t15 & t16 & E8 & E7 & ->).
      unfold save_leftover_updates, write_json in E8.
      destruct (sys_write_json _ _ _ _) as [okw w9'] in E8. injection E8 as <- <- <-.
      destruct okw; unfold Manifest.send_state, publish in E7; injection E7 as _ _ <-;
        eexists; (split; [reflexivity|discriminate]). }
  unfold Recipes.get_recipes in E5.
  pose proof (RecipesProofs.get_recipes_loop_spec _ parse_json _ _ _ _ _ _ _ E5) as (Ht & _ & _).
  unfold VersionControl.unpack_updates in Hu.
  pose proof (unpack_updates_events _ _ _ _ _ _ _ Hu) as Hunp.
  exists (EvPublish "State" "Starting update download & install."
          :: EvPublish "State" "Updates downloaded and verified. Unpacking..."
          :: tu ++ EvPublish "State" "Upgrading updater..." :: t13 ++ t14), t10.
  split; [simpl; rewrite <- !app_assoc; simpl; rewrite <- !app_assoc; reflexivity|].
  assert (Hopen : forall e, In e t14 -> exists p, In p paths /\ e = EvOpen (p ++ "recipe.json")).
  { intros e He. destruct (Ht e He) as (k & paths' & p & Hin & Hp' & ->).
    cbn in Hin. destruct Hin as [Hin|[]]. injection Hin as <- <-. eauto. }
  split; [|split].
  - intros e He. simpl in He.
    destruct He as [<-|[<-|He]]; [left; eexists; split; [reflexivity|discriminate]..|].
    apply in_app_or in He as [He|[<-|He]].
    + destruct (Hunp e He) as [Hr|Hr]; right; [left|right; left]; exact Hr.
    + left. eexists. split; [reflexivity|discriminate].
    + apply in_app_or in He as [He|He].
      * destruct Hsave as [[_ ->]|[_ (msg & -> & Hmsg)]]; [destruct He|].
        destruct He as [<-|[<-|[]]]; [right; right; right; right; reflexivity|].
        left. eauto.
      * right. right. right. left. exact (Hopen e He).
  - split.
    + intros He. simpl in He.
      destruct He as [He|[He|He]]; [discriminate..|].
      apply in_app_or in He as [He|[He|He]].
      * destruct (Hunp _ He) as [(a & Ha')|(a & Ha')]; discriminate.
      * discriminate.
      * apply in_app_or in He as [He|He].
        -- destruct Hsave as [[_ ->]|[Hne _]]; [destruct He|exact Hne].
        -- destruct (Hopen _ He) as (p & _ & Hp'). discriminate.
    + intros Hne. destruct Hsave as [[Hnil _]|[_ (msg & -> & _)]]; [congruence|].
      simpl. right. right. apply in_or_app. right. right. left. reflexivity.
  - destruct cb as [cookbook|].
    + apply split_bind in H as (a5 & w9 & t15 & t16 & E8 & H & ->).
      unfold Manifest.send_state, publish in E8. injection E8 as <- <- <-.
      apply split_bind in H as (ok & w10 & t17 & t18 & E9 & H & ->).
      apply split_bind in H as (a6 & w11 & t19 & t20 & E10 & H & ->).
      cbn in H. injection H as <- <- <-. right. split; [reflexivity|]. eexists. reflexivity.
    + cbn in H. injection H as <- <- <-. left. auto.
Qed.

End Download.
End Flow.


Lemma find_leftover_updates_idle_witness :
  sys_read (cook_os (us_cook example_update_sys)) leftover_path tt = (Some "recipe", tt) /\
  (forall text ul, Some "recipe" = Some text ->
     (v <-? recipe_example_parse text ;; de_update_list v) = Some ul -> ul = []) /\
  find_leftover_updates example_update_sys false recipe_example_parse [blackbox_component] tt
  = (Done tt, tt, [EvOpen leftover_path]).
Proof.
  assert (Hc : forall text ul, Some "recipe" = Some text ->
     (v <-? recipe_example_parse text ;; de_update_list v) = Some ul -> ul = []).
  { intros text ul E Hu. injection E as <-. vm_compute in Hu. discriminate. }
  split; [reflexivity|]. split; [exact Hc|].
  apply (find_leftover_updates_idle example_update_sys false recipe_example_parse
           [blackbox_component] tt (Some "recipe") tt).
  - reflexivity.
  - exact Hc.
Defined.

Lemma find_leftover_updates_resumes_saved_list_witness :
  sys_read (cook_os (us_cook example_update_sys)) leftover_path tt = (Some "recipe", tt) /\
  StronglySorted (fun a b => String.compare (fst a) (fst b) = Lt) blackbox_update_paths /\
  find_leftover_updates example_update_sys false
    (fun _ => Some (leftover_document blackbox_update_paths)) [blackbox_component] tt
  = (let '(r, w2, t2) := install_leftover_updates example_update_sys false
                           (fun _ => Some (leftover_document blackbox_update_paths))
                           blackbox_update_paths [blackbox_component] tt in
     (r, w2, EvOpen leftover_path :: t2)).
Proof.
  assert (Hs : StronglySorted (fun a b => String.compare (fst a) (fst b) = Lt) blackbox_update_paths).
  { repeat constructor. }
  split; [reflexivity|]. split; [exact Hs|].
  apply (find_leftover_updates_resumes_saved_list example_update_sys false
           (fun _ => Some (leftover_document blackbox_update_paths)) [blackbox_component] tt
           "recipe" tt blackbox_update_paths).
  - reflexivity.
  - reflexivity.
  - exact Hs.
  - discriminate.
Defined.

Lemma install_leftover_updates_cleanup_witness :
  let '(r, w', t) := example_leftover_install in
  (r = Panic /\ forall e, In e t -> exists k paths p, In (k, paths) blackbox_update_paths /\
                                     In p paths /\ e = EvOpen (p ++ "recipe.json")) \/
  (r = Done tt /\ exists w_c fs',
     FileSystem.remove_dir_all Download.get_temp_folder_path (us_fs example_update_sys w_c)
       = (true, fs') /\
     w' = us_set_fs example_update_sys fs' w_c /\
     FileSystem.lookup leftover_path (FileSystem.files fs') = None) \/
  (r = Done tt /\ exists t0, t = t0 ++ [EvRemove leftover_path]).
Proof.
  apply (install_leftover_updates_cleanup example_update_sys false recipe_example_parse
           blackbox_update_paths [blackbox_component] tt).
  vm_compute. reflexivity.
Defined.

Lemma update_without_downloads_keeps_manifest_witness :
  Download.dload_and_verify_updates "https://" (fun _ => None) "neco" "u" "p" "LSOC" "stable"
    agent_update_manifest empty_fs
  = ([], snd (Download.dload_and_verify_updates "https://" (fun _ => None) "neco" "u" "p" "LSOC"
                "stable" agent_update_manifest empty_fs)) /\
  update_download_and_install example_update_sys false recipe_example_parse "https://"
    (fun _ => None) tt
  = (Done tt, us_set_fs example_update_sys
                (snd (Download.dload_and_verify_updates "https://" (fun _ => None) "neco" "u" "p"
                        "LSOC" "stable" agent_update_manifest empty_fs)) tt,
     [EvPublish "State" "Starting update download & install."]).
Proof.
  split; [vm_compute; reflexivity|].
  apply (update_without_downloads_keeps_manifest example_update_sys false recipe_example_parse
           "https://" (fun _ => None) tt agent_update_manifest settings_loaded_example
           [blackbox_component; SettingsFile.agent_component]).
  - reflexivity.
  - reflexivity.
  - reflexivity.
  - vm_compute. reflexivity.
Defined.

Lemma update_installs_agent_first_witness :
  fst example_download <> [] /\
  BTree.get APP_NAME (fst (fst example_unpack))
    = Some ["/etc/NeutronCommunicator/.vc-temp/version_control/NeutronCommunicator/1.3.0-extracted/"] /\
  exists pre post, snd example_update_run = pre ++ post /\
    (forall e, In e pre ->
       (exists msg, e = EvPublish "State" msg /\ msg <> "Updating component(s)...") \/
       (exists args, e = EvRun "unzip" args) \/ (exists p, e = EvRemove p) \/
       (exists p, In p ["/etc/NeutronCommunicator/.vc-temp/version_control/NeutronCommunicator/1.3.0-extracted/"]
                  /\ e = EvOpen (p ++ "recipe.json")) \/
       e = EvWriteJson leftover_path
             (leftover_document (btree_remove APP_NAME (fst (fst example_unpack))))) /\
    (In (EvWriteJson leftover_path
           (leftover_document (btree_remove APP_NAME (fst (fst example_unpack))))) pre <->
       btree_remove APP_NAME (fst (fst example_unpack)) <> []) /\
    ((Done tt = Panic /\ post = []) \/
     (Done tt = Done tt /\ exists post', post = EvPublish "State" "Updating component(s)..." :: post')).
Proof.
  split; [vm_compute; discriminate|]. split; [vm_compute; reflexivity|].
  apply (update_installs_agent_first example_update_sys false recipe_example_parse "https://"
           (serve_all update_body) tt agent_update_manifest settings_loaded_example
           [blackbox_component; SettingsFile.agent_component]
           (fst example_download) (snd example_download) (fst (fst example_unpack)) tt
           (snd example_unpack)
           ["/etc/NeutronCommunicator/.vc-temp/version_control/NeutronCommunicator/1.3.0-extracted/"]
           (Done tt) tt (snd example_update_run)).
  - reflexivity.
  - reflexivity.
  - reflexivity.
  - vm_compute. reflexivity.
  - vm_compute. discriminate.
  - vm_compute. reflexivity.
  - vm_compute. reflexivity.
  - vm_compute. reflexivity.
Defined.

End UpdateFlowProofs.

Module QueryProofs.
Import Query.
Local Abbreviation split_bind := RecipesProofs.io_bind_split.

(** [split(" - ")] of a string without dashes, and of such a string
    followed by the separator. *)
Lemma split_dash_cons a rest :
  (forall b r, rest = String b r -> Ascii.eqb b "-" = false) ->
  split_dash (String a rest) = cons_head a (split_dash rest).
Proof.
  intros Hb. destruct rest as [|b [|c r]]; [reflexivity|reflexivity|].
  cbn [split_dash]. rewrite (Hb b _ eq_refl), andb_false_r, andb_false_l. reflexivity.
Qed.

Lemma no_dash_head s a s' : str_contains "-" s = false -> s = String a s' -> Ascii.eqb a "-" = false.
Proof. intros H ->. simpl in H. apply orb_false_iff in H as [H _]. exact H. Qed.

Lemma split_dash_no_dash s : str_contains "-" s = false -> split_dash s = [s].
Proof.
  induction s as [|a s IH]; intros H; [reflexivity|].
  simpl in H. apply orb_false_iff in H as [_ H].
  rewrite split_dash_cons by (intros b r E; exact (no_dash_head _ _ _ H E)).
  rewrite (IH H). reflexivity.
Qed.

Lemma split_dash_app s x :
  str_contains "-" s = false -> split_dash (s ++ " - " ++ x) = s :: split_dash x.
Proof.
  induction s as [|a s IH]; intros H; [reflexivity|].
  simpl in H. apply orb_false_iff in H as [_ H].
  change ((String a s ++ " - " ++ x)%string) with (String a (s ++ " - " ++ x)).
  rewrite split_dash_cons.
  - rewrite (IH H). reflexivity.
  - intros b r E. destruct s as [|b' s'].
    + injection E as <- _. reflexivity.
    + injection E as <- _. exact (no_dash_head _ _ _ H eq_refl).
Qed.

Lemma split_dash_label n ty :
  str_contains "-" n = false -> str_contains "-" ty = false ->
  split_dash (n ++ " - " ++ ty) = [n; ty].
Proof. intros Hn Ht. rewrite (split_dash_app _ _ Hn), (split_dash_no_dash _ Ht). reflexivity. Qed.

Lemma find_filter {A} (f : A -> bool) l x :
  find f l = Some x -> exists rest, filter f l = x :: rest.
Proof.
  induction l as [|y l IH]; simpl; [discriminate|].
  destruct (f y); [intros E; injection E as ->; eauto|exact IH].
Qed.

Section Q.
Context {W : Type} (qs : QuerySys W) (parse_json : string -> option json).

Local Abbreviation sys := (qs_os qs).

Lemma execute_shell_eq c w :
  execute_shell qs c w =
    let '(r, w') := sys_output sys "sh" ["-c"; c] w in
    (match r with
     | Some res => if String.eqb (out_stderr res) "" then Ok (out_stdout res) else Err (out_stderr res)
     | None => Err "Internal Error"
     end, w', [EvRun "sh" ["-c"; c]]).
Proof.
  unfold execute_shell, io_bind, cmd_output, io_ret.
  destruct (sys_output sys "sh" ["-c"; c] w) as [[res|] w']; [destruct (String.eqb _ _)|]; reflexivity.
Qed.

Lemma fetch_container_state_trace n w :
  exists st w1, fetch_container_state qs n w = (st, w1, [EvRun "sh" ["-c"; container_id_command n]]).
Proof.
  unfold fetch_container_state. unfold io_bind at 1. rewrite execute_shell_eq.
  destruct (sys_output sys "sh" ["-c"; container_id_command n] w) as [[res|] w1];
    [destruct (String.eqb _ _)|]; eexists _, _; reflexivity.
Qed.

Lemma fetch_service_state_trace n w :
  exists st w1, fetch_service_state qs n w = (st, w1, [EvRun "sh" ["-c"; service_state_command n]]).
Proof.
  unfold fetch_service_state, io_bind, cmd_output, io_ret.
  destruct (sys_output sys "sh" ["-c"; service_state_command n] w) as [[res|] w1];
    [destruct (String.eqb _ _)|]; eexists _, _; reflexivity.
Qed.

Lemma fetch_service_log_eq n w :
  fetch_service_log qs n w =
    let '(r, w') := sys_output sys "sh" ["-c"; service_log_command n] w in
    (match r with
     | Some res => if String.eqb (out_stderr res) "" then out_stdout res
                   else ("Failed to get service log. >> " ++ trim (out_stderr res))%string
     | None => ("Failed to get service log. >> " ++ trim "Internal Error")%string
     end, w', [EvRun "sh" ["-c"; service_log_command n]]).
Proof.
  unfold fetch_service_log. unfold io_bind at 1. rewrite execute_shell_eq.
  destruct (sys_output sys "sh" ["-c"; service_log_command n] w) as [[res|] w'];
    [destruct (String.eqb _ _)|]; reflexivity.
Qed.

Lemma fetch_container_log_eq n w :
  fetch_container_log qs n w =
    let '(r, w') := sys_output sys "sh" ["-c"; container_log_command n] w in
    (match r with
     | Some res => if String.eqb (out_stderr res) "" then out_stdout res
                   else ("Failed to get container log. >> " ++ trim (out_stderr res))%string
     | None => ("Failed to get container log. >> " ++ trim "Internal Error")%string
     end, w', [EvRun "sh" ["-c"; container_log_command n]]).
Proof.
  unfold fetch_container_log. unfold io_bind at 1. rewrite execute_shell_eq.
  destruct (sys_output sys "sh" ["-c"; container_log_command n] w) as [[res|] w'];
    [destruct (String.eqb _ _)|]; reflexivity.
Qed.

Lemma component_states_spec cv x w e w1 t
    (H : component_states qs cv x w = (e, w1, t)) :
  map (fun c => as_str_or_default (jindex c "component")) e =
    (match UpdateComponent.container_name x with
     | Some _ => [(UpdateComponent.name x ++ " - Container")%string] | None => [] end) ++
    (match UpdateComponent.service_name x with
     | Some _ => [(UpdateComponent.name x ++ " - Service")%string] | None => [] end) /\
  Forall2 (fun c ev => exists n st,
     (UpdateComponent.container_name x = Some n /\
      c = component_entry (UpdateComponent.name x ++ " - Container") (version_or_unknown cv x) st /\
      ev = EvRun "sh" ["-c"; container_id_command n]) \/
     (UpdateComponent.service_name x = Some n /\
      c = component_entry (UpdateComponent.name x ++ " - Service") (version_or_unknown cv x) st /\
      ev = EvRun "sh" ["-c"; service_state_command n])) e t.
Proof.
  unfold component_states in H.
  apply split_bind in H as (c & wa & t1 & t2 & H1 & H2 & ->).
  apply split_bind in H2 as (s & wb & t3 & t4 & H3 & H4 & ->).
  unfold io_ret in H4. injection H4 as <- <- <-. rewrite app_nil_r.
  assert (Hc : map (fun c => as_str_or_default (jindex c "component")) c =
                 match UpdateComponent.container_name x with
                 | Some _ => [(UpdateComponent.name x ++ " - Container")%string] | None => [] end /\
               Forall2 (fun c ev => exists n st,
                 (UpdateComponent.container_name x = Some n /\
                  c = component_entry (UpdateComponent.name x ++ " - Container") (version_or_unknown cv x) st /\
                  ev = EvRun "sh" ["-c"; container_id_command n]) \/
                 (UpdateComponent.service_name x = Some n /\
                  c = component_entry (UpdateComponent.name x ++ " - Service") (version_or_unknown cv x) st /\
                  ev = EvRun "sh" ["-c"; service_state_command n])) c t1).
  { destruct (UpdateComponent.container_name x) as [n|] eqn:Hn.
    - apply split_bind in H1 as (st & wc & ta & tb & Hst & Hr & ->).
      destruct (fetch_container_state_trace n w) as (st' & wc' & E). rewrite E in Hst.
      injection Hst as <- <- <-. unfold io_ret in Hr. injection Hr as <- <- <-.
      split; [reflexivity|]. constructor; [|constructor].
      exists n, st'. left. auto.
    - unfold io_ret in H1. injection H1 as <- <- <-. split; constructor. }
  assert (Hs : map (fun c => as_str_or_default (jindex c "component")) s =
                 match UpdateComponent.service_name x with
                 | Some _ => [(UpdateComponent.name x ++ " - Service")%string] | None => [] end /\
               Forall2 (fun c ev => exists n st,
                 (UpdateComponent.container_name x = Some n /\
                  c = component_entry (UpdateComponent.name x ++ " - Container") (version_or_unknown cv x) st /\
                  ev = EvRun "sh" ["-c"; container_id_command n]) \/
                 (UpdateComponent.service_name x = Some n /\
                  c = component_entry (UpdateComponent.name x ++ " - Service") (version_or_unknown cv x) st /\
                  ev = EvRun "sh" ["-c"; service_state_command n])) s t3).
  { destruct (UpdateComponent.service_name x) as [n|] eqn:Hn.
    - apply split_bind in H3 as (st & wc & ta & tb & Hst & Hr & ->).
      destruct (fetch_service_state_trace n wa) as (st' & wc' & E). rewrite E in Hst.
      injection Hst as <- <- <-. unfold io_ret in Hr. injection Hr as <- <- <-.
      split; [reflexivity|]. constructor; [|constructor].
      exists n, st'. right. auto.
    - unfold io_ret in H3. injection H3 as <- <- <-. split; constructor. }
  destruct Hc as [Lc Fc], Hs as [Ls Fs]. split.
  - rewrite map_app, Lc, Ls. reflexivity.
  - apply Forall2_app; assumption.
Qed.

Lemma states_loop_spec cv comps w cs w1 t
    (H : states_loop qs cv comps w = (cs, w1, t)) :
  map (fun c => as_str_or_default (jindex c "component")) cs =
    flat_map (fun x =>
      if String.eqb (UpdateComponent.name x) APP_NAME then [] else
      (match UpdateComponent.container_name x with
       | Some _ => [(UpdateComponent.name x ++ " - Container")%string] | None => [] end) ++
      (match UpdateComponent.service_name x with
       | Some _ => [(UpdateComponent.name x ++ " - Service")%string] | None => [] end)) comps /\
  Forall2 (fun c ev => exists x n st, In x comps /\ UpdateComponent.name x <> APP_NAME /\
     ((UpdateComponent.container_name x = Some n /\
       c = component_entry (UpdateComponent.name x ++ " - Container") (version_or_unknown cv x) st /\
       ev = EvRun "sh" ["-c"; container_id_command n]) \/
      (UpdateComponent.service_name x = Some n /\
       c = component_entry (UpdateComponent.name x ++ " - Service") (version_or_unknown cv x) st /\
       ev = EvRun "sh" ["-c"; service_state_command n]))) cs t.
Proof.
  revert w cs w1 t H. induction comps as [|x comps IH]; intros w cs w1 t H.
  - cbn [states_loop] in H. unfold io_ret in H. injection H as <- <- <-. split; constructor.
  - cbn [states_loop] in H. cbn [flat_map].
    destruct (String.eqb (UpdateComponent.name x) APP_NAME) eqn:Ha.
    + destruct (IH _ _ _ _ H) as [L F]. split; [exact L|].
      eapply Forall2_impl; [|exact F].
      intros c ev (y & n & st & Hy & Hn & P). exists y, n, st. split; [right; exact Hy|]. auto.
    + apply String.eqb_neq in Ha.
      apply split_bind in H as (e & wa & t1 & t2 & H1 & H2 & ->).
      apply split_bind in H2 as (es & wb & t3 & t4 & H3 & H4 & ->).
      unfold io_ret in H4. injection H4 as <- <- <-. rewrite app_nil_r.
      destruct (component_states_spec _ _ _ _ _ _ H1) as [Le Fe].
      destruct (IH _ _ _ _ H3) as [Ls Fs]. split.
      * rewrite map_app, Le, Ls. reflexivity.
      * apply Forall2_app.
        -- eapply Forall2_impl; [|exact Fe].
           intros c ev (n & st & P). exists x, n, st. split; [left; reflexivity|]. auto.
        -- eapply Forall2_impl; [|exact Fs].
           intros c ev (y & n & st & Hy & Hn & P). exists y, n, st. split; [right; exact Hy|]. auto.
Qed.

(** [get_component_states], once its three mutexes are locked, reports the
    components with the component backhaul username as id: the agent is
    never listed, every other component gets a "Container" entry when it
    has a container name and then a "Service" entry when it has a service
    name, each with its recorded version or "Unknown"; exactly one state
    command runs per entry, in the same order, on that entry's container
    or service. *)
Theorem get_component_states_entries w settings cv comps r w' t
    (Hs : qs_lock_settings qs w = Some settings)
    (Hv : qs_lock_component_versions qs w = Some cv)
    (Hc : qs_lock_update_components qs w = Some comps)
    (H : get_component_states qs w = (r, w', t)) :
  exists cs,
    r = Ok (JObj [("id", JStr (ComponentMqttClient.username (Settings.component_mqtt_client settings)));
                  ("components", JArr cs)]) /\
    map (fun c => as_str_or_default (jindex c "component")) cs =
      flat_map (fun x =>
        if String.eqb (UpdateComponent.name x) APP_NAME then [] else
        (match UpdateComponent.container_name x with
         | Some _ => [(UpdateComponent.name x ++ " - Container")%string] | None => [] end) ++
        (match UpdateComponent.service_name x with
         | Some _ => [(UpdateComponent.name x ++ " - Service")%string] | None => [] end)) comps /\
    Forall2 (fun c ev => exists x n st, In x comps /\ UpdateComponent.name x <> APP_NAME /\
       ((UpdateComponent.container_name x = Some n /\
         c = component_entry (UpdateComponent.name x ++ " - Container") (version_or_unknown cv x) st /\
         ev = EvRun "sh" ["-c"; container_id_command n]) \/
        (UpdateComponent.service_name x = Some n /\
         c = component_entry (UpdateComponent.name x ++ " - Service") (version_or_unknown cv x) st /\
         ev = EvRun "sh" ["-c"; service_state_command n]))) cs t.
Proof.
  unfold get_component_states in H. rewrite Hs, Hv, Hc in H.
  apply split_bind in H as (cs & w2 & t1 & t2 & H1 & H2 & ->).
  unfold io_ret in H2. injection H2 as <- <- <-. rewrite app_nil_r.
  destruct (states_loop_spec _ _ _ _ _ _ H1) as [L F].
  exists cs. auto.
Qed.

Lemma get_component_log_fetch data w request label component_name comp_type comps comp rest fetch
    (Hp : (v <-? parse_json (replace_quotes data) ;; de_json_in v) = Some (request, label))
    (Hs : split_dash label = [component_name; comp_type])
    (Hc : qs_lock_update_components qs w = Some comps)
    (Hf : filter (fun x => String.eqb (UpdateComponent.name x) component_name) comps = comp :: rest)
    (Hl : log_fetch qs comp comp_type = Some fetch) :
  get_component_log qs parse_json data w =
    let '(d, w1, t) := fetch w in
    (if String.eqb d "" then
       Err (IoError ("Failed to fetch the log. Component: " ++ UpdateComponent.name comp ++
                     " | Type requested: " ++ comp_type ++ " | <type>.name == None"))
     else Ok (JObj [("request", JStr request); ("data", JStr d)]), w1, t).
Proof.
  unfold get_component_log. rewrite Hp, Hs, Hc, Hf, Hl.
  unfold io_bind, io_ret. destruct (fetch w) as [[d w1] t]. rewrite app_nil_r. reflexivity.
Qed.

Lemma log_fetch_service comp n :
  UpdateComponent.service_name comp = Some n ->
  log_fetch qs comp "Service" = Some (fetch_service_log qs n).
Proof. intros Hn. unfold log_fetch. simpl. rewrite Hn. reflexivity. Qed.

Lemma log_fetch_container comp n :
  UpdateComponent.container_name comp = Some n ->
  log_fetch qs comp "Container" = Some (fetch_container_log qs n).
Proof. intros Hn. unfold log_fetch. simpl. rewrite Hn. reflexivity. Qed.

Lemma label_lookup comps x
    (Hf : find (fun y => String.eqb (UpdateComponent.name y) (UpdateComponent.name x)) comps = Some x)
    (Hd : str_contains "-" (UpdateComponent.name x) = false) ty :
  str_contains "-" ty = false ->
  split_dash (UpdateComponent.name x ++ " - " ++ ty) = [UpdateComponent.name x; ty] /\
  exists rest, filter (fun y => String.eqb (UpdateComponent.name y) (UpdateComponent.name x)) comps
                 = x :: rest.
Proof.
  intros Ht. split; [exact (split_dash_label _ _ Hd Ht)|]. exact (find_filter _ _ _ Hf).
Qed.

(** A component label as [get_component_states] reports it, for a component
    whose name has no dash and which is the first of its name in
    [UPDATE_COMPONENTS], is accepted by [get_component_log]: "name - Service"
    fetches the journal of its service and "name - Container" the logs of
    its container, and the reply carries the request id and the fetched text,
    or an error when that text is empty. *)
Theorem get_component_log_accepts_state_labels data w comps x request
    (Hc : qs_lock_update_components qs w = Some comps)
    (Hf : find (fun y => String.eqb (UpdateComponent.name y) (UpdateComponent.name x)) comps = Some x)
    (Hd : str_contains "-" (UpdateComponent.name x) = false) :
  (forall n, UpdateComponent.service_name x = Some n ->
     (v <-? parse_json (replace_quotes data) ;; de_json_in v) =
       Some (request, (UpdateComponent.name x ++ " - Service")%string) ->
     get_component_log qs parse_json data w =
       let '(d, w1, t) := fetch_service_log qs n w in
       (if String.eqb d "" then
          Err (IoError ("Failed to fetch the log. Component: " ++ UpdateComponent.name x ++
                        " | Type requested: Service | <type>.name == None"))
        else Ok (JObj [("request", JStr request); ("data", JStr d)]), w1, t)) /\
  (forall n, UpdateComponent.container_name x = Some n ->
     (v <-? parse_json (replace_quotes data) ;; de_json_in v) =
       Some (request, (UpdateComponent.name x ++ " - Container")%string) ->
     get_component_log qs parse_json data w =
       let '(d, w1, t) := fetch_container_log qs n w in
       (if String.eqb d "" then
          Err (IoError ("Failed to fetch the log. Component: " ++ UpdateComponent.name x ++
                        " | Type requested: Container | <type>.name == None"))
        else Ok (JObj [("request", JStr request); ("data", JStr d)]), w1, t)).
Proof.
  split; intros n Hn Hp.
  - destruct (label_lookup comps x Hf Hd "Service" eq_refl) as [Hs [rest Hr]].
    exact (get_component_log_fetch data w request _ _ _ comps x rest _ Hp Hs Hc Hr
             (log_fetch_service x n Hn)).
  - destruct (label_lookup comps x Hf Hd "Container" eq_refl) as [Hs [rest Hr]].
    exact (get_component_log_fetch data w request _ _ _ comps x rest _ Hp Hs Hc Hr
             (log_fetch_container x n Hn)).
Qed.

(** A log command that fails (output on stderr, or [sh] not spawned) does
    not make [get_component_log] fail: for a state label as in
    [get_component_log_accepts_state_labels], the reply is [Ok] and its
    data is the failure text, prefixed by "Failed to get service log. >> "
    or "Failed to get container log. >> ". *)
Theorem get_component_log_reports_failed_fetch data w comps x request
    (Hc : qs_lock_update_components qs w = Some comps)
    (Hf : find (fun y => String.eqb (UpdateComponent.name y) (UpdateComponent.name x)) comps = Some x)
    (Hd : str_contains "-" (UpdateComponent.name x) = false) :
  (forall n res w1, UpdateComponent.service_name x = Some n ->
     (v <-? parse_json (replace_quotes data) ;; de_json_in v) =
       Some (request, (UpdateComponent.name x ++ " - Service")%string) ->
     sys_output sys "sh" ["-c"; service_log_command n] w = (res, w1) ->
     (forall o, res = Some o -> out_stderr o <> "") ->
     get_component_log qs parse_json data w =
       (Ok (JObj [("request", JStr request);
                  ("data", JStr ("Failed to get service log. >> " ++
                                 trim (match res with Some o => out_stderr o
                                                    | None => "Internal Error" end)))]),
        w1, [EvRun "sh" ["-c"; service_log_command n]])) /\
  (forall n res w1, UpdateComponent.container_name x = Some n ->
     (v <-? parse_json (replace_quotes data) ;; de_json_in v) =
       Some (request, (UpdateComponent.name x ++ " - Container")%string) ->
     sys_output sys "sh" ["-c"; container_log_command n] w = (res, w1) ->
     (forall o, res = Some o -> out_stderr o <> "") ->
     get_component_log qs parse_json data w =
       (Ok (JObj [("request", JStr request);
                  ("data", JStr ("Failed to get container log. >> " ++
                                 trim (match res with Some o => out_stderr o
                                                    | None => "Internal Error" end)))]),
        w1, [EvRun "sh" ["-c"; container_log_command n]])).
Proof.
  split; intros n res w1 Hn Hp Ho He.
  - destruct (label_lookup comps x Hf Hd "Service" eq_refl) as [Hs [rest Hr]].
    rewrite (get_component_log_fetch data w request _ _ _ comps x rest _ Hp Hs Hc Hr
               (log_fetch_service x n Hn)).
    rewrite fetch_service_log_eq, Ho.
    destruct res as [o|]; [|reflexivity].
    replace (String.eqb (out_stderr o) "") with false
      by (symmetry; apply String.eqb_neq; exact (He o eq_refl)).
    reflexivity.
  - destruct (label_lookup comps x Hf Hd "Container" eq_refl) as [Hs [rest Hr]].
    rewrite (get_component_log_fetch data w request _ _ _ comps x rest _ Hp Hs Hc Hr
               (log_fetch_container x n Hn)).
    rewrite fetch_container_log_eq, Ho.
    destruct res as [o|]; [|reflexivity].
    replace (String.eqb (out_stderr o) "") with false
      by (symmetry; apply String.eqb_neq; exact (He o eq_refl)).
    reflexivity.
Qed.

Lemma fetch_service_log_trace n w :
  exists d w1, fetch_service_log qs n w = (d, w1, [EvRun "sh" ["-c"; service_log_command n]]).
Proof.
  rewrite fetch_service_log_eq. destruct (sys_output _ _ _ w) as [r w1]. eexists _, _. reflexivity.
Qed.

Lemma fetch_container_log_trace n w :
  exists d w1, fetch_container_log qs n w = (d, w1, [EvRun "sh" ["-c"; container_log_command n]]).
Proof.
  rewrite fetch_container_log_eq. destruct (sys_output _ _ _ w) as [r w1]. eexists _, _. reflexivity.
Qed.

(** Every call of [get_component_log] either answers with an error without
    running anything or touching the world, or runs exactly one log command:
    this happens only when the request deserializes, its component splits
    into a name and a type, [UPDATE_COMPONENTS] locks, a component carries
    that name, and the first such component has a service name (type
    "Service": [journalctl] on that service) or a container name (type
    "Container": [docker logs] on that container). *)
Theorem get_component_log_effects data w r w' t
    (H : get_component_log qs parse_json data w = (r, w', t)) :
  (t = [] /\ w' = w /\ exists e, r = Err e) \/
  (exists request label component_name comp_type comps comp rest n,
     (v <-? parse_json (replace_quotes data) ;; de_json_in v) = Some (request, label) /\
     split_dash label = [component_name; comp_type] /\
     qs_lock_update_components qs w = Some comps /\
     filter (fun x => String.eqb (UpdateComponent.name x) component_name) comps = comp :: rest /\
     ((comp_type = "Service" /\ UpdateComponent.service_name comp = Some n /\
       t = [EvRun "sh" ["-c"; service_log_command n]]) \/
      (comp_type = "Container" /\ UpdateComponent.container_name comp = Some n /\
       t = [EvRun "sh" ["-c"; container_log_command n]]))).
Proof.
  unfold get_component_log in H.
  destruct (v <-? parse_json (replace_quotes data) ;; de_json_in v) as [[request label]|] eqn:Hp;
    [|injection H as <- <- <-; left; eauto].
  destruct (split_dash label) as [|component_name [|comp_type [|x l]]] eqn:Hs;
    try (injection H as <- <- <-; left; eauto; fail).
  destruct (qs_lock_update_components qs w) as [comps|] eqn:Hc;
    [|injection H as <- <- <-; left; eauto].
  destruct (filter _ comps) as [|comp rest] eqn:Hf; [injection H as <- <- <-; left; eauto|].
  destruct (log_fetch qs comp comp_type) as [fetch|] eqn:Hl; [|injection H as <- <- <-; left; eauto].
  unfold log_fetch in Hl.
  destruct (String.eqb comp_type "Service") eqn:E1;
    [|destruct (String.eqb comp_type "Container") eqn:E2; [|discriminate]].
  - apply String.eqb_eq in E1. injection Hl as <-.
    destruct (UpdateComponent.service_name comp) as [n|] eqn:Hn.
    + destruct (fetch_service_log_trace n w) as (d & w1 & E).
      unfold io_bind, io_ret in H. rewrite E in H. injection H as _ <- <-.
      right. exists request, label, component_name, comp_type, comps, comp, rest, n.
      repeat split; auto.
    + unfold io_bind, io_ret in H. injection H as <- <- <-. left; eauto.
  - apply String.eqb_eq in E2. injection Hl as <-.
    destruct (UpdateComponent.container_name comp) as [n|] eqn:Hn.
    + destruct (fetch_container_log_trace n w) as (d & w1 & E).
      unfold io_bind, io_ret in H. rewrite E in H. injection H as _ <- <-.
      right. exists request, label, component_name, comp_type, comps, comp, rest, n.
      repeat split; auto.
    + unfold io_bind, io_ret in H. injection H as <- <- <-. left; eauto.
Qed.

(** An [Ok] reply of [get_component_log] echoes the request id of the
    deserialized request and carries non-empty log data. *)
Theorem get_component_log_ok_reply data w doc w' t
    (H : get_component_log qs parse_json data w = (Ok doc, w', t)) :
  exists request label d,
    (v <-? parse_json (replace_quotes data) ;; de_json_in v) = Some (request, label) /\
    doc = JObj [("request", JStr request); ("data", JStr d)] /\ d <> "".
Proof.
  unfold get_component_log in H.
  destruct (v <-? parse_json (replace_quotes data) ;; de_json_in v) as [[request label]|] eqn:Hp;
    [|discriminate].
  destruct (split_dash label) as [|component_name [|comp_type [|x l]]] eqn:Hs; try discriminate.
  destruct (qs_lock_update_components qs w) as [comps|]; [|discriminate].
  destruct (filter _ comps) as [|comp rest]; [discriminate|].
  destruct (log_fetch qs comp comp_type) as [fetch|]; [|discriminate].
  unfold io_bind, io_ret in H. destruct (fetch w) as [[d w1] t1].
  destruct (String.eqb d "") eqn:Ed; [discriminate|].
  injection H as <- _ _. exists request, label, d. split; [reflexivity|]. split; [reflexivity|].
  apply String.eqb_neq. exact Ed.
Qed.

End Q.
Lemma get_component_states_entries_witness :
  exists cs,
    fst (fst (get_component_states example_query_sys tt)) =
      Ok (JObj [("id", JStr "u"); ("components", JArr cs)]) /\
    map (fun c => as_str_or_default (jindex c "component")) cs =
      ["WebInterface - Container"; "BlackBox - Service"] /\
    length cs = length (snd (get_component_states example_query_sys tt)).
Proof.
  assert (H : get_component_states example_query_sys tt =
                (fst (fst (get_component_states example_query_sys tt)),
                 snd (fst (get_component_states example_query_sys tt)),
                 snd (get_component_states example_query_sys tt)))
    by (vm_compute; reflexivity).
  destruct (get_component_states_entries example_query_sys tt settings_loaded_example
              [("BlackBox", "1.2.0"); (APP_NAME, "1.3.0")]
              [webinterface_component; blackbox_component; SettingsFile.agent_component]
              _ _ _ eq_refl eq_refl eq_refl H) as (cs & A & B & F).
  exists cs. split; [exact A|]. split; [rewrite B; reflexivity|]. exact (Forall2_length F).
Defined.

Lemma get_component_log_accepts_state_labels_witness :
  find (fun y => String.eqb (UpdateComponent.name y) "BlackBox")
    [webinterface_component; blackbox_component; SettingsFile.agent_component] = Some blackbox_component /\
  str_contains "-" "BlackBox" = false /\
  get_component_log example_query_sys blackbox_log_request
    "{'id': 'neco', 'request': 'r-17', 'component': 'BlackBox - Service'}" tt =
    (Ok (JObj [("request", JStr "r-17"); ("data", JStr "Oct 18 blackbox started")]), tt,
     [EvRun "sh" ["-c"; "journalctl --no-pager -u blackbox.service"]]).
Proof.
  split; [reflexivity|]. split; [reflexivity|].
  destruct (get_component_log_accepts_state_labels example_query_sys blackbox_log_request
              "{'id': 'neco', 'request': 'r-17', 'component': 'BlackBox - Service'}" tt
              [webinterface_component; blackbox_component; SettingsFile.agent_component]
              blackbox_component "r-17" eq_refl eq_refl eq_refl) as [A _].
  rewrite (A "blackbox.service" eq_refl eq_refl). vm_compute. reflexivity.
Defined.

Lemma get_component_log_reports_failed_fetch_witness :
  find (fun y => String.eqb (UpdateComponent.name y) "WebInterface")
    [webinterface_component; blackbox_component; SettingsFile.agent_component] = Some webinterface_component /\
  str_contains "-" "WebInterface" = false /\
  get_component_log example_query_sys webinterface_log_request
    "{'id': 'neco', 'request': 'r-18', 'component': 'WebInterface - Container'}" tt =
    (Ok (JObj [("request", JStr "r-18");
               ("data", JStr "Failed to get container log. >> Error: No such container: webinterface")]),
     tt, [EvRun "sh" ["-c"; "docker logs -t webinterface"]]).
Proof.
  split; [reflexivity|]. split; [reflexivity|].
  destruct (get_component_log_reports_failed_fetch example_query_sys webinterface_log_request
              "{'id': 'neco', 'request': 'r-18', 'component': 'WebInterface - Container'}" tt
              [webinterface_component; blackbox_component; SettingsFile.agent_component]
              webinterface_component "r-18" eq_refl eq_refl eq_refl) as [_ B].
  remember (sys_output (qs_os example_query_sys) "sh" ["-c"; container_log_command "webinterface"] tt)
    as out eqn:Ho.
  destruct out as [res w1].
  assert (He : forall o, res = Some o -> out_stderr o <> "").
  { intros o E. rewrite E in Ho. vm_compute in Ho. injection Ho as E1 _. rewrite E1.
    cbn. discriminate. }
  rewrite (B "webinterface" res w1 eq_refl eq_refl (eq_sym Ho) He).
  vm_compute in Ho. injection Ho as -> ->. vm_compute. reflexivity.
Defined.

Lemma get_component_log_effects_witness :
  (snd example_blackbox_log = [] /\ snd (fst example_blackbox_log) = tt /\
   exists e, fst (fst example_blackbox_log) = Err e) \/
  (exists n, snd example_blackbox_log = [EvRun "sh" ["-c"; service_log_command n]] \/
             snd example_blackbox_log = [EvRun "sh" ["-c"; container_log_command n]]).
Proof.
  assert (H : get_component_log example_query_sys blackbox_log_request
                "{'id': 'neco', 'request': 'r-17', 'component': 'BlackBox - Service'}" tt =
              (fst (fst example_blackbox_log), snd (fst example_blackbox_log), snd example_blackbox_log))
    by (vm_compute; reflexivity).
  destruct (get_component_log_effects example_query_sys blackbox_log_request _ tt _ _ _ H)
    as [L|(request & label & cn & ct & comps & comp & rest & n & _ & _ & _ & _ & [(_ & _ & Ht)|(_ & _ & Ht)])].
  - left. exact L.
  - right. exists n. left. exact Ht.
  - right. exists n. right. exact Ht.
Defined.

Lemma get_component_log_ok_reply_witness :
  exists request label d,
    (v <-? blackbox_log_request
             (replace_quotes "{'id': 'neco', 'request': 'r-17', 'component': 'BlackBox - Service'}") ;;
     de_json_in v) = Some (request, label) /\
    JObj [("request", JStr "r-17"); ("data", JStr "Oct 18 blackbox started")] =
      JObj [("request", JStr request); ("data", JStr d)] /\ d <> "".
Proof.
  apply (get_component_log_ok_reply example_query_sys blackbox_log_request
           "{'id': 'neco', 'request': 'r-17', 'component': 'BlackBox - Service'}" tt
           (JObj [("request", JStr "r-17"); ("data", JStr "Oct 18 blackbox started")]) tt
           [EvRun "sh" ["-c"; "journalctl --no-pager -u blackbox.service"]]).
  vm_compute. reflexivity.
Defined.

End QueryProofs.
